(** * AutoDub front end: the job-progress orchestration of [scripts/app.js]

    A shallow embedding of the browser client's progress handling: the step
    indicator driven by server-sent progress events, the two progress
    subscriptions (dubbing and download-only), the submit guards, the
    request-error path and the file name of a saved download.

    JavaScript strings are byte strings holding UTF-8; DOM elements are
    records of the properties the script reads and writes; every handler is
    a function on the page state.  Handlers whose body sits in a
    [try]/[catch] run in a small state-and-exception monad. *)

From Stdlib Require Import ZArith Ascii String.
From stdpp Require Import base list strings pretty gmap.

Open Scope string_scope.
Open Scope Z_scope.

(** ** JavaScript helpers *)

(** [s.trim()]: strips white space and line terminators at both ends.
    The code points are TAB, LF, VT, FF, CR, SP, U+00A0, U+1680,
    U+2000..U+200A, U+2028, U+2029, U+202F, U+205F, U+3000 and U+FEFF, here
    in their UTF-8 encodings. *)
Definition ws1 (a : nat) : bool :=
  (Nat.leb 9 a && Nat.leb a 13) || Nat.eqb a 32.

Definition ws2 (a b : nat) : bool :=
  Nat.eqb a 194 && Nat.eqb b 160.

Definition ws3 (a b c : nat) : bool :=
  (Nat.eqb a 225 && Nat.eqb b 154 && Nat.eqb c 128)
  || (Nat.eqb a 226 && Nat.eqb b 128 &&
        ((Nat.leb 128 c && Nat.leb c 138) || Nat.eqb c 168 || Nat.eqb c 169
         || Nat.eqb c 175))
  || (Nat.eqb a 226 && Nat.eqb b 129 && Nat.eqb c 159)
  || (Nat.eqb a 227 && Nat.eqb b 128 && Nat.eqb c 128)
  || (Nat.eqb a 239 && Nat.eqb b 187 && Nat.eqb c 191).

(** Strips the white space a byte list starts with; [fwd] tells whether the
    bytes of a code point come in reading order or reversed. *)
Fixpoint strip_ws (fwd : bool) (l : list nat) : list nat :=
  match l with
  | [] => []
  | a :: t1 =>
      if ws1 a then strip_ws fwd t1 else
      match t1 with
      | [] => l
      | b :: t2 =>
          if (if fwd then ws2 a b else ws2 b a) then strip_ws fwd t2 else
          match t2 with
          | [] => l
          | c :: t3 =>
              if (if fwd then ws3 a b c else ws3 c b a)
              then strip_ws fwd t3 else l
          end
      end
  end.

Definition bytes_of (s : string) : list nat :=
  map nat_of_ascii (list_ascii_of_string s).

Definition of_bytes (l : list nat) : string :=
  string_of_list_ascii (map ascii_of_nat l).

Definition trim (s : string) : string :=
  of_bytes (rev (strip_ws false (rev (strip_ws true (bytes_of s))))).

(** Truthiness of a string and of a possibly missing string. *)
Definition truthy (s : string) : bool := negb (String.eqb s "").

Definition truthy_opt (o : option string) : bool :=
  match o with
  | Some s => truthy s
  | None => false
  end.

(** [a || b] where [a] is a string, [undefined] or [null]. *)
Definition or_else (o : option string) (d : string) : string :=
  match o with
  | Some s => if truthy s then s else d
  | None => d
  end.

(** A value spliced into a template literal: [undefined] prints as such. *)
Definition template (o : option string) : string :=
  match o with
  | Some s => s
  | None => "undefined"
  end.

(** [arr.indexOf(x)]: the first position of [x], or -1. *)
Fixpoint indexOf_from (i : Z) (arr : list string) (x : string) : Z :=
  match arr with
  | [] => -1
  | y :: rest => if String.eqb y x then i else indexOf_from (i + 1) rest x
  end.

Definition indexOf (arr : list string) (x : string) : Z := indexOf_from 0 arr x.

(** ** Data *)

Definition STEP_ORDER : list string :=
  ["init"; "download"; "transcribe"; "translate"; "synthesize"; "render"].

(** The [progress] field of an event: an integer (one a JavaScript number
    holds and prints exactly), JSON [null], or a value that compares false
    with every number (the field is missing, or holds text that is not a
    number). *)
Inductive Progress :=
| PNum (z : Z)
| PNull
| PNone.

(** A decoded progress event.  A missing [step] or [status] behaves as a
    name the script does not know; a missing [message] is [None]. *)
Record ProgressEvent := {
  ev_step : string;
  ev_progress : Progress;
  ev_message : option string;
  ev_status : string
}.

(** The [data] of a stream message, by what [JSON.parse] makes of it. *)
Inductive Payload :=
| NotJson
| JsonNull
| JsonEvent (ev : ProgressEvent).

(** Exceptions.  The text of an engine's own errors is not fixed by the
    script, so they are kept symbolic. *)
Inductive EngineError :=
| JsonSyntaxError
| NullPropertyRead
| FetchFailed.

Inductive Exn :=
| Error (msg : string)
| Engine (e : EngineError).

Inductive Text :=
| Str (s : string)
| MessageOf (e : EngineError).

Definition exn_message (e : Exn) : Text :=
  match e with
  | Error msg => Str msg
  | Engine e => MessageOf e
  end.

Record Toast := { toast_text : Text; toast_success : bool }.

Record ConsoleEntry := { console_label : string; console_err : Exn }.

Inductive Request :=
| PostDub (url lang gender : string) (subtitle : bool)
| PostVideoInfo (url : string)
| PostDownloadStart (url format_id media_type : string).

(** The [detail] of a response body, by what the handlers do with it:
    [detail || ...] tests whether it is truthy and [new Error(...)] turns
    it into text.  [NoDetail] is a missing [detail], [TextDetail] a JSON
    string.  [OtherDetail] is any other JSON value (a number, a boolean,
    [null], a list or an object): [is_truthy] tells whether [||] keeps it
    (it drops [null], [false] and zero only) and [as_text] is what
    [String()] makes of it, [[object Object]] for an object and for a list
    holding one object, the empty string for an empty list. *)
Inductive Detail :=
| NoDetail
| TextDetail (s : string)
| OtherDetail (is_truthy : bool) (as_text : string).

(** [new Error(detail || fallback).message] *)
Definition detail_or (d : Detail) (fallback : string) : string :=
  match d with
  | NoDetail => fallback
  | TextDetail s => if truthy s then s else fallback
  | OtherDetail is_truthy as_text => if is_truthy then as_text else fallback
  end.

(** A response body, by what [res.json()] makes of it.  A JSON value that
    is neither an object nor [null] reads as an object without fields. *)
Inductive Body :=
| BodyNotJson
| BodyNull
| BodyObject (detail : Detail) (job_id : option string).

Record Response := { res_status : Z; res_body : Body }.

Definition res_ok (r : Response) : bool :=
  (200 <=? res_status r) && (res_status r <=? 299).

Inductive FetchResult :=
| Rejected
| Fulfilled (r : Response).

Inductive Flow := DubFlow | DownloadFlow.

(** An [EventSource] object with the handlers the script installed on it
    ([es_flow] tells which pair) and the job id they close over. *)
Record EventSource := {
  es_url : string;
  es_flow : Flow;
  es_job : option string;
  es_closed : bool
}.

Record Format := {
  format_id : string;
  quality : string;
  ext : string;
  filesize_mb : option Z
}.

Record VideoData := {
  title : option string;
  channel : string;
  thumbnail : string;
  duration : Z;
  video_formats : list Format;
  audio_formats : list Format
}.

(** An element of class [step]: its [data-step] attribute and whether its
    class list holds [active] and [done]. *)
Record StepEl := {
  data_step : string;
  cls_active : bool;
  cls_done : bool
}.

(** ** Page state *)

Record DubUI := {
  submitBtn_disabled : bool;
  btnLabel_hidden : bool;
  btnLoader_hidden : bool;
  progressSec_hidden : bool;
  progressBar_width : string;
  progressPct_text : string;
  logBox : list string;
  steps : list StepEl;
  stepLines : list bool;
  resultSec_hidden : bool;
  resultMeta_text : string;
  downloadLink_href : string
}.

Record DlUI := {
  videoData : option VideoData;
  dlMediaType : string;
  fetchInfoBtn_disabled : bool;
  fetchInfoBtn_text : string;
  dlStartBtn_disabled : bool;
  dlBtnLabel_hidden : bool;
  dlBtnLoader_hidden : bool;
  dlProgress_hidden : bool;
  dlProgressBar_width : string;
  dlProgressPct_text : string;
  dlProgressMsg_text : string;
  dlSaveBtns : list (option string)
}.

Record Env := {
  currentLang : string;
  toasts : list Toast;
  console : list ConsoleEntry;
  requests : list Request;
  sources : list EventSource
}.

Record Page := { dub : DubUI; dl : DlUI; env : Env }.

(** ** Translations *)

(** The entries of [TRANSLATIONS] the handlers below read. *)
Definition TRANSLATIONS : list (string * list (string * string)) :=
  [ ("en",
     [ ("toastNoUrl", "Please enter a YouTube URL.");
       ("toastComplete", "Dubbing complete! 🎉");
       ("toastDisconnect", "Lost connection to server.");
       ("fetchingInfo", "Searching…");
       ("dlDownloading", "Downloading…");
       ("dlComplete", "Download ready!") ]);
    ("ar",
     [ ("toastNoUrl", "من فضلك حط لينك فيديو يوتيوب الأول.");
       ("toastComplete", "الدبلجة خلصت بنجاح! 🎉");
       ("toastDisconnect", "الاتصال بالسيرفر اتقطع، حاول تاني.");
       ("fetchingInfo", "جاري البحث…");
       ("dlDownloading", "جاري التحميل…");
       ("dlComplete", "التحميل جاهز!") ]) ].

Fixpoint assoc {A : Type} (k : string) (l : list (string * A)) : option A :=
  match l with
  | [] => None
  | (k', v) :: rest => if String.eqb k' k then Some v else assoc k rest
  end.

(** The names every object literal inherits from [Object.prototype].  A
    lookup [o[k]] with such a [k] finds the inherited property whatever
    [o] holds: a function, or for [__proto__] the prototype itself.  Either
    counts as true and has none of the keys of the tables as a property.
    For every other [k] the lookup [o[k]] searches the keys [o] lists. *)
Definition Object_prototype_keys : list string :=
  ["constructor"; "__proto__"; "hasOwnProperty"; "isPrototypeOf";
   "propertyIsEnumerable"; "toLocaleString"; "toString"; "valueOf";
   "__defineGetter__"; "__defineSetter__"; "__lookupGetter__"; "__lookupSetter__"].

Definition inherited (k : string) : bool :=
  existsb (String.eqb k) Object_prototype_keys.

(** [tr(key)], for the keys the script passes: the string of the current
    language, of English when the language has no table, and the key
    itself when there is no string.  When the language is an inherited
    name, [TRANSLATIONS[currentLang]] is the inherited property, which has
    no string for the key. *)
Definition tr (lang key : string) : string :=
  if inherited lang then key
  else
    let strings :=
      match assoc lang TRANSLATIONS with
      | Some t => t
      | None => default [] (assoc "en" TRANSLATIONS)
      end in
    or_else (assoc key strings) key.

(** ** Field updates *)

Definition upd_dub (f : DubUI -> DubUI) (p : Page) : Page :=
  {| dub := f (dub p); dl := dl p; env := env p |}.

Definition upd_dl (f : DlUI -> DlUI) (p : Page) : Page :=
  {| dub := dub p; dl := f (dl p); env := env p |}.

Definition upd_env (f : Env -> Env) (p : Page) : Page :=
  {| dub := dub p; dl := dl p; env := f (env p) |}.

Definition set_lock (disabled label_hidden loader_hidden : bool) (d : DubUI) : DubUI :=
  {| submitBtn_disabled := disabled;
     btnLabel_hidden := label_hidden;
     btnLoader_hidden := loader_hidden;
     progressSec_hidden := progressSec_hidden d;
     progressBar_width := progressBar_width d;
     progressPct_text := progressPct_text d;
     logBox := logBox d;
     steps := steps d;
     stepLines := stepLines d;
     resultSec_hidden := resultSec_hidden d;
     resultMeta_text := resultMeta_text d;
     downloadLink_href := downloadLink_href d |}.

Definition set_progressSec_hidden (h : bool) (d : DubUI) : DubUI :=
  {| submitBtn_disabled := submitBtn_disabled d;
     btnLabel_hidden := btnLabel_hidden d;
     btnLoader_hidden := btnLoader_hidden d;
     progressSec_hidden := h;
     progressBar_width := progressBar_width d;
     progressPct_text := progressPct_text d;
     logBox := logBox d;
     steps := steps d;
     stepLines := stepLines d;
     resultSec_hidden := resultSec_hidden d;
     resultMeta_text := resultMeta_text d;
     downloadLink_href := downloadLink_href d |}.

Definition set_bar (width pct : string) (d : DubUI) : DubUI :=
  {| submitBtn_disabled := submitBtn_disabled d;
     btnLabel_hidden := btnLabel_hidden d;
     btnLoader_hidden := btnLoader_hidden d;
     progressSec_hidden := progressSec_hidden d;
     progressBar_width := width;
     progressPct_text := pct;
     logBox := logBox d;
     steps := steps d;
     stepLines := stepLines d;
     resultSec_hidden := resultSec_hidden d;
     resultMeta_text := resultMeta_text d;
     downloadLink_href := downloadLink_href d |}.

Definition set_logBox (entries : list string) (d : DubUI) : DubUI :=
  {| submitBtn_disabled := submitBtn_disabled d;
     btnLabel_hidden := btnLabel_hidden d;
     btnLoader_hidden := btnLoader_hidden d;
     progressSec_hidden := progressSec_hidden d;
     progressBar_width := progressBar_width d;
     progressPct_text := progressPct_text d;
     logBox := entries;
     steps := steps d;
     stepLines := stepLines d;
     resultSec_hidden := resultSec_hidden d;
     resultMeta_text := resultMeta_text d;
     downloadLink_href := downloadLink_href d |}.

Definition set_steps (els : list StepEl) (lines : list bool) (d : DubUI) : DubUI :=
  {| submitBtn_disabled := submitBtn_disabled d;
     btnLabel_hidden := btnLabel_hidden d;
     btnLoader_hidden := btnLoader_hidden d;
     progressSec_hidden := progressSec_hidden d;
     progressBar_width := progressBar_width d;
     progressPct_text := progressPct_text d;
     logBox := logBox d;
     steps := els;
     stepLines := lines;
     resultSec_hidden := resultSec_hidden d;
     resultMeta_text := resultMeta_text d;
     downloadLink_href := downloadLink_href d |}.

Definition set_resultSec_hidden (h : bool) (d : DubUI) : DubUI :=
  {| submitBtn_disabled := submitBtn_disabled d;
     btnLabel_hidden := btnLabel_hidden d;
     btnLoader_hidden := btnLoader_hidden d;
     progressSec_hidden := progressSec_hidden d;
     progressBar_width := progressBar_width d;
     progressPct_text := progressPct_text d;
     logBox := logBox d;
     steps := steps d;
     stepLines := stepLines d;
     resultSec_hidden := h;
     resultMeta_text := resultMeta_text d;
     downloadLink_href := downloadLink_href d |}.

Definition set_result (meta href : string) (d : DubUI) : DubUI :=
  {| submitBtn_disabled := submitBtn_disabled d;
     btnLabel_hidden := btnLabel_hidden d;
     btnLoader_hidden := btnLoader_hidden d;
     progressSec_hidden := progressSec_hidden d;
     progressBar_width := progressBar_width d;
     progressPct_text := progressPct_text d;
     logBox := logBox d;
     steps := steps d;
     stepLines := stepLines d;
     resultSec_hidden := resultSec_hidden d;
     resultMeta_text := meta;
     downloadLink_href := href |}.

Definition set_fetchInfoBtn (disabled : bool) (text : string) (d : DlUI) : DlUI :=
  {| videoData := videoData d;
     dlMediaType := dlMediaType d;
     fetchInfoBtn_disabled := disabled;
     fetchInfoBtn_text := text;
     dlStartBtn_disabled := dlStartBtn_disabled d;
     dlBtnLabel_hidden := dlBtnLabel_hidden d;
     dlBtnLoader_hidden := dlBtnLoader_hidden d;
     dlProgress_hidden := dlProgress_hidden d;
     dlProgressBar_width := dlProgressBar_width d;
     dlProgressPct_text := dlProgressPct_text d;
     dlProgressMsg_text := dlProgressMsg_text d;
     dlSaveBtns := dlSaveBtns d |}.

Definition set_dl_lock (disabled label_hidden loader_hidden : bool) (d : DlUI) : DlUI :=
  {| videoData := videoData d;
     dlMediaType := dlMediaType d;
     fetchInfoBtn_disabled := fetchInfoBtn_disabled d;
     fetchInfoBtn_text := fetchInfoBtn_text d;
     dlStartBtn_disabled := disabled;
     dlBtnLabel_hidden := label_hidden;
     dlBtnLoader_hidden := loader_hidden;
     dlProgress_hidden := dlProgress_hidden d;
     dlProgressBar_width := dlProgressBar_width d;
     dlProgressPct_text := dlProgressPct_text d;
     dlProgressMsg_text := dlProgressMsg_text d;
     dlSaveBtns := dlSaveBtns d |}.

Definition set_dlProgress_hidden (h : bool) (d : DlUI) : DlUI :=
  {| videoData := videoData d;
     dlMediaType := dlMediaType d;
     fetchInfoBtn_disabled := fetchInfoBtn_disabled d;
     fetchInfoBtn_text := fetchInfoBtn_text d;
     dlStartBtn_disabled := dlStartBtn_disabled d;
     dlBtnLabel_hidden := dlBtnLabel_hidden d;
     dlBtnLoader_hidden := dlBtnLoader_hidden d;
     dlProgress_hidden := h;
     dlProgressBar_width := dlProgressBar_width d;
     dlProgressPct_text := dlProgressPct_text d;
     dlProgressMsg_text := dlProgressMsg_text d;
     dlSaveBtns := dlSaveBtns d |}.

Definition set_dl_bar (width pct : string) (d : DlUI) : DlUI :=
  {| videoData := videoData d;
     dlMediaType := dlMediaType d;
     fetchInfoBtn_disabled := fetchInfoBtn_disabled d;
     fetchInfoBtn_text := fetchInfoBtn_text d;
     dlStartBtn_disabled := dlStartBtn_disabled d;
     dlBtnLabel_hidden := dlBtnLabel_hidden d;
     dlBtnLoader_hidden := dlBtnLoader_hidden d;
     dlProgress_hidden := dlProgress_hidden d;
     dlProgressBar_width := width;
     dlProgressPct_text := pct;
     dlProgressMsg_text := dlProgressMsg_text d;
     dlSaveBtns := dlSaveBtns d |}.

Definition set_dlProgressMsg (text : string) (d : DlUI) : DlUI :=
  {| videoData := videoData d;
     dlMediaType := dlMediaType d;
     fetchInfoBtn_disabled := fetchInfoBtn_disabled d;
     fetchInfoBtn_text := fetchInfoBtn_text d;
     dlStartBtn_disabled := dlStartBtn_disabled d;
     dlBtnLabel_hidden := dlBtnLabel_hidden d;
     dlBtnLoader_hidden := dlBtnLoader_hidden d;
     dlProgress_hidden := dlProgress_hidden d;
     dlProgressBar_width := dlProgressBar_width d;
     dlProgressPct_text := dlProgressPct_text d;
     dlProgressMsg_text := text;
     dlSaveBtns := dlSaveBtns d |}.

Definition set_dlSaveBtns (btns : list (option string)) (d : DlUI) : DlUI :=
  {| videoData := videoData d;
     dlMediaType := dlMediaType d;
     fetchInfoBtn_disabled := fetchInfoBtn_disabled d;
     fetchInfoBtn_text := fetchInfoBtn_text d;
     dlStartBtn_disabled := dlStartBtn_disabled d;
     dlBtnLabel_hidden := dlBtnLabel_hidden d;
     dlBtnLoader_hidden := dlBtnLoader_hidden d;
     dlProgress_hidden := dlProgress_hidden d;
     dlProgressBar_width := dlProgressBar_width d;
     dlProgressPct_text := dlProgressPct_text d;
     dlProgressMsg_text := dlProgressMsg_text d;
     dlSaveBtns := btns |}.

Definition set_toasts (l : list Toast) (e : Env) : Env :=
  {| currentLang := currentLang e; toasts := l; console := console e;
     requests := requests e; sources := sources e |}.

Definition set_console (l : list ConsoleEntry) (e : Env) : Env :=
  {| currentLang := currentLang e; toasts := toasts e; console := l;
     requests := requests e; sources := sources e |}.

Definition set_requests (l : list Request) (e : Env) : Env :=
  {| currentLang := currentLang e; toasts := toasts e; console := console e;
     requests := l; sources := sources e |}.

Definition set_sources (l : list EventSource) (e : Env) : Env :=
  {| currentLang := currentLang e; toasts := toasts e; console := console e;
     requests := requests e; sources := l |}.

(** ** Platform effects *)

(** [showToast(msg, type)]: the toast shows the message; [toasts] keeps
    every call, the last one being the toast on screen. *)
Definition showToast (msg : Text) (success : bool) (p : Page) : Page :=
  upd_env (fun e =>
    set_toasts (toasts e ++ [{| toast_text := msg; toast_success := success |}]) e) p.

Definition console_error (label : string) (err : Exn) (p : Page) : Page :=
  upd_env (fun e =>
    set_console (console e ++ [{| console_label := label; console_err := err |}]) e) p.

(** [fetch(...)]: the request leaves the page. *)
Definition fetch (r : Request) (p : Page) : Page :=
  upd_env (fun e => set_requests (requests e ++ [r]) e) p.

(** [new EventSource(url)]: the new object is the last of [sources]. *)
Definition new_EventSource (flow : Flow) (jobId : option string) (p : Page) : Page :=
  upd_env (fun e =>
    set_sources (sources e ++
      [{| es_url := "/api/progress/" +:+ template jobId;
          es_flow := flow; es_job := jobId; es_closed := false |}]) e) p.

Definition closed_source (src : EventSource) : EventSource :=
  {| es_url := es_url src; es_flow := es_flow src; es_job := es_job src;
     es_closed := true |}.

(** [evtSource.close()] on the [k]-th source. *)
Definition close (k : nat) (p : Page) : Page :=
  upd_env (fun e => set_sources (alter closed_source k (sources e)) e) p.

(** ** Step indicator *)

(** The classes of the step at position [i] once the event's index is
    [idx]: [active] and [done] are removed, then [done] is added below
    [idx], and at [idx] either [done] or [active]. *)
Definition restyle (i idx : Z) (complete : bool) (el : StepEl) : StepEl :=
  {| data_step := data_step el;
     cls_active := if i <? idx then false else if i =? idx then negb complete else false;
     cls_done := if i <? idx then true else if i =? idx then complete else false |}.

(** Applies [f] to the element [$('.step[data-step=s]')] finds: the first
    one in document order, none when there is no such element. *)
Fixpoint update_first (s : string) (f : StepEl -> StepEl) (els : list StepEl) : list StepEl :=
  match els with
  | [] => []
  | el :: rest =>
      if String.eqb (data_step el) s then f el :: rest
      else el :: update_first s f rest
  end.

(** [STEP_ORDER.forEach((s, i) => ...)] of [handleProgressEvent], from
    position [i] on. *)
Fixpoint forEach_step (i : Z) (names : list string) (idx : Z) (complete : bool)
    (els : list StepEl) : list StepEl :=
  match names with
  | [] => els
  | s :: rest =>
      forEach_step (i + 1) rest idx complete (update_first s (restyle i idx complete) els)
  end.

(** [line.classList.toggle("done", i < idx)] on every step line. *)
Definition toggle_lines (idx : Z) (lines : list bool) : list bool :=
  imap (fun i _ => Z.of_nat i <? idx) lines.

Definition clear_step (el : StepEl) : StepEl :=
  {| data_step := data_step el; cls_active := false; cls_done := false |}.

Definition done_step (el : StepEl) : StepEl :=
  {| data_step := data_step el; cls_active := false; cls_done := true |}.

Definition resetProgress (p : Page) : Page :=
  upd_dub (fun d =>
    set_steps (map clear_step (steps d)) (map (fun _ => false) (stepLines d))
      (set_logBox [] (set_bar "0%" "0%" d))) p.

Definition markAllStepsDone (p : Page) : Page :=
  upd_dub (fun d =>
    set_bar "100%" "100%"
      (set_steps (map done_step (steps d)) (map (fun _ => true) (stepLines d)) d)) p.

Definition unlockForm (p : Page) : Page :=
  upd_dub (set_lock false false true) p.

(** [appendLog(msg)].  The entry's time stamp comes from the clock and is
    left out: an entry is its message. *)
Definition appendLog (msg : string) (p : Page) : Page :=
  upd_dub (fun d => set_logBox (logBox d ++ [msg]) d) p.

(** [progress >= 0] and [progress <= 100]; [null] converts to 0. *)
Definition progress_ge0 (g : Progress) : bool :=
  match g with
  | PNum z => 0 <=? z
  | PNull => true
  | PNone => false
  end.

Definition progress_le100 (g : Progress) : bool :=
  match g with
  | PNum z => z <=? 100
  | PNull => true
  | PNone => false
  end.

(** [progress + "%"], for a progress that passed a comparison. *)
Definition progress_percent (g : Progress) : string :=
  match g with
  | PNum z => pretty z +:+ "%"
  | PNull => "null%"
  | PNone => "undefined%"
  end.

(** [bar.style.width = progress + "%"]: a value that is no CSS length
    (here ["null%"]) is dropped by the style object and the old width stays. *)
Definition style_width (g : Progress) (old : string) : string :=
  match g with
  | PNum z => pretty z +:+ "%"
  | _ => old
  end.

(** The body of [handleProgressEvent(ev, jobId)] for an event object. *)
Definition handleProgressEvent (ev : ProgressEvent) (jobId : option string)
    (p : Page) : Page :=
  let p1 :=
    if progress_ge0 (ev_progress ev)
    then upd_dub (fun d =>
           set_bar (style_width (ev_progress ev) (progressBar_width d))
                   (progress_percent (ev_progress ev)) d) p
    else p in
  let idx := indexOf STEP_ORDER (ev_step ev) in
  let p2 :=
    if 0 <=? idx
    then upd_dub (fun d =>
           set_steps
             (forEach_step 0 STEP_ORDER idx (String.eqb (ev_status ev) "complete") (steps d))
             (toggle_lines idx (stepLines d)) d) p1
    else p1 in
  let p3 :=
    if truthy_opt (ev_message ev) && negb (String.eqb (ev_step ev) "heartbeat")
    then appendLog (default "" (ev_message ev)) p2
    else p2 in
  let p4 :=
    if String.eqb (ev_status ev) "complete"
    then showToast (Str (tr (currentLang (env p3)) "toastComplete")) true
           (upd_dub (fun d =>
              set_resultSec_hidden false
                (set_result (default "" (ev_message ev))
                            ("/api/download/" +:+ template jobId) d))
              (markAllStepsDone p3))
    else p3 in
  if String.eqb (ev_status ev) "error"
  then showToast (Str (or_else (ev_message ev) "An error occurred during processing.")) false p4
  else p4.

(** ** Handlers with exceptions *)

(** A computation on the page that returns a value or throws; what it did
    to the page before throwing stays done. *)
Definition M (A : Type) : Type := Page -> Page * (Exn + A).

#[global] Instance M_ret : MRet M := fun A a p => (p, inr a).

#[global] Instance M_bind : MBind M := fun A B f m p =>
  match m p with
  | (p', inr a) => f a p'
  | (p', inl e) => (p', inl e)
  end.

Definition throw {A : Type} (e : Exn) : M A := fun p => (p, inl e).

(** [try { body } catch (err) { handler(err) }] *)
Definition try_catch {A : Type} (body : M A) (handler : Exn -> M A) : M A :=
  fun p =>
    match body p with
    | (p', inr a) => (p', inr a)
    | (p', inl e) => handler e p'
    end.

(** A step that changes the page and cannot throw. *)
Definition exec (f : Page -> Page) : M unit := fun p => (f p, inr tt).

(** [JSON.parse(e.data)]: the event object, or [None] for [null]. *)
Definition JSON_parse (data : Payload) : M (option ProgressEvent) :=
  match data with
  | NotJson => throw (Engine JsonSyntaxError)
  | JsonNull => mret None
  | JsonEvent ev => mret (Some ev)
  end.

(** Reading a property of the parsed value throws on [null]. *)
Definition event_of (v : option ProgressEvent) : M ProgressEvent :=
  match v with
  | Some ev => mret ev
  | None => throw (Engine NullPropertyRead)
  end.

Definition terminal (status : string) : bool :=
  String.eqb status "complete" || String.eqb status "error".

(** [evtSource.onmessage] of [connectSSE(jobId)], [evtSource] being the
    [k]-th source. *)
Definition connectSSE_onmessage (k : nat) (jobId : option string) (data : Payload) : M unit :=
  try_catch
    (v ← JSON_parse data;
     ev ← event_of v;
     exec (handleProgressEvent ev jobId);;
     if terminal (ev_status ev)
     then exec (close k);; exec unlockForm
     else mret tt)
    (fun err => exec (console_error "SSE parse error" err)).

(** [evtSource.onerror] of [connectSSE]. *)
Definition connectSSE_onerror (k : nat) : M unit :=
  exec (close k);;
  exec (fun p => showToast (Str (tr (currentLang (env p)) "toastDisconnect")) false p);;
  exec unlockForm.

Definition connectSSE (jobId : option string) : M unit :=
  exec (new_EventSource DubFlow jobId).

(** ** Dubbing: the form's submit handler *)

(** The handler up to its first [await]: the arguments are the values of
    the URL field, the two selects and the check box. *)
Definition form_submit (urlInput_value lang gender : string) (sub : bool)
    (p : Page) : Page :=
  let url := trim urlInput_value in
  if negb (truthy url)
  then showToast (Str (tr (currentLang (env p)) "toastNoUrl")) false p
  else
    let p1 := upd_dub (fun d => set_resultSec_hidden true (set_lock true true false d)) p in
    let p2 := upd_dub (set_progressSec_hidden false) (resetProgress p1) in
    fetch (PostDub url lang gender sub) p2.

(** [await fetch(...)]: the response, or the rejection thrown. *)
Definition awaited (r : FetchResult) : M Response :=
  match r with
  | Rejected => throw (Engine FetchFailed)
  | Fulfilled res => mret res
  end.

(** [(await res.json().catch(() => ({}))).detail] *)
Definition error_detail (b : Body) : M Detail :=
  match b with
  | BodyNotJson => mret NoDetail
  | BodyNull => throw (Engine NullPropertyRead)
  | BodyObject detail _ => mret detail
  end.

(** [const { job_id } = await res.json()] *)
Definition json_job_id (b : Body) : M (option string) :=
  match b with
  | BodyNotJson => throw (Engine JsonSyntaxError)
  | BodyNull => throw (Engine NullPropertyRead)
  | BodyObject _ job_id => mret job_id
  end.

(** The rest of the submit handler, once the request has settled. *)
Definition form_submit_resume (r : FetchResult) : M unit :=
  try_catch
    (res ← awaited r;
     (if negb (res_ok res)
      then detail ← error_detail (res_body res);
           throw (Error (detail_or detail ("Server error " +:+ pretty (res_status res))))
      else mret tt);;
     job_id ← json_job_id (res_body res);
     connectSSE job_id)
    (fun err => exec (showToast (exn_message err) false);; exec unlockForm).

(** ** Download only *)

Definition resetDlUI (p : Page) : Page :=
  upd_dl (fun d =>
    set_dlSaveBtns [] (set_dlProgressMsg "" (set_dl_bar "0%" "0%"
      (set_dlProgress_hidden true d)))) p.

Definition unlockDlBtn (p : Page) : Page :=
  upd_dl (set_dl_lock false false true) p.

(** The click handler of the fetch-info button up to its first [await]. *)
Definition fetchInfo_click (dlUrl_value : string) (p : Page) : Page :=
  let url := trim dlUrl_value in
  if negb (truthy url)
  then showToast (Str (tr (currentLang (env p)) "toastNoUrl")) false p
  else
    fetch (PostVideoInfo url)
      (upd_dl (set_fetchInfoBtn true (tr (currentLang (env p)) "fetchingInfo")) p).

(** The click handler of the download button up to its first [await]. *)
Definition dlStart_click (dlUrl_value formatSelect_value : string) (p : Page) : Page :=
  let url := trim dlUrl_value in
  let formatId := formatSelect_value in
  if negb (truthy url) || negb (truthy formatId)
  then p
  else
    let p1 := resetDlUI p in
    let p2 :=
      upd_dl (fun d =>
        set_dlProgressMsg (tr (currentLang (env p1)) "dlDownloading")
          (set_dl_bar "0%" "0%"
            (set_dlProgress_hidden false (set_dl_lock true true false d)))) p1 in
    fetch (PostDownloadStart url formatId (dlMediaType (dl p2))) p2.

(** [evtSource.onmessage] of the download flow, [evtSource] being the
    [k]-th source and [job_id] the job it was opened for.  The save button
    it adds is kept as the job id its click handler fetches. *)
Definition dl_onmessage (k : nat) (job_id : option string) (data : Payload) : M unit :=
  try_catch
    (v ← JSON_parse data;
     ev ← event_of v;
     (if progress_ge0 (ev_progress ev) && progress_le100 (ev_progress ev)
      then exec (upd_dl (fun d =>
             set_dl_bar (style_width (ev_progress ev) (dlProgressBar_width d))
                        (progress_percent (ev_progress ev)) d))
      else mret tt);;
     (if truthy_opt (ev_message ev)
      then exec (upd_dl (set_dlProgressMsg (default "" (ev_message ev))))
      else mret tt);;
     if String.eqb (ev_status ev) "complete"
     then
       exec (close k);;
       exec (fun p =>
         upd_dl (set_dlProgressMsg
                   (or_else (ev_message ev) (tr (currentLang (env p)) "dlComplete"))) p);;
       exec (upd_dl (set_dlSaveBtns []));;
       exec (upd_dl (fun d => set_dlSaveBtns (dlSaveBtns d ++ [job_id]) d));;
       exec unlockDlBtn
     else if String.eqb (ev_status ev) "error"
     then
       exec (close k);;
       exec (showToast (Str (or_else (ev_message ev) "Download failed")) false);;
       exec unlockDlBtn
     else mret tt)
    (fun err => exec (console_error "SSE parse error" err)).

(** [evtSource.onerror] of the download flow. *)
Definition dl_onerror (k : nat) : M unit :=
  exec (close k);;
  exec (fun p => showToast (Str (tr (currentLang (env p)) "toastDisconnect")) false p);;
  exec unlockDlBtn.

(** The rest of the download button's handler, once the request has
    settled. *)
Definition dlStart_resume (r : FetchResult) : M unit :=
  try_catch
    (res ← awaited r;
     (if negb (res_ok res)
      then detail ← error_detail (res_body res);
           throw (Error (detail_or detail ("Error " +:+ pretty (res_status res))))
      else mret tt);;
     job_id ← json_job_id (res_body res);
     exec (new_EventSource DownloadFlow job_id))
    (fun err => exec (showToast (exn_message err) false);; exec unlockDlBtn).

(** ** Saving the download *)

(** The characters of the class the title's regular expression replaces:
    backslash, slash, colon, star, question mark, double quote, the two
    angle brackets and the bar. *)
Definition unsafe_char (c : ascii) : bool :=
  let n := nat_of_ascii c in
  Nat.eqb n 92 || Nat.eqb n 47 || Nat.eqb n 58 || Nat.eqb n 42 || Nat.eqb n 63
  || Nat.eqb n 34 || Nat.eqb n 60 || Nat.eqb n 62 || Nat.eqb n 124.

(** [title.replace(..., "_")] with that class, every match replaced. *)
Fixpoint sanitize (s : string) : string :=
  match s with
  | EmptyString => EmptyString
  | String c rest => String (if unsafe_char c then ascii_of_nat 95 else c) (sanitize rest)
  end.

(** [saveName] of the save button's click handler, from the media type and
    the video data at the time of the click. *)
Definition saveName (mediaType : string) (data : option VideoData) : string :=
  let ext := if String.eqb mediaType "audio" then ".mp3" else ".mp4" in
  let title :=
    match data with
    | Some v =>
        match title v with
        | Some t => if truthy t then sanitize t else "download"
        | None => "download"
        end
    | None => "download"
    end in
  title +:+ ext.

(** ** The event sources as the browser drives them *)

Definition onmessage (src : EventSource) (k : nat) : Payload -> M unit :=
  match es_flow src with
  | DubFlow => connectSSE_onmessage k (es_job src)
  | DownloadFlow => dl_onmessage k (es_job src)
  end.

Definition onerror (src : EventSource) (k : nat) : M unit :=
  match es_flow src with
  | DubFlow => connectSSE_onerror k
  | DownloadFlow => dl_onerror k
  end.

(** The browser delivers a message of the [k]-th source to its handler
    unless the source has been closed; after [close()] an [EventSource]
    fires no further event. *)
Definition dispatch_message (k : nat) (data : Payload) (p : Page) : Page :=
  match sources (env p) !! k with
  | Some src => if es_closed src then p else fst (onmessage src k data p)
  | None => p
  end.

(** The same for a transport error. *)
Definition dispatch_error (k : nat) (p : Page) : Page :=
  match sources (env p) !! k with
  | Some src => if es_closed src then p else fst (onerror src k p)
  | None => p
  end.

(** A stream of messages delivered to the [k]-th source, in order. *)
Definition deliver (k : nat) (msgs : list Payload) (p : Page) : Page :=
  fold_left (fun q data => dispatch_message k data q) msgs p.

(** A sequence of events handed to [handleProgressEvent] one after the
    other. *)
Definition observe_all (jobId : option string) (evs : list ProgressEvent) (p : Page) : Page :=
  fold_left (fun q ev => handleProgressEvent ev jobId q) evs p.

(** ** Reading the rendered state *)

(** The element [$('.step[data-step=s]')] returns. *)
Fixpoint find_step (s : string) (els : list StepEl) : option StepEl :=
  match els with
  | [] => None
  | el :: rest => if String.eqb (data_step el) s then Some el else find_step s rest
  end.

(** A stage is rendered visited when its element carries [done], and
    active when it carries [active]. *)
Definition stage_visited (s : string) (p : Page) : bool :=
  match find_step s (steps (dub p)) with
  | Some el => cls_done el
  | None => false
  end.

Definition stage_active (s : string) (p : Page) : bool :=
  match find_step s (steps (dub p)) with
  | Some el => cls_active el
  | None => false
  end.

(** The index the script computes for an event. *)
Definition stage_index (ev : ProgressEvent) : Z := indexOf STEP_ORDER (ev_step ev).

(** What the progress section renders: the step elements, the step lines,
    the bar and the percentage. *)
Definition rendered (p : Page) : list StepEl * list bool * string * string :=
  (steps (dub p), stepLines (dub p), progressBar_width (dub p), progressPct_text (dub p)).

(** A machine nothing has been observed on: no step or line carries a
    class, and the percentage is at zero. *)
Definition is_fresh (p : Page) : bool :=
  forallb (fun el => negb (cls_active el) && negb (cls_done el)) (steps (dub p))
  && forallb negb (stepLines (dub p))
  && String.eqb (progressBar_width (dub p)) "0%"
  && String.eqb (progressPct_text (dub p)) "0%".

(** Two pages built from the same markup: the same step elements and as
    many step lines. *)
Definition same_markup (p q : Page) : Prop :=
  map data_step (steps (dub p)) = map data_step (steps (dub q))
  /\ length (stepLines (dub p)) = length (stepLines (dub q)).

Definition no_stage_done (p : Page) : bool :=
  forallb (fun el => negb (cls_done el)) (steps (dub p)).

Definition closed_at (k : nat) (p : Page) : Prop :=
  exists src, sources (env p) !! k = Some src /\ es_closed src = true.

(** The last toast shown, if any. *)
Definition toast_on_screen (p : Page) : option Toast := last (toasts (env p)).

(** ** A concrete page *)

(** The page in the examples: one step element per entry of [STEP_ORDER],
    five lines between them, every control in its resting state, English
    as the language and nothing requested yet. *)
Definition loaded_page : Page :=
  {| dub :=
       {| submitBtn_disabled := false; btnLabel_hidden := false; btnLoader_hidden := true;
          progressSec_hidden := true; progressBar_width := "0%"; progressPct_text := "0%";
          logBox := [];
          steps := map (fun s => {| data_step := s; cls_active := false; cls_done := false |})
                       STEP_ORDER;
          stepLines := [false; false; false; false; false];
          resultSec_hidden := true; resultMeta_text := ""; downloadLink_href := "#" |};
     dl :=
       {| videoData := None; dlMediaType := "video";
          fetchInfoBtn_disabled := false; fetchInfoBtn_text := "Search";
          dlStartBtn_disabled := false; dlBtnLabel_hidden := false; dlBtnLoader_hidden := true;
          dlProgress_hidden := true; dlProgressBar_width := "0%"; dlProgressPct_text := "0%";
          dlProgressMsg_text := ""; dlSaveBtns := [] |};
     env :=
       {| currentLang := "en"; toasts := []; console := []; requests := []; sources := [] |} |}.

(** A dubbing job started from [loaded_page]: the form is submitted and the
    server answers with the job id [job-1]. *)
Definition dub_job_page : Page :=
  fst (form_submit_resume
         (Fulfilled {| res_status := 200; res_body := BodyObject NoDetail (Some "job-1") |})
         (form_submit "https://youtu.be/abc" "es" "female" false loaded_page)).

(** A download job started from [loaded_page]. *)
Definition dl_job_page : Page :=
  fst (dlStart_resume
         (Fulfilled {| res_status := 200; res_body := BodyObject NoDetail (Some "job-2") |})
         (dlStart_click "https://youtu.be/abc" "18" loaded_page)).

Definition running (s : string) (g : Z) : ProgressEvent :=
  {| ev_step := s; ev_progress := PNum g; ev_message := None; ev_status := "running" |}.

(** ** Notions used in the statements *)

(** An element with given classes, keeping its [data-step]. *)
Definition with_classes (a d : bool) (el : StepEl) : StepEl :=
  {| data_step := data_step el; cls_active := a; cls_done := d |}.

(** The [k]-th event source exists and carries the dubbing handlers. *)
Definition dub_at (k : nat) (p : Page) : Prop :=
  exists src, sources (env p) !! k = Some src /\ es_flow src = DubFlow.

(** The three entry points that start a request, with the input values
    their handlers read. *)
Inductive Entry :=
| DubSubmit (urlInput_value lang gender : string) (sub : bool)
| FetchInfo (dlUrl_value : string)
| DownloadStart (dlUrl_value formatSelect_value : string).

Definition invoke (e : Entry) (p : Page) : Page :=
  match e with
  | DubSubmit url lang gender sub => form_submit url lang gender sub p
  | FetchInfo url => fetchInfo_click url p
  | DownloadStart url formatId => dlStart_click url formatId p
  end.

(** A required input of the entry point is empty: the trimmed URL, or for
    the download the format id. *)
Definition missing_input (e : Entry) : Prop :=
  match e with
  | DubSubmit url _ _ _ => trim url = ""
  | FetchInfo url => trim url = ""
  | DownloadStart url formatId => trim url = "" \/ formatId = ""
  end.

(** The page shows one more toast than before. *)
Definition notified (p p' : Page) : Prop :=
  exists t, toasts (env p') = (toasts (env p) ++ [t])%list.


(** The text of the toast for a missing URL and of the toast for a lost
    connection, in Arabic when that is the language and in English
    otherwise. *)
Definition toastNoUrl_text (lang : string) : string :=
  if String.eqb lang "ar" then "من فضلك حط لينك فيديو يوتيوب الأول."
  else "Please enter a YouTube URL.".

Definition toastDisconnect_text (lang : string) : string :=
  if String.eqb lang "ar" then "الاتصال بالسيرفر اتقطع، حاول تاني."
  else "Lost connection to server.".

(** An event keeps the stage [s] visited: it names no stage, its status is
    [complete], or it names a stage that comes after [s]. *)
Definition keeps_visited (s : string) (ev : ProgressEvent) : Prop :=
  stage_index ev < 0 \/ ev_status ev = "complete"
  \/ indexOf STEP_ORDER s < stage_index ev.

(** * More of the page *)

(** ** Durations *)

(** [String(n).padStart(2, "0")] *)
Definition padStart2 (s : string) : string :=
  match String.length s with
  | 0%nat => "00"
  | 1%nat => "0" +:+ s
  | _ => s
  end.

(** [Number.MAX_SAFE_INTEGER]: up to it a number holds every whole number
    exactly and prints it in plain decimal digits. *)
Definition MAX_SAFE_INTEGER : Z := 9007199254740991.

(** [fmtDuration(s)] for a whole number of seconds within the safe
    integers, where the script's arithmetic is exact.  [s / 3600] is
    floored, [%] is the remainder that takes the sign of [s]. *)
Definition fmtDuration (s : Z) : string :=
  if s =? 0 then "0:00" else
  let h := s / 3600 in
  let m := Z.rem s 3600 / 60 in
  let sec := Z.rem s 60 in
  if 0 <? h
  then pretty h +:+ ":" +:+ padStart2 (pretty m) +:+ ":" +:+ padStart2 (pretty sec)
  else pretty m +:+ ":" +:+ padStart2 (pretty sec).

(** ** Outcome of a job request *)

(** The job id a settled request hands over, when it does: the response is
    in 200..299 and its body is a JSON object (whose [job_id] may be
    missing). *)
Definition accepted (r : FetchResult) : option (option string) :=
  match r with
  | Rejected => None
  | Fulfilled res =>
      if res_ok res
      then match res_body res with
           | BodyObject _ job_id => Some job_id
           | _ => None
           end
      else None
  end.

(** No character of the string is in the unsafe class. *)
Fixpoint all_safe (s : string) : bool :=
  match s with
  | EmptyString => true
  | String c rest => negb (unsafe_char c) && all_safe rest
  end.

(** ** The whole translation table *)

(** Turns every apostrophe into a double quote: the markup strings below
    are written with apostrophes where the script has double quotes. *)
Fixpoint dq (s : string) : string :=
  match s with
  | EmptyString => EmptyString
  | String c rest => String (if Ascii.eqb c "'"%char then ascii_of_nat 34 else c) (dq rest)
  end.

(** [TRANSLATIONS] with all its entries; [TRANSLATIONS] above lists the ones
    [tr] is called with by the handlers of the two job flows. *)
Definition TRANSLATIONS_all : list (string * list (string * string)) :=
  [
    ("en",
     [
       ("langToggle", "عربي");
       ("heroBadge", "AI-Powered");
       ("heroTitle", dq "Dub Any YouTube Video<br/><span class='gradient-text'>Into Any Language</span>");
       ("heroSubtitle", "Automatically transcribe, translate, and re-voice YouTube videos using state-of-the-art AI. Just paste a link and choose your language.");
       ("labelUrl", "YouTube URL");
       ("labelLang", "Target Language");
       ("loadingLangs", "Loading languages…");
       ("labelGender", "Voice Gender");
       ("female", "Female");
       ("male", "Male");
       ("subtitleToggle", "Burn subtitles into the video");
       ("startBtn", "Start Dubbing");
       ("processing", "Processing…");
       ("progressTitle", "Pipeline Progress");
       ("stepInit", "Init");
       ("stepDownload", "Download");
       ("stepTranscribe", "Transcribe");
       ("stepTranslate", "Translate");
       ("stepSynthesize", "Synthesize");
       ("stepRender", "Render");
       ("resultTitle", "Dubbing Complete!");
       ("downloadBtn", "Download Video");
       ("footer", "&copy; 2026 YouTube Auto Dub &middot; Built with FastAPI &amp; Whisper");
       ("toastNoUrl", "Please enter a YouTube URL.");
       ("toastComplete", "Dubbing complete! 🎉");
       ("toastDisconnect", "Lost connection to server.");
       ("toastLangFail", "Could not load languages — using default (Spanish).");
       ("tabDub", dq "<svg width='16' height='16' viewBox='0 0 24 24' fill='none' stroke='currentColor' stroke-width='2' stroke-linecap='round' stroke-linejoin='round'><path d='M12 2a3 3 0 0 0-3 3v7a3 3 0 0 0 6 0V5a3 3 0 0 0-3-3Z'/><path d='M19 10v2a7 7 0 0 1-14 0v-2'/><line x1='12' y1='19' x2='12' y2='22'/></svg> Dubbing");
       ("tabDownload", dq "<svg width='16' height='16' viewBox='0 0 24 24' fill='none' stroke='currentColor' stroke-width='2' stroke-linecap='round' stroke-linejoin='round'><path d='M21 15v4a2 2 0 0 1-2 2H5a2 2 0 0 1-2-2v-4'/><polyline points='7 10 12 15 17 10'/><line x1='12' y1='15' x2='12' y2='3'/></svg> Download Only");
       ("dlLabelUrl", "YouTube URL");
       ("fetchBtn", dq "<svg width='15' height='15' viewBox='0 0 24 24' fill='none' stroke='currentColor' stroke-width='2.5' stroke-linecap='round' stroke-linejoin='round'><circle cx='11' cy='11' r='8'/><line x1='21' y1='21' x2='16.65' y2='16.65'/></svg> Search");
       ("fetchingInfo", "Searching…");
       ("dlVideo", dq "<svg width='15' height='15' viewBox='0 0 24 24' fill='none' stroke='currentColor' stroke-width='2' stroke-linecap='round' stroke-linejoin='round'><rect x='2' y='2' width='20' height='20' rx='2.18'/><line x1='7' y1='2' x2='7' y2='22'/><line x1='17' y1='2' x2='17' y2='22'/><line x1='2' y1='12' x2='22' y2='12'/><line x1='2' y1='7' x2='7' y2='7'/><line x1='2' y1='17' x2='7' y2='17'/><line x1='17' y1='7' x2='22' y2='7'/><line x1='17' y1='17' x2='22' y2='17'/></svg> Video");
       ("dlAudio", dq "<svg width='15' height='15' viewBox='0 0 24 24' fill='none' stroke='currentColor' stroke-width='2' stroke-linecap='round' stroke-linejoin='round'><path d='M9 18V5l12-2v13'/><circle cx='6' cy='18' r='3'/><circle cx='18' cy='16' r='3'/></svg> Audio Only");
       ("dlQuality", "Quality");
       ("dlStartBtn", dq "<svg width='16' height='16' viewBox='0 0 24 24' fill='none' stroke='currentColor' stroke-width='2' stroke-linecap='round' stroke-linejoin='round'><path d='M21 15v4a2 2 0 0 1-2 2H5a2 2 0 0 1-2-2v-4'/><polyline points='7 10 12 15 17 10'/><line x1='12' y1='15' x2='12' y2='3'/></svg> Download");
       ("dlDownloading", "Downloading…");
       ("dlComplete", "Download ready!");
       ("dlSaveFile", dq "<svg width='16' height='16' viewBox='0 0 24 24' fill='none' stroke='currentColor' stroke-width='2' stroke-linecap='round' stroke-linejoin='round'><path d='M19 21H5a2 2 0 0 1-2-2V5a2 2 0 0 1 2-2h11l5 5v11a2 2 0 0 1-2 2z'/><polyline points='17 21 17 13 7 13 7 21'/><polyline points='7 3 7 8 15 8'/></svg> Save File") ]);
    ("ar",
     [
       ("langToggle", "EN");
       ("heroBadge", "بتقنية الذكاء الاصطناعي");
       ("heroTitle", dq "حوّل أي فيديو يوتيوب<br/><span class='gradient-text'>لأي لغة في العالم</span>");
       ("heroSubtitle", "");
       ("labelUrl", "لينك الفيديو");
       ("labelLang", "اللغة المطلوبة");
       ("loadingLangs", "جاري تحميل اللغات…");
       ("labelGender", "نوع الصوت");
       ("female", "صوت أنثوي");
       ("male", "صوت ذكوري");
       ("subtitleToggle", "إضافة ترجمة مكتوبة على الفيديو");
       ("startBtn", "ابدأ الدبلجة");
       ("processing", "جاري التنفيذ…");
       ("progressTitle", "مراحل التنفيذ");
       ("stepInit", "تجهيز");
       ("stepDownload", "تحميل");
       ("stepTranscribe", "تفريغ");
       ("stepTranslate", "ترجمة");
       ("stepSynthesize", "توليد صوت");
       ("stepRender", "إنتاج");
       ("resultTitle", "تمّ بنجاح! 🎬");
       ("downloadBtn", "حمّل الفيديو");
       ("footer", "&copy; 2026 YouTube Auto Dub &middot; مبني بـ FastAPI و Whisper");
       ("toastNoUrl", "من فضلك حط لينك فيديو يوتيوب الأول.");
       ("toastComplete", "الدبلجة خلصت بنجاح! 🎉");
       ("toastDisconnect", "الاتصال بالسيرفر اتقطع، حاول تاني.");
       ("toastLangFail", "مقدرناش نحمّل اللغات — هنستخدم الإسبانية كبداية.");
       ("tabDub", dq "<svg width='16' height='16' viewBox='0 0 24 24' fill='none' stroke='currentColor' stroke-width='2' stroke-linecap='round' stroke-linejoin='round'><path d='M12 2a3 3 0 0 0-3 3v7a3 3 0 0 0 6 0V5a3 3 0 0 0-3-3Z'/><path d='M19 10v2a7 7 0 0 1-14 0v-2'/><line x1='12' y1='19' x2='12' y2='22'/></svg> دبلجة");
       ("tabDownload", dq "<svg width='16' height='16' viewBox='0 0 24 24' fill='none' stroke='currentColor' stroke-width='2' stroke-linecap='round' stroke-linejoin='round'><path d='M21 15v4a2 2 0 0 1-2 2H5a2 2 0 0 1-2-2v-4'/><polyline points='7 10 12 15 17 10'/><line x1='12' y1='15' x2='12' y2='3'/></svg> تحميل فقط");
       ("dlLabelUrl", "رابط الفيديو");
       ("fetchBtn", dq "<svg width='15' height='15' viewBox='0 0 24 24' fill='none' stroke='currentColor' stroke-width='2.5' stroke-linecap='round' stroke-linejoin='round'><circle cx='11' cy='11' r='8'/><line x1='21' y1='21' x2='16.65' y2='16.65'/></svg> بحث");
       ("fetchingInfo", "جاري البحث…");
       ("dlVideo", dq "<svg width='15' height='15' viewBox='0 0 24 24' fill='none' stroke='currentColor' stroke-width='2' stroke-linecap='round' stroke-linejoin='round'><rect x='2' y='2' width='20' height='20' rx='2.18'/><line x1='7' y1='2' x2='7' y2='22'/><line x1='17' y1='2' x2='17' y2='22'/><line x1='2' y1='12' x2='22' y2='12'/><line x1='2' y1='7' x2='7' y2='7'/><line x1='2' y1='17' x2='7' y2='17'/><line x1='17' y1='7' x2='22' y2='7'/><line x1='17' y1='17' x2='22' y2='17'/></svg> فيديو");
       ("dlAudio", dq "<svg width='15' height='15' viewBox='0 0 24 24' fill='none' stroke='currentColor' stroke-width='2' stroke-linecap='round' stroke-linejoin='round'><path d='M9 18V5l12-2v13'/><circle cx='6' cy='18' r='3'/><circle cx='18' cy='16' r='3'/></svg> صوت فقط");
       ("dlQuality", "الجودة");
       ("dlStartBtn", dq "<svg width='16' height='16' viewBox='0 0 24 24' fill='none' stroke='currentColor' stroke-width='2' stroke-linecap='round' stroke-linejoin='round'><path d='M21 15v4a2 2 0 0 1-2 2H5a2 2 0 0 1-2-2v-4'/><polyline points='7 10 12 15 17 10'/><line x1='12' y1='15' x2='12' y2='3'/></svg> تحميل");
       ("dlDownloading", "جاري التحميل…");
       ("dlComplete", "التحميل جاهز!");
       ("dlSaveFile", dq "<svg width='16' height='16' viewBox='0 0 24 24' fill='none' stroke='currentColor' stroke-width='2' stroke-linecap='round' stroke-linejoin='round'><path d='M19 21H5a2 2 0 0 1-2-2V5a2 2 0 0 1 2-2h11l5 5v11a2 2 0 0 1-2 2z'/><polyline points='17 21 17 13 7 13 7 21'/><polyline points='7 3 7 8 15 8'/></svg> حفظ الملف") ]) ].

(** [(TRANSLATIONS[lang] || TRANSLATIONS.en)] over the whole table, by the
    strings it holds for the keys of the tables: none when [lang] is an
    inherited name. *)
Definition strings_of (lang : string) : list (string * string) :=
  if inherited lang then []
  else
    match assoc lang TRANSLATIONS_all with
    | Some t => t
    | None => default [] (assoc "en" TRANSLATIONS_all)
    end.

(** [tr(key)] over the whole table, for the keys [TRANSLATIONS] leaves out. *)
Definition tr_all (lang key : string) : string :=
  or_else (assoc key (strings_of lang)) key.

(** ** Language and theme *)

(** An element carrying [data-i18n], with its content. *)
Record I18nEl := { data_i18n : string; i18n_innerHTML : string }.

(** What the language and theme handlers read and write besides the
    current language: the storage, three attributes of the root element
    ([None] when the attribute is absent) and the elements carrying
    [data-i18n].  Of the elements whose content the page state records
    only the fetch-info button may carry [data-i18n];
    [fetchInfoBtn_data_i18n] is that attribute. *)
Record Prefs := {
  localStorage : gmap string string;
  html_dir : option string;
  html_lang : option string;
  html_data_theme : option string;
  i18n_els : list I18nEl;
  fetchInfoBtn_data_i18n : option string
}.

Definition set_currentLang (lang : string) (e : Env) : Env :=
  {| currentLang := lang; toasts := toasts e; console := console e;
     requests := requests e; sources := sources e |}.

Definition set_localStorage (m : gmap string string) (f : Prefs) : Prefs :=
  {| localStorage := m; html_dir := html_dir f; html_lang := html_lang f;
     html_data_theme := html_data_theme f; i18n_els := i18n_els f;
     fetchInfoBtn_data_i18n := fetchInfoBtn_data_i18n f |}.

Definition set_html_lang (dir lang : string) (f : Prefs) : Prefs :=
  {| localStorage := localStorage f; html_dir := Some dir; html_lang := Some lang;
     html_data_theme := html_data_theme f; i18n_els := i18n_els f;
     fetchInfoBtn_data_i18n := fetchInfoBtn_data_i18n f |}.

Definition set_html_data_theme (theme : string) (f : Prefs) : Prefs :=
  {| localStorage := localStorage f; html_dir := html_dir f; html_lang := html_lang f;
     html_data_theme := Some theme; i18n_els := i18n_els f;
     fetchInfoBtn_data_i18n := fetchInfoBtn_data_i18n f |}.

Definition set_i18n_els (els : list I18nEl) (f : Prefs) : Prefs :=
  {| localStorage := localStorage f; html_dir := html_dir f; html_lang := html_lang f;
     html_data_theme := html_data_theme f; i18n_els := els;
     fetchInfoBtn_data_i18n := fetchInfoBtn_data_i18n f |}.

(** [if (strings[key] != null) el.innerHTML = strings[key]] *)
Definition translate_el (strings : list (string * string)) (el : I18nEl) : I18nEl :=
  match assoc (data_i18n el) strings with
  | Some s => {| data_i18n := data_i18n el; i18n_innerHTML := s |}
  | None => el
  end.

Definition applyTranslations (lang : string) (pp : Page * Prefs) : Page * Prefs :=
  let strings := strings_of lang in
  (match fetchInfoBtn_data_i18n pp.2 with
   | Some key =>
       match assoc key strings with
       | Some s => upd_dl (fun d => set_fetchInfoBtn (fetchInfoBtn_disabled d) s d) pp.1
       | None => pp.1
       end
   | None => pp.1
   end,
   set_i18n_els (map (translate_el strings) (i18n_els pp.2)) pp.2).

Definition setUILang (lang : string) (pp : Page * Prefs) : Page * Prefs :=
  applyTranslations lang
    (upd_env (set_currentLang lang) pp.1,
     set_localStorage (<["autodub-lang" := lang]> (localStorage pp.2))
       (set_html_lang (if String.eqb lang "ar" then "rtl" else "ltr") lang pp.2)).

(** The click handler of the language switch. *)
Definition langToggle_click (pp : Page * Prefs) : Page * Prefs :=
  setUILang (if String.eqb (currentLang (env pp.1)) "en" then "ar" else "en") pp.

Definition initTheme (f : Prefs) : Prefs :=
  set_html_data_theme (or_else (localStorage f !! "autodub-theme") "dark") f.

(** The click handler of the theme switch. *)
Definition themeToggle_click (f : Prefs) : Prefs :=
  let next :=
    match html_data_theme f with
    | Some theme => if String.eqb theme "dark" then "light" else "dark"
    | None => "dark"
    end in
  set_localStorage (<["autodub-theme" := next]> (localStorage f))
    (set_html_data_theme next f).

(** What the script does for language and theme when the page loads:
    [currentLang] is read from the storage, then [initTheme()] and
    [setUILang(currentLang)] run. *)
Definition startup (pp : Page * Prefs) : Page * Prefs :=
  let lang := or_else (localStorage pp.2 !! "autodub-lang") "en" in
  setUILang lang (upd_env (set_currentLang lang) pp.1, initTheme pp.2).

(** A page loaded anew from its markup, with the storage an earlier visit
    left. *)
Definition reload (markup : Page * Prefs) (storage : gmap string string) : Page * Prefs :=
  startup (markup.1, set_localStorage storage markup.2).

(** ** Mode tabs *)

Record Tab := { data_mode : option string; tab_active : bool }.

Record Tabs := {
  modeTabs : list Tab;
  dubForm_hidden : bool;
  downloadPanel_hidden : bool
}.

Definition set_tab_active (a : bool) (t : Tab) : Tab :=
  {| data_mode := data_mode t; tab_active := a |}.

(** The click handler of the [i]-th mode tab. *)
Definition modeTab_click (i : nat) (pt : Page * Tabs) : Page * Tabs :=
  match modeTabs pt.2 !! i with
  | None => pt
  | Some tab =>
      let tabs := alter (set_tab_active true) i (map (set_tab_active false) (modeTabs pt.2)) in
      if bool_decide (data_mode tab = Some "download")
      then (upd_dub (fun d => set_resultSec_hidden true (set_progressSec_hidden true d)) pt.1,
            {| modeTabs := tabs; dubForm_hidden := true; downloadPanel_hidden := false |})
      else (pt.1,
            {| modeTabs := tabs; dubForm_hidden := false; downloadPanel_hidden := true |})
  end.

(** ** The download panel: video information and formats *)

(** An [option] of the quality select: its [value] attribute, when it has
    one, and its text. *)
Record FormatOption := { opt_value : option string; opt_text : string }.

(** A button of the Video / Audio switch. *)
Record TypeBtn := { data_type : string; type_active : bool }.

Record DlPanel := {
  viThumb_src : string;
  viTitle_text : string;
  viChannel_text : string;
  viDuration_text : string;
  videoInfoCard_hidden : bool;
  formatSection_hidden : bool;
  formatSelect_options : list FormatOption;
  dlTypeBtns : list TypeBtn
}.

Definition set_videoData (v : option VideoData) (d : DlUI) : DlUI :=
  {| videoData := v;
     dlMediaType := dlMediaType d;
     fetchInfoBtn_disabled := fetchInfoBtn_disabled d;
     fetchInfoBtn_text := fetchInfoBtn_text d;
     dlStartBtn_disabled := dlStartBtn_disabled d;
     dlBtnLabel_hidden := dlBtnLabel_hidden d;
     dlBtnLoader_hidden := dlBtnLoader_hidden d;
     dlProgress_hidden := dlProgress_hidden d;
     dlProgressBar_width := dlProgressBar_width d;
     dlProgressPct_text := dlProgressPct_text d;
     dlProgressMsg_text := dlProgressMsg_text d;
     dlSaveBtns := dlSaveBtns d |}.

Definition set_dlMediaType (t : string) (d : DlUI) : DlUI :=
  {| videoData := videoData d;
     dlMediaType := t;
     fetchInfoBtn_disabled := fetchInfoBtn_disabled d;
     fetchInfoBtn_text := fetchInfoBtn_text d;
     dlStartBtn_disabled := dlStartBtn_disabled d;
     dlBtnLabel_hidden := dlBtnLabel_hidden d;
     dlBtnLoader_hidden := dlBtnLoader_hidden d;
     dlProgress_hidden := dlProgress_hidden d;
     dlProgressBar_width := dlProgressBar_width d;
     dlProgressPct_text := dlProgressPct_text d;
     dlProgressMsg_text := dlProgressMsg_text d;
     dlSaveBtns := dlSaveBtns d |}.

Definition set_videoInfo (thumb title_ channel_ duration_ : string) (q : DlPanel) : DlPanel :=
  {| viThumb_src := thumb; viTitle_text := title_; viChannel_text := channel_;
     viDuration_text := duration_; videoInfoCard_hidden := false;
     formatSection_hidden := formatSection_hidden q;
     formatSelect_options := formatSelect_options q;
     dlTypeBtns := dlTypeBtns q |}.

Definition set_formatSection_hidden (h : bool) (q : DlPanel) : DlPanel :=
  {| viThumb_src := viThumb_src q; viTitle_text := viTitle_text q;
     viChannel_text := viChannel_text q; viDuration_text := viDuration_text q;
     videoInfoCard_hidden := videoInfoCard_hidden q;
     formatSection_hidden := h;
     formatSelect_options := formatSelect_options q;
     dlTypeBtns := dlTypeBtns q |}.

Definition set_formatSelect_options (opts : list FormatOption) (q : DlPanel) : DlPanel :=
  {| viThumb_src := viThumb_src q; viTitle_text := viTitle_text q;
     viChannel_text := viChannel_text q; viDuration_text := viDuration_text q;
     videoInfoCard_hidden := videoInfoCard_hidden q;
     formatSection_hidden := formatSection_hidden q;
     formatSelect_options := opts;
     dlTypeBtns := dlTypeBtns q |}.

Definition set_dlTypeBtns (btns : list TypeBtn) (q : DlPanel) : DlPanel :=
  {| viThumb_src := viThumb_src q; viTitle_text := viTitle_text q;
     viChannel_text := viChannel_text q; viDuration_text := viDuration_text q;
     videoInfoCard_hidden := videoInfoCard_hidden q;
     formatSection_hidden := formatSection_hidden q;
     formatSelect_options := formatSelect_options q;
     dlTypeBtns := btns |}.

(** The option [populateFormats] builds for a format; the size is added
    when it is given and not zero. *)
Definition option_of_format (f : Format) : FormatOption :=
  {| opt_value := Some (format_id f);
     opt_text :=
       quality f +:+ " (" +:+ ext f +:+ ")" +:+
       match filesize_mb f with
       | Some z => if z =? 0 then "" else " — " +:+ pretty z +:+ " MB"
       | None => ""
       end |}.

Definition populateFormats (pq : Page * DlPanel) : Page * DlPanel :=
  match videoData (dl pq.1) with
  | None => pq
  | Some v =>
      let audio := String.eqb (dlMediaType (dl pq.1)) "audio" in
      let list := if audio then audio_formats v else video_formats v in
      (resetDlUI pq.1,
       set_formatSelect_options
         match list with
         | [] => [{| opt_value := None;
                     opt_text := if audio then "No audio formats" else "No video formats" |}]
         | _ => map option_of_format list
         end pq.2)
  end.

Definition set_type_active (a : bool) (b : TypeBtn) : TypeBtn :=
  {| data_type := data_type b; type_active := a |}.

(** The click handler of the [i]-th button of the Video / Audio switch. *)
Definition dlTypeBtn_click (i : nat) (pq : Page * DlPanel) : Page * DlPanel :=
  match dlTypeBtns pq.2 !! i with
  | None => pq
  | Some btn =>
      populateFormats
        (upd_dl (set_dlMediaType (data_type btn)) pq.1,
         set_dlTypeBtns
           (alter (set_type_active true) i (map (set_type_active false) (dlTypeBtns pq.2)))
           pq.2)
  end.

(** The value the quality select reports when its option at position [sel]
    is the selected one: the option's [value] attribute, or its text when
    it has none; the empty string when there is no such option.  After
    [populateFormats] a drop-down select has its first option selected. *)
Definition formatSelect_value (sel : nat) (q : DlPanel) : string :=
  match formatSelect_options q !! sel with
  | Some o => default (opt_text o) (opt_value o)
  | None => ""
  end.

(** The body of the response to [/api/video-info]: not JSON, [null], or an
    object read as error ([detail]) and as video data. *)
Inductive InfoBody :=
| InfoNotJson
| InfoNull
| InfoObject (detail : Detail) (v : VideoData).

Inductive InfoResult :=
| InfoRejected
| InfoFulfilled (status : Z) (body : InfoBody).

(** The [try] block of the fetch-info handler after its request settled:
    the state it leaves and whether it threw. *)
Definition fetchInfo_try (r : InfoResult) (pq : Page * DlPanel)
    : (Page * DlPanel) * (Exn + unit) :=
  match r with
  | InfoRejected => (pq, inl (Engine FetchFailed))
  | InfoFulfilled status body =>
      if negb ((200 <=? status) && (status <=? 299))
      then
        match body with
        | InfoNotJson => (pq, inl (Error (detail_or NoDetail ("Error " +:+ pretty status))))
        | InfoNull => (pq, inl (Engine NullPropertyRead))
        | InfoObject detail _ =>
            (pq, inl (Error (detail_or detail ("Error " +:+ pretty status))))
        end
      else
        match body with
        | InfoNotJson => (pq, inl (Engine JsonSyntaxError))
        | InfoNull => ((upd_dl (set_videoData None) pq.1, pq.2), inl (Engine NullPropertyRead))
        | InfoObject _ v =>
            let shown :=
              populateFormats
                (upd_dl (set_videoData (Some v)) pq.1,
                 set_videoInfo (thumbnail v) (default "" (title v)) (channel v)
                   (fmtDuration (duration v)) pq.2) in
            ((shown.1, set_formatSection_hidden false shown.2), inr tt)
        end
  end.

(** The rest of the fetch-info handler: [try], [catch] and [finally]. *)
Definition fetchInfo_resume (r : InfoResult) (s : Page * Prefs * DlPanel)
    : Page * Prefs * DlPanel :=
  let tried := fetchInfo_try r (s.1.1, s.2) in
  let caught :=
    match tried.2 with
    | inl err => showToast (exn_message err) false tried.1.1
    | inr _ => tried.1.1
    end in
  let enabled := upd_dl (fun d => set_fetchInfoBtn false (fetchInfoBtn_text d) d) caught in
  (applyTranslations (currentLang (env enabled)) (enabled, s.1.2), tried.1.2).

(** How a settled fetch-info request leaves the video data: shown anew,
    lost (a response in 200..299 whose body is JSON [null]), or kept as it
    was (every other failure). *)
Inductive InfoOutcome :=
| InfoShown (v : VideoData)
| InfoLost
| InfoKept.

Definition info_outcome (r : InfoResult) : InfoOutcome :=
  match r with
  | InfoRejected => InfoKept
  | InfoFulfilled status body =>
      if (200 <=? status) && (status <=? 299)
      then match body with
           | InfoObject _ v => InfoShown v
           | InfoNull => InfoLost
           | InfoNotJson => InfoKept
           end
      else InfoKept
  end.

(** ** The save button *)

(** A save button: whether it is disabled, and its content. *)
Record SaveBtn := { save_disabled : bool; save_content : string }.

(** A save button with what its click handler leaves outside the page
    state: the URLs it fetched, the names of the files it handed to the
    browser and what it logged. *)
Record Saving := {
  saveBtn : SaveBtn;
  fetched : list string;
  saved : list string;
  logged : list Exn
}.

(** How the request for the artifact settles: rejected, answered outside
    200..299, answered with a body that cannot be read, or answered with
    the file. *)
Inductive SaveResult :=
| SaveRejected
| SaveRefused
| SaveUnreadable
| SaveBlob.

(** [saveBtn.onclick] up to its first [await], for the button of the job
    [job_id]: the state it leaves and the content it keeps for later
    ([originalText]). *)
Definition saveBtn_onclick (job_id : option string) (s : Saving) : Saving * string :=
  ({| saveBtn := {| save_disabled := true; save_content := "⌛ Getting file..." |};
      fetched := fetched s ++ ["/api/download/" +:+ template job_id];
      saved := saved s;
      logged := logged s |},
   save_content (saveBtn s)).

(** The rest of [saveBtn.onclick].  The media type and the video data are
    read when the response has come. *)
Definition saveBtn_resume (originalText : string) (r : SaveResult) (ps : Page * Saving)
    : Page * Saving :=
  let failed (err : Exn) :=
    (showToast (Str "Failed to save file") false ps.1,
     {| saveBtn := {| save_disabled := false; save_content := save_content (saveBtn ps.2) |};
        fetched := fetched ps.2;
        saved := saved ps.2;
        logged := logged ps.2 ++ [err] |}) in
  match r with
  | SaveRejected => failed (Engine FetchFailed)
  | SaveRefused => failed (Error "Download failed")
  | SaveUnreadable => failed (Engine FetchFailed)
  | SaveBlob =>
      (ps.1,
       {| saveBtn := {| save_disabled := false; save_content := originalText |};
          fetched := fetched ps.2;
          saved := saved ps.2 ++ [saveName (dlMediaType (dl ps.1)) (videoData (dl ps.1))];
          logged := logged ps.2 |})
  end.

(** ** Target languages *)

Definition nameMap : list (string * string) :=
  [
    ("en", "English"); ("es", "Spanish"); ("fr", "French"); ("de", "German");
    ("it", "Italian"); ("pt", "Portuguese"); ("ru", "Russian"); ("ja", "Japanese");
    ("ko", "Korean"); ("zh", "Chinese"); ("ar", "Arabic"); ("hi", "Hindi");
    ("tr", "Turkish"); ("nl", "Dutch"); ("pl", "Polish"); ("sv", "Swedish");
    ("da", "Danish"); ("fi", "Finnish"); ("nb", "Norwegian"); ("cs", "Czech");
    ("el", "Greek"); ("he", "Hebrew"); ("hu", "Hungarian"); ("id", "Indonesian");
    ("ms", "Malay"); ("ro", "Romanian"); ("sk", "Slovak"); ("th", "Thai");
    ("uk", "Ukrainian"); ("vi", "Vietnamese"); ("bg", "Bulgarian"); ("hr", "Croatian");
    ("lt", "Lithuanian"); ("lv", "Latvian"); ("sr", "Serbian"); ("sl", "Slovenian");
    ("et", "Estonian"); ("fil", "Filipino"); ("bn", "Bengali"); ("gu", "Gujarati");
    ("kn", "Kannada"); ("ml", "Malayalam"); ("mr", "Marathi"); ("ta", "Tamil");
    ("te", "Telugu"); ("ur", "Urdu"); ("ne", "Nepali"); ("si", "Sinhala");
    ("km", "Khmer"); ("lo", "Lao"); ("my", "Myanmar"); ("ka", "Georgian");
    ("az", "Azerbaijani"); ("kk", "Kazakh"); ("mn", "Mongolian"); ("ps", "Pashto");
    ("fa", "Persian"); ("af", "Afrikaans"); ("sq", "Albanian"); ("am", "Amharic");
    ("bs", "Bosnian"); ("ca", "Catalan"); ("gl", "Galician"); ("ga", "Irish");
    ("is", "Icelandic"); ("jv", "Javanese"); ("mk", "Macedonian"); ("mt", "Maltese");
    ("so", "Somali"); ("sw", "Swahili"); ("cy", "Welsh"); ("zu", "Zulu") ].

(** An entry of the list [/api/languages] returns. *)
Record LangEntry := { lang_code : string; lang_name : option string }.

(** An [option] of the language select; [lo_selected] tells whether the
    script set [selected] on it. *)
Record LangOption := { lo_value : string; lo_text : string; lo_selected : bool }.

(** What became of the request and of its body: the request was rejected,
    the body is not JSON, is [null], is an object without a [languages]
    list, or holds the list. *)
Inductive LanguagesResult :=
| LangRejected
| LangNotJson
| LangNull
| LangNoList
| LangList (entries : list LangEntry).

(** [nameMap[l.code] || l.name || l.code], then the label with the code. *)
Definition language_label (l : LangEntry) : string :=
  or_else (assoc (lang_code l) nameMap) (or_else (lang_name l) (lang_code l))
  +:+ " (" +:+ lang_code l +:+ ")".

Definition option_of_entry (l : LangEntry) : LangOption :=
  {| lo_value := lang_code l;
     lo_text := language_label l;
     lo_selected := String.eqb (lang_code l) "es" |}.

Section LoadLanguages.

(** [options.sort((a, b) => a.label.localeCompare(b.label))]: the order
    [localeCompare] gives depends on the browser's locale data, so the
    sort is a parameter. *)
Variable sort_by_label : list LangOption -> list LangOption.

(** [loadLanguages()] after its request settled; the state is the page
    and the options of the language select. *)
Definition loadLanguages (r : LanguagesResult) (ps : Page * list LangOption)
    : Page * list LangOption :=
  let failed (err : Exn) :=
    (showToast (Str (tr_all (currentLang (env ps.1)) "toastLangFail")) false
       (console_error "Failed to load languages" err ps.1),
     [{| lo_value := "es"; lo_text := "Spanish (es)"; lo_selected := false |}]) in
  match r with
  | LangRejected => failed (Engine FetchFailed)
  | LangNotJson => failed (Engine JsonSyntaxError)
  | LangNull => failed (Engine NullPropertyRead)
  | LangNoList => failed (Engine NullPropertyRead)
  | LangList entries => (ps.1, sort_by_label (map option_of_entry entries))
  end.

End LoadLanguages.

(** ** The page as a whole *)

(** The page with the requests it is waiting for: how many job requests of
    each flow and how many fetch-info requests have not settled yet. *)
Record Doc := {
  doc_page : Page;
  doc_prefs : Prefs;
  doc_tabs : Tabs;
  doc_panel : DlPanel;
  awaiting_dub : nat;
  awaiting_info : nat;
  awaiting_dl : nat
}.

(** What can happen to the page: the user acts on a control, a request
    settles, or a stream delivers a message or fails.  [ClickDownload]
    carries the position of the option selected in the quality select. *)
Inductive Action :=
| Submit (urlInput_value lang gender : string) (sub : bool)
| DubRequestSettled (r : FetchResult)
| ClickFetchInfo (dlUrl_value : string)
| InfoRequestSettled (r : InfoResult)
| ClickMediaType (i : nat)
| ChangeFormat
| ClickDownload (dlUrl_value : string) (sel : nat)
| DownloadRequestSettled (r : FetchResult)
| Message (k : nat) (data : Payload)
| TransportError (k : nat)
| ClickModeTab (i : nat)
| ClickLangToggle
| ClickThemeToggle.

Definition with_page (p : Page) (d : Doc) : Doc :=
  {| doc_page := p; doc_prefs := doc_prefs d; doc_tabs := doc_tabs d;
     doc_panel := doc_panel d; awaiting_dub := awaiting_dub d;
     awaiting_info := awaiting_info d; awaiting_dl := awaiting_dl d |}.

(** The handler an action runs.  The browser fires no click or submit for
    a disabled control, and a request settles only when one is awaited; in
    those cases nothing happens. *)
Definition perform (a : Action) (d : Doc) : Doc :=
  let p := doc_page d in
  match a with
  | Submit url lang gender sub =>
      if submitBtn_disabled (dub p) then d
      else
        {| doc_page := form_submit url lang gender sub p;
           doc_prefs := doc_prefs d; doc_tabs := doc_tabs d; doc_panel := doc_panel d;
           awaiting_dub := if truthy (trim url) then S (awaiting_dub d) else awaiting_dub d;
           awaiting_info := awaiting_info d; awaiting_dl := awaiting_dl d |}
  | DubRequestSettled r =>
      match awaiting_dub d with
      | O => d
      | S n =>
          {| doc_page := fst (form_submit_resume r p);
             doc_prefs := doc_prefs d; doc_tabs := doc_tabs d; doc_panel := doc_panel d;
             awaiting_dub := n;
             awaiting_info := awaiting_info d; awaiting_dl := awaiting_dl d |}
      end
  | ClickFetchInfo url =>
      if fetchInfoBtn_disabled (dl p) then d
      else
        {| doc_page := fetchInfo_click url p;
           doc_prefs := doc_prefs d; doc_tabs := doc_tabs d; doc_panel := doc_panel d;
           awaiting_dub := awaiting_dub d;
           awaiting_info := if truthy (trim url) then S (awaiting_info d) else awaiting_info d;
           awaiting_dl := awaiting_dl d |}
  | InfoRequestSettled r =>
      match awaiting_info d with
      | O => d
      | S n =>
          let s := fetchInfo_resume r (p, doc_prefs d, doc_panel d) in
          {| doc_page := s.1.1; doc_prefs := s.1.2; doc_tabs := doc_tabs d;
             doc_panel := s.2;
             awaiting_dub := awaiting_dub d; awaiting_info := n;
             awaiting_dl := awaiting_dl d |}
      end
  | ClickMediaType i =>
      let pq := dlTypeBtn_click i (p, doc_panel d) in
      {| doc_page := pq.1; doc_prefs := doc_prefs d; doc_tabs := doc_tabs d;
         doc_panel := pq.2;
         awaiting_dub := awaiting_dub d; awaiting_info := awaiting_info d;
         awaiting_dl := awaiting_dl d |}
  | ChangeFormat => with_page (resetDlUI p) d
  | ClickDownload url sel =>
      if dlStartBtn_disabled (dl p) then d
      else
        let formatId := formatSelect_value sel (doc_panel d) in
        {| doc_page := dlStart_click url formatId p;
           doc_prefs := doc_prefs d; doc_tabs := doc_tabs d; doc_panel := doc_panel d;
           awaiting_dub := awaiting_dub d; awaiting_info := awaiting_info d;
           awaiting_dl :=
             if truthy (trim url) && truthy formatId
             then S (awaiting_dl d) else awaiting_dl d |}
  | DownloadRequestSettled r =>
      match awaiting_dl d with
      | O => d
      | S n =>
          {| doc_page := fst (dlStart_resume r p);
             doc_prefs := doc_prefs d; doc_tabs := doc_tabs d; doc_panel := doc_panel d;
             awaiting_dub := awaiting_dub d; awaiting_info := awaiting_info d;
             awaiting_dl := n |}
      end
  | Message k data => with_page (dispatch_message k data p) d
  | TransportError k => with_page (dispatch_error k p) d
  | ClickModeTab i =>
      let pt := modeTab_click i (p, doc_tabs d) in
      {| doc_page := pt.1; doc_prefs := doc_prefs d; doc_tabs := pt.2;
         doc_panel := doc_panel d;
         awaiting_dub := awaiting_dub d; awaiting_info := awaiting_info d;
         awaiting_dl := awaiting_dl d |}
  | ClickLangToggle =>
      let pf := langToggle_click (p, doc_prefs d) in
      {| doc_page := pf.1; doc_prefs := pf.2; doc_tabs := doc_tabs d;
         doc_panel := doc_panel d;
         awaiting_dub := awaiting_dub d; awaiting_info := awaiting_info d;
         awaiting_dl := awaiting_dl d |}
  | ClickThemeToggle =>
      {| doc_page := p; doc_prefs := themeToggle_click (doc_prefs d);
         doc_tabs := doc_tabs d; doc_panel := doc_panel d;
         awaiting_dub := awaiting_dub d; awaiting_info := awaiting_info d;
         awaiting_dl := awaiting_dl d |}
  end.

Definition run (acts : list Action) (d : Doc) : Doc :=
  fold_left (fun d' a => perform a d') acts d.

(** An event source of the flow that is not closed. *)
Definition is_open (flow : Flow) (src : EventSource) : bool :=
  negb (es_closed src) &&
  match flow, es_flow src with
  | DubFlow, DubFlow => true
  | DownloadFlow, DownloadFlow => true
  | _, _ => false
  end.

Definition open_count (flow : Flow) (l : list EventSource) : nat :=
  length (List.filter (is_open flow) l).

(** The jobs of a flow in flight: the requests not settled yet and the
    event sources still open. *)
Definition in_flight (flow : Flow) (d : Doc) : nat :=
  (match flow with DubFlow => awaiting_dub d | DownloadFlow => awaiting_dl d end
   + open_count flow (sources (env (doc_page d))))%nat.

(** Each flow's control is disabled exactly while a job of the flow is in
    flight, there is never more than one such job, and the panel never
    holds more than one save button. *)
Definition one_job_per_flow (d : Doc) : Prop :=
  in_flight DubFlow d = (if submitBtn_disabled (dub (doc_page d)) then 1 else 0)%nat
  /\ in_flight DownloadFlow d = (if dlStartBtn_disabled (dl (doc_page d)) then 1 else 0)%nat
  /\ (length (dlSaveBtns (dl (doc_page d))) <= 1)%nat.

(** The page of the examples with everything around it, as loaded. *)
Definition loaded_doc : Doc :=
  {| doc_page := loaded_page;
     doc_prefs := {| localStorage := ∅; html_dir := None; html_lang := None;
                     html_data_theme := None; i18n_els := [];
                     fetchInfoBtn_data_i18n := Some "fetchBtn" |};
     doc_tabs := {| modeTabs := [{| data_mode := Some "dub"; tab_active := true |};
                                 {| data_mode := Some "download"; tab_active := false |}];
                    dubForm_hidden := false; downloadPanel_hidden := true |};
     doc_panel := {| viThumb_src := ""; viTitle_text := ""; viChannel_text := "";
                     viDuration_text := ""; videoInfoCard_hidden := true;
                     formatSection_hidden := true; formatSelect_options := [];
                     dlTypeBtns := [{| data_type := "video"; type_active := true |};
                                    {| data_type := "audio"; type_active := false |}] |};
     awaiting_dub := 0; awaiting_info := 0; awaiting_dl := 0 |}.

(** What the jobs in flight are read from: the event sources and the state
    of the two controls. *)
Definition job_state (p : Page) : list EventSource * bool * bool :=
  (sources (env p), submitBtn_disabled (dub p), dlStartBtn_disabled (dl p)).

(** * Properties *)

Arguments indexOf : simpl never.
Arguments stage_index : simpl never.

(** Unfolds a handler down to the page it returns. *)
Ltac run_handler :=
  unfold connectSSE_onmessage, dl_onmessage, connectSSE_onerror, dl_onerror,
    JSON_parse, event_of, try_catch, exec, throw, mbind, M_bind, mret, M_ret;
  simpl.

(** ** The step elements under [forEach] *)

Lemma restyle_data_step i idx c el : data_step (restyle i idx c el) = data_step el.
Proof. reflexivity. Qed.

Lemma find_update_first_same s f els :
  (forall el, data_step (f el) = data_step el) ->
  find_step s (update_first s f els) = f <$> find_step s els.
Proof.
  intros Hf. induction els as [|el rest IH]; simpl; [done|].
  destruct (String.eqb (data_step el) s) eqn:E; simpl.
  - by rewrite Hf, E.
  - by rewrite E.
Qed.

Lemma find_update_first_other s s' f els :
  (forall el, data_step (f el) = data_step el) ->
  s <> s' ->
  find_step s (update_first s' f els) = find_step s els.
Proof.
  intros Hf Hne. induction els as [|el rest IH]; simpl; [done|].
  destruct (String.eqb (data_step el) s') eqn:E'; simpl.
  - rewrite Hf. apply String.eqb_eq in E'. rewrite E'.
    destruct (String.eqb s' s) eqn:E; [|done].
    apply String.eqb_eq in E. congruence.
  - by rewrite IH.
Qed.

Lemma indexOf_from_absent i names s :
  s ∉ names -> indexOf_from i names s = -1.
Proof.
  revert i. induction names as [|y rest IH]; intros i Hs; simpl; [done|].
  destruct (String.eqb y s) eqn:E.
  - apply String.eqb_eq in E. subst. exfalso. apply Hs. left.
  - apply IH. intros Hin. apply Hs. by right.
Qed.

(** After the loop, the element of a name in the list carries the classes
    of its position; every other element [querySelector] can find is
    untouched. *)
Lemma find_forEach_step names : forall i idx c els s,
  0 <= i -> NoDup names ->
  find_step s (forEach_step i names idx c els) =
    if 0 <=? indexOf_from i names s
    then restyle (indexOf_from i names s) idx c <$> find_step s els
    else find_step s els.
Proof.
  induction names as [|y rest IH]; intros i idx c els s Hi Hnd; simpl; [done|].
  apply NoDup_cons in Hnd as [Hy Hnd].
  rewrite IH by (done || lia).
  destruct (String.eqb y s) eqn:E.
  - apply String.eqb_eq in E. subst y.
    rewrite (indexOf_from_absent _ _ _ Hy). simpl.
    rewrite find_update_first_same by apply restyle_data_step.
    by destruct (Z.leb_spec 0 i); [|lia].
  - assert (s <> y) by (intros ->; by rewrite String.eqb_refl in E).
    by rewrite find_update_first_other by (done || apply restyle_data_step).
Qed.

Lemma STEP_ORDER_NoDup : NoDup STEP_ORDER.
Proof. apply (bool_decide_unpack (NoDup STEP_ORDER)). vm_compute. exact I. Qed.

Lemma find_map_step f s els :
  (forall el, data_step (f el) = data_step el) ->
  find_step s (map f els) = f <$> find_step s els.
Proof.
  intros Hf. induction els as [|el rest IH]; simpl; [done|].
  rewrite Hf. by destruct (String.eqb (data_step el) s).
Qed.

(** ** What [handleProgressEvent] does to each part of the page *)

Lemma handleProgressEvent_steps ev jobId p :
  steps (dub (handleProgressEvent ev jobId p)) =
    let els :=
      if 0 <=? stage_index ev
      then forEach_step 0 STEP_ORDER (stage_index ev)
             (String.eqb (ev_status ev) "complete") (steps (dub p))
      else steps (dub p) in
    if String.eqb (ev_status ev) "complete" then map done_step els else els.
Proof.
  unfold handleProgressEvent, stage_index.
  destruct (progress_ge0 _), (0 <=? indexOf STEP_ORDER (ev_step ev)),
    (truthy_opt _ && _), (String.eqb (ev_status ev) "complete"),
    (String.eqb (ev_status ev) "error"); reflexivity.
Qed.

Lemma handleProgressEvent_env ev jobId p :
  sources (env (handleProgressEvent ev jobId p)) = sources (env p)
  /\ requests (env (handleProgressEvent ev jobId p)) = requests (env p)
  /\ console (env (handleProgressEvent ev jobId p)) = console (env p)
  /\ currentLang (env (handleProgressEvent ev jobId p)) = currentLang (env p).
Proof.
  unfold handleProgressEvent.
  destruct (progress_ge0 _), (0 <=? indexOf STEP_ORDER (ev_step ev)),
    (truthy_opt _ && _), (String.eqb (ev_status ev) "complete"),
    (String.eqb (ev_status ev) "error"); done.
Qed.

(** The rendered state after an event depends on the rendered state before
    it and on nothing else of the page. *)
Lemma handleProgressEvent_rendered ev jobId p q :
  rendered p = rendered q ->
  rendered (handleProgressEvent ev jobId p) = rendered (handleProgressEvent ev jobId q).
Proof.
  unfold rendered. intros H. injection H as Hs Hl Hb Ht.
  unfold handleProgressEvent.
  destruct (progress_ge0 _), (0 <=? indexOf STEP_ORDER (ev_step ev)),
    (truthy_opt _ && _), (String.eqb (ev_status ev) "complete"),
    (String.eqb (ev_status ev) "error"); simpl; congruence.
Qed.

Lemma observe_all_rendered jobId evs : forall p q,
  rendered p = rendered q ->
  rendered (observe_all jobId evs p) = rendered (observe_all jobId evs q).
Proof.
  induction evs as [|ev rest IH]; intros p q H; simpl; [done|].
  apply IH. by apply handleProgressEvent_rendered.
Qed.

Lemma clear_steps_fresh (els els' : list StepEl) :
  map data_step els = map data_step els' ->
  forallb (fun el => negb (cls_active el) && negb (cls_done el)) els' = true ->
  map clear_step els = els'.
Proof.
  revert els'. induction els as [|el rest IH]; intros [|el' rest'] Hm Hf;
    simpl in *; try done.
  injection Hm as Hd Hm. apply andb_prop in Hf as [Hel Hf].
  f_equal; [|by apply IH].
  destruct el' as [d a b]. simpl in *. apply andb_prop in Hel as [Ha Hb].
  destruct a, b; try done. unfold clear_step. by rewrite Hd.
Qed.

Lemma clear_lines_fresh (ls ls' : list bool) :
  length ls = length ls' -> forallb negb ls' = true -> map (fun _ => false) ls = ls'.
Proof.
  revert ls'. induction ls as [|l rest IH]; intros [|l' rest'] Hlen Hf;
    simpl in *; try done.
  apply andb_prop in Hf as [Hl Hf]. destruct l'; [done|].
  f_equal. apply IH; [lia | done].
Qed.

Lemma resetProgress_rendered_fresh p q :
  is_fresh q = true -> same_markup p q -> rendered (resetProgress p) = rendered q.
Proof.
  unfold is_fresh, same_markup, rendered.
  intros Hf [Hm Hl].
  apply andb_prop in Hf as [Hf Hpct]. apply andb_prop in Hf as [Hf Hbar].
  apply andb_prop in Hf as [Hsteps Hlines].
  apply String.eqb_eq in Hpct, Hbar. simpl.
  rewrite (clear_steps_fresh _ _ Hm Hsteps), (clear_lines_fresh _ _ Hl Hlines).
  by rewrite Hpct, Hbar.
Qed.

(** C3. A reset followed by any sequence of events renders the same step
    elements, step lines, bar width and percentage as the same sequence on
    a fresh machine built from the same markup. *)
Theorem reset_then_observe_as_fresh (jobId : option string) (evs : list ProgressEvent)
    (p q : Page) :
  is_fresh q = true ->
  same_markup p q ->
  rendered (observe_all jobId evs (resetProgress p)) = rendered (observe_all jobId evs q).
Proof.
  intros Hf Hm. apply observe_all_rendered. by apply resetProgress_rendered_fresh.
Qed.

(** A page left behind by a finished job, reset and fed two events, against
    the page as loaded fed the same two events. *)
Lemma reset_then_observe_as_fresh_witness :
  let used := deliver 0 [JsonEvent {| ev_step := "render"; ev_progress := PNum 100;
                                      ev_message := Some "done"; ev_status := "complete" |}]
                dub_job_page in
  let evs := [running "download" 40; running "transcribe" 55] in
  is_fresh loaded_page = true
  /\ same_markup used loaded_page
  /\ rendered (observe_all (Some "job-3") evs (resetProgress used))
     = rendered (observe_all (Some "job-3") evs loaded_page).
Proof.
  intros used evs.
  assert (Hf : is_fresh loaded_page = true) by reflexivity.
  assert (Hm : same_markup used loaded_page) by (split; reflexivity).
  exact (conj Hf (conj Hm (reset_then_observe_as_fresh (Some "job-3") evs used loaded_page Hf Hm))).
Defined.

(** ** The latest recognised event decides the stages *)

Lemma find_with_classes a d s (l1 l2 : list StepEl) :
  map data_step l1 = map data_step l2 ->
  with_classes a d <$> find_step s l1 = with_classes a d <$> find_step s l2.
Proof.
  revert l2. induction l1 as [|e1 r1 IH]; intros [|e2 r2] Hm; simpl in *; try done.
  injection Hm as Hd Hm. rewrite Hd.
  destruct (String.eqb (data_step e2) s); simpl; [|by apply IH].
  unfold with_classes. by rewrite Hd.
Qed.

Lemma update_first_data_step s f els :
  (forall el, data_step (f el) = data_step el) ->
  map data_step (update_first s f els) = map data_step els.
Proof.
  intros Hf. induction els as [|el rest IH]; simpl; [done|].
  destruct (String.eqb (data_step el) s); simpl; [by rewrite Hf | by rewrite IH].
Qed.

Lemma forEach_step_data_step names : forall i idx c els,
  map data_step (forEach_step i names idx c els) = map data_step els.
Proof.
  induction names as [|y rest IH]; intros i idx c els; simpl; [done|].
  rewrite IH. apply update_first_data_step, restyle_data_step.
Qed.

Lemma handleProgressEvent_data_step ev jobId p :
  map data_step (steps (dub (handleProgressEvent ev jobId p))) = map data_step (steps (dub p)).
Proof.
  rewrite handleProgressEvent_steps. cbv zeta.
  assert (Hd : forall els, map data_step (map done_step els) = map data_step els).
  { intros els. rewrite map_map. by apply map_ext. }
  destruct (String.eqb (ev_status ev) "complete"), (0 <=? stage_index ev);
    rewrite ?Hd, ?forEach_step_data_step; done.
Qed.

Lemma observe_all_data_step jobId evs : forall p,
  map data_step (steps (dub (observe_all jobId evs p))) = map data_step (steps (dub p)).
Proof.
  induction evs as [|ev rest IH]; intros p; simpl; [done|].
  rewrite IH. apply handleProgressEvent_data_step.
Qed.

Lemma indexOf_from_present i names s :
  s ∈ names -> i <= indexOf_from i names s.
Proof.
  revert i. induction names as [|y rest IH]; intros i Hs; simpl.
  - by apply elem_of_nil in Hs.
  - destruct (String.eqb y s) eqn:E; [lia|].
    apply elem_of_cons in Hs as [->|Hs]; [by rewrite String.eqb_refl in E|].
    specialize (IH (i + 1) Hs). lia.
Qed.

(** The element of a stage after a recognised event: the classes depend on
    the event and on the stage's position only. *)
Lemma find_step_after_recognised ev jobId p s :
  0 <= stage_index ev ->
  s ∈ STEP_ORDER ->
  find_step s (steps (dub (handleProgressEvent ev jobId p))) =
    (if String.eqb (ev_status ev) "complete"
     then with_classes false true
     else with_classes
            (cls_active (restyle (indexOf STEP_ORDER s) (stage_index ev) false
                           {| data_step := s; cls_active := false; cls_done := false |}))
            (cls_done (restyle (indexOf STEP_ORDER s) (stage_index ev) false
                         {| data_step := s; cls_active := false; cls_done := false |})))
    <$> find_step s (steps (dub p)).
Proof.
  intros Hi Hs. rewrite handleProgressEvent_steps. cbv zeta.
  destruct (Z.leb_spec 0 (stage_index ev)) as [_|]; [|lia].
  pose proof (indexOf_from_present 0 _ _ Hs) as Hpos. fold (indexOf STEP_ORDER s) in Hpos.
  destruct (String.eqb (ev_status ev) "complete").
  - rewrite find_map_step by done.
    rewrite find_forEach_step by (done || apply STEP_ORDER_NoDup).
    fold (indexOf STEP_ORDER s).
    destruct (Z.leb_spec 0 (indexOf STEP_ORDER s)) as [_|]; [|lia].
    by destruct (find_step s (steps (dub p))).
  - rewrite find_forEach_step by (done || apply STEP_ORDER_NoDup).
    fold (indexOf STEP_ORDER s).
    destruct (Z.leb_spec 0 (indexOf STEP_ORDER s)) as [_|]; [|lia].
    by destruct (find_step s (steps (dub p))).
Qed.

(** An event without a recognised stage and without the status [complete]
    leaves the step elements alone. *)
Lemma handleProgressEvent_steps_unrecognised ev jobId p :
  stage_index ev < 0 -> ev_status ev <> "complete" ->
  steps (dub (handleProgressEvent ev jobId p)) = steps (dub p).
Proof.
  intros Hi Hs. rewrite handleProgressEvent_steps. cbv zeta.
  destruct (Z.leb_spec 0 (stage_index ev)); [lia|].
  destruct (String.eqb (ev_status ev) "complete") eqn:E; [|done].
  by apply String.eqb_eq in E.
Qed.

Lemma observe_all_steps_unrecognised jobId evs : forall p,
  Forall (fun e => stage_index e < 0 /\ ev_status e <> "complete") evs ->
  steps (dub (observe_all jobId evs p)) = steps (dub p).
Proof.
  induction evs as [|ev rest IH]; intros p Hall; simpl; [done|].
  apply Forall_cons in Hall as [[Hi Hs] Hall].
  rewrite IH by done. by apply handleProgressEvent_steps_unrecognised.
Qed.

(** C10 (amended). Two sequences of events with the same last recognised
    event, neither followed by an event of status [complete], render every
    stage alike, whatever came before that event. *)
Theorem stages_decided_by_last_recognised_event (jobId : option string) (p q : Page)
    (pre1 pre2 post1 post2 : list ProgressEvent) (ev : ProgressEvent) (s : string) :
  map data_step (steps (dub p)) = map data_step (steps (dub q)) ->
  0 <= stage_index ev ->
  Forall (fun e => stage_index e < 0 /\ ev_status e <> "complete") post1 ->
  Forall (fun e => stage_index e < 0 /\ ev_status e <> "complete") post2 ->
  s ∈ STEP_ORDER ->
  stage_visited s (observe_all jobId (pre1 ++ ev :: post1) p)
    = stage_visited s (observe_all jobId (pre2 ++ ev :: post2) q)
  /\ stage_active s (observe_all jobId (pre1 ++ ev :: post1) p)
    = stage_active s (observe_all jobId (pre2 ++ ev :: post2) q).
Proof.
  intros Hm Hi H1 H2 Hs.
  assert (find_step s (steps (dub (observe_all jobId (pre1 ++ ev :: post1) p)))
          = find_step s (steps (dub (observe_all jobId (pre2 ++ ev :: post2) q)))) as Heq.
  { unfold observe_all. rewrite !fold_left_app. simpl.
    fold (observe_all jobId pre1 p) (observe_all jobId pre2 q).
    set (a := observe_all jobId pre1 p). set (b := observe_all jobId pre2 q).
    fold (observe_all jobId post1 (handleProgressEvent ev jobId a)).
    fold (observe_all jobId post2 (handleProgressEvent ev jobId b)).
    rewrite !observe_all_steps_unrecognised by done.
    rewrite !find_step_after_recognised by done.
    assert (map data_step (steps (dub a)) = map data_step (steps (dub b))) as Hab.
    { unfold a, b. by rewrite !observe_all_data_step. }
    destruct (String.eqb (ev_status ev) "complete"); by apply find_with_classes. }
  unfold stage_visited, stage_active. by rewrite Heq.
Qed.

Lemma stages_decided_by_last_recognised_event_witness :
  let heartbeat := {| ev_step := "heartbeat"; ev_progress := PNum (-1);
                      ev_message := None; ev_status := "running" |} in
  let pre1 := [running "translate" 50] in
  let post1 := [heartbeat] in
  let ev := running "download" 40 in
  map data_step (steps (dub loaded_page)) = map data_step (steps (dub dub_job_page))
  /\ 0 <= stage_index ev
  /\ Forall (fun e => stage_index e < 0 /\ ev_status e <> "complete") post1
  /\ Forall (fun e => stage_index e < 0 /\ ev_status e <> "complete") []
  /\ "init" ∈ STEP_ORDER
  /\ (stage_visited "init" (observe_all (Some "job-1") (pre1 ++ ev :: post1) loaded_page)
        = stage_visited "init" (observe_all (Some "job-1") ([] ++ ev :: []) dub_job_page)
      /\ stage_active "init" (observe_all (Some "job-1") (pre1 ++ ev :: post1) loaded_page)
        = stage_active "init" (observe_all (Some "job-1") ([] ++ ev :: []) dub_job_page)).
Proof.
  intros heartbeat pre1 post1 ev.
  assert (H1 : map data_step (steps (dub loaded_page))
               = map data_step (steps (dub dub_job_page))) by reflexivity.
  assert (H2 : 0 <= stage_index ev) by (vm_compute; discriminate).
  assert (H3 : Forall (fun e => stage_index e < 0 /\ ev_status e <> "complete") post1).
  { constructor; [split; [reflexivity | discriminate] | constructor]. }
  assert (H4 : Forall (fun e => stage_index e < 0 /\ ev_status e <> "complete") [])
    by constructor.
  assert (H5 : "init" ∈ STEP_ORDER) by constructor.
  exact (conj H1 (conj H2 (conj H3 (conj H4 (conj H5
    (stages_decided_by_last_recognised_event (Some "job-1") loaded_page dub_job_page
       pre1 [] post1 [] ev "init" H1 H2 H3 H4 H5)))))).
Defined.

(** C10 as stated fails: the two streams below end their recognised events
    with the same [download] event, and the second goes on with a
    [complete] event whose step is no stage; the first leaves [render]
    unvisited, the second renders it visited. *)
Lemma same_last_recognised_event_different_stages :
  let ev := running "download" 40 in
  let last := {| ev_step := "heartbeat"; ev_progress := PNum 100;
                 ev_message := None; ev_status := "complete" |} in
  stage_index last = -1
  /\ stage_visited "render" (deliver 0 [JsonEvent ev] dub_job_page)
     <> stage_visited "render" (deliver 0 [JsonEvent ev; JsonEvent last] dub_job_page).
Proof. split; [reflexivity | vm_compute; discriminate]. Qed.

(** ** One job's subscription *)

Lemma dispatch_closed k src data p :
  sources (env p) !! k = Some src -> es_closed src = true ->
  dispatch_message k data p = p.
Proof. intros H Hc. unfold dispatch_message. by rewrite H, Hc. Qed.

Lemma deliver_closed k msgs p :
  closed_at k p -> deliver k msgs p = p.
Proof.
  intros (src & H & Hc). induction msgs as [|m rest IH]; simpl; [done|].
  by rewrite (dispatch_closed _ _ _ _ H Hc).
Qed.

Lemma dispatch_dub_event k src ev p :
  sources (env p) !! k = Some src -> es_flow src = DubFlow -> es_closed src = false ->
  dispatch_message k (JsonEvent ev) p =
    if terminal (ev_status ev)
    then unlockForm (close k (handleProgressEvent ev (es_job src) p))
    else handleProgressEvent ev (es_job src) p.
Proof.
  intros H Hf Hc. unfold dispatch_message, onmessage. rewrite H, Hc, Hf.
  run_handler. by destruct (terminal (ev_status ev)).
Qed.

Lemma dispatch_dub_at k data p :
  dub_at k p -> dub_at k (dispatch_message k data p).
Proof.
  intros (src & H & Hf). unfold dispatch_message. rewrite H.
  destruct (es_closed src) eqn:Hc; [by exists src|].
  unfold onmessage. rewrite Hf.
  destruct data as [| |ev]; run_handler; [by exists src | by exists src |].
  pose proof (handleProgressEvent_env ev (es_job src) p) as (Hs & _).
  destruct (terminal (ev_status ev)); simpl.
  - exists (closed_source src). simpl. by rewrite Hs, list_lookup_alter_eq, H.
  - exists src. simpl. by rewrite Hs.
Qed.

Lemma deliver_dub_at k msgs : forall p,
  dub_at k p -> dub_at k (deliver k msgs p).
Proof.
  induction msgs as [|m rest IH]; intros p H; simpl; [done|].
  by apply IH, dispatch_dub_at.
Qed.

Lemma find_step_elem s els el :
  find_step s els = Some el -> el ∈ els.
Proof.
  induction els as [|e rest IH]; simpl; [done|].
  destruct (String.eqb (data_step e) s).
  - intros [= ->]. left.
  - intros H. right. by apply IH.
Qed.

(** Whether a stage is visited after one call of [handleProgressEvent]. *)
Lemma stage_visited_after ev jobId p s :
  stage_visited s (handleProgressEvent ev jobId p) =
    match find_step s (steps (dub p)) with
    | None => false
    | Some el =>
        if String.eqb (ev_status ev) "complete" then true
        else if (0 <=? stage_index ev) && (0 <=? indexOf STEP_ORDER s)
        then indexOf STEP_ORDER s <? stage_index ev
        else cls_done el
    end.
Proof.
  unfold stage_visited. rewrite handleProgressEvent_steps. cbv zeta.
  assert (Hfe : forall c,
    find_step s (forEach_step 0 STEP_ORDER (stage_index ev) c (steps (dub p))) =
    if 0 <=? indexOf STEP_ORDER s
    then restyle (indexOf STEP_ORDER s) (stage_index ev) c <$> find_step s (steps (dub p))
    else find_step s (steps (dub p))).
  { intros c. by rewrite find_forEach_step by (done || apply STEP_ORDER_NoDup). }
  destruct (String.eqb (ev_status ev) "complete").
  - rewrite find_map_step by done.
    destruct (0 <=? stage_index ev); rewrite ?Hfe;
      destruct (0 <=? indexOf STEP_ORDER s), (find_step s (steps (dub p))); done.
  - destruct (0 <=? stage_index ev); rewrite ?Hfe; simpl;
      destruct (0 <=? indexOf STEP_ORDER s), (find_step s (steps (dub p))); simpl; try done.
    by destruct (indexOf STEP_ORDER s <? stage_index ev),
         (indexOf STEP_ORDER s =? stage_index ev).
Qed.

Lemma dispatch_dub_visited k src ev p s :
  sources (env p) !! k = Some src -> es_flow src = DubFlow -> es_closed src = false ->
  stage_visited s (dispatch_message k (JsonEvent ev) p)
    = stage_visited s (handleProgressEvent ev (es_job src) p).
Proof.
  intros H Hf Hc. rewrite (dispatch_dub_event _ _ _ _ H Hf Hc).
  by destruct (terminal (ev_status ev)).
Qed.

(** One event that keeps a stage visited, on a stream that is open or
    closed. *)
Lemma dispatch_keeps_visited k ev p s :
  dub_at k p ->
  keeps_visited s ev ->
  stage_visited s p = true ->
  stage_visited s (dispatch_message k (JsonEvent ev) p) = true.
Proof.
  intros (src & H & Hf) Hkeep Hv.
  destruct (es_closed src) eqn:Hc; [by rewrite (dispatch_closed _ _ _ _ H Hc)|].
  rewrite (dispatch_dub_visited _ _ _ _ _ H Hf Hc), stage_visited_after.
  unfold stage_visited in Hv.
  destruct (find_step s (steps (dub p))) as [el|] eqn:E; [|done].
  destruct (String.eqb_spec (ev_status ev) "complete") as [|Hnc]; [done|].
  destruct Hkeep as [Hneg|[Hcomplete|Hlater]]; [|done|].
  - by destruct (Z.leb_spec 0 (stage_index ev)); [lia|].
  - destruct (0 <=? stage_index ev), (0 <=? indexOf STEP_ORDER s); simpl; try done.
    by apply Z.ltb_lt.
Qed.

Lemma deliver_keeps_visited k s post : forall p,
  dub_at k p ->
  Forall (keeps_visited s) post ->
  stage_visited s p = true ->
  stage_visited s (deliver k (map JsonEvent post) p) = true.
Proof.
  induction post as [|ev rest IH]; intros p Hd Hall Hv; simpl; [done|].
  apply Forall_cons in Hall as [Hkeep Hall].
  apply IH; [by apply dispatch_dub_at | done | by apply dispatch_keeps_visited].
Qed.

(** A submitted form answered with a job id starts a job as the statements
    below take it: the new event source is open and carries the dubbing
    handlers, the progress section is fresh and the form is locked. *)
Lemma dub_job_start url lang gender sub (r : Response) detail jobId (q : Page) :
  truthy (trim url) = true ->
  res_ok r = true ->
  res_body r = BodyObject detail jobId ->
  let p := fst (form_submit_resume (Fulfilled r) (form_submit url lang gender sub q)) in
  sources (env p) !! length (sources (env q))
    = Some {| es_url := "/api/progress/" +:+ template jobId; es_flow := DubFlow;
              es_job := jobId; es_closed := false |}
  /\ is_fresh p = true
  /\ no_stage_done p = true
  /\ submitBtn_disabled (dub p) = true.
Proof.
  intros Hurl Hok Hbody. unfold form_submit, form_submit_resume, awaited, json_job_id,
    connectSSE, try_catch, exec, throw, mbind, M_bind, mret, M_ret.
  rewrite Hurl. simpl. rewrite Hok, Hbody. simpl.
  split; [by rewrite list_lookup_middle|].
  unfold is_fresh, no_stage_done. simpl.
  assert (forallb (fun el => negb (cls_active el) && negb (cls_done el))
            (map clear_step (steps (dub q))) = true) as ->.
  { apply forallb_forall. intros el Hel. apply in_map_iff in Hel as (? & <- & _). done. }
  assert (forallb negb (map (fun _ : bool => false) (stepLines (dub q))) = true) as ->.
  { apply forallb_forall. intros l Hl. apply in_map_iff in Hl as (? & <- & _). done. }
  repeat split.
  apply forallb_forall. intros el Hel. apply in_map_iff in Hel as (? & <- & _). done.
Qed.

(** C1 (amended). On the open stream of a dubbing job, a stage that is
    rendered visited is still visited after the next event exactly when
    that event names no stage, has status [complete], or names a stage
    that comes after it; so the stage stays visited through any run of
    such events.  An event that is not [complete] and names the stage
    itself or an earlier one leaves it not visited: what is rendered
    follows the latest event, not the highest index seen. *)
Theorem visited_kept_iff_event_names_later_stage (k : nat) (src : EventSource)
    (p : Page) (ev : ProgressEvent) (s : string) :
  sources (env p) !! k = Some src ->
  es_flow src = DubFlow ->
  es_closed src = false ->
  stage_visited s p = true ->
  (stage_visited s (dispatch_message k (JsonEvent ev) p) = true <-> keeps_visited s ev)
  /\ (forall post, Forall (keeps_visited s) post ->
        stage_visited s (deliver k (map JsonEvent post) p) = true).
Proof.
  intros H Hf Hc Hv.
  assert (dub_at k p) as Hd by (by exists src).
  split; [|intros post Hall; by apply deliver_keeps_visited].
  split; [|intros Hkeep; by apply dispatch_keeps_visited].
  rewrite (dispatch_dub_visited _ _ _ _ _ H Hf Hc), stage_visited_after.
  unfold stage_visited in Hv. unfold keeps_visited.
  destruct (find_step s (steps (dub p))) as [el|]; [|done].
  destruct (String.eqb_spec (ev_status ev) "complete") as [Hcomplete|Hnc]; [by auto|].
  destruct (Z.leb_spec 0 (stage_index ev)); [|intros _; left; lia].
  destruct (Z.leb_spec 0 (indexOf STEP_ORDER s)); simpl.
  - intros Hlt%Z.ltb_lt. by auto.
  - intros _. right. right. lia.
Qed.

Lemma visited_kept_iff_event_names_later_stage_witness :
  let src := {| es_url := "/api/progress/job-1"; es_flow := DubFlow;
                es_job := Some "job-1"; es_closed := false |} in
  let p := deliver 0 (map JsonEvent [running "translate" 50]) dub_job_page in
  let later := running "synthesize" 70 in
  let earlier := running "download" 20 in
  sources (env p) !! 0%nat = Some src
  /\ es_flow src = DubFlow
  /\ es_closed src = false
  /\ stage_visited "transcribe" p = true
  /\ keeps_visited "transcribe" later
  /\ stage_visited "transcribe" (dispatch_message 0 (JsonEvent later) p) = true
  /\ ~ keeps_visited "transcribe" earlier
  /\ stage_visited "transcribe" (dispatch_message 0 (JsonEvent earlier) p) = false.
Proof.
  intros src p later earlier.
  assert (H1 : sources (env p) !! 0%nat = Some src) by reflexivity.
  assert (H2 : es_flow src = DubFlow) by reflexivity.
  assert (H3 : es_closed src = false) by reflexivity.
  assert (H4 : stage_visited "transcribe" p = true) by reflexivity.
  assert (H5 : keeps_visited "transcribe" later).
  { right. right. vm_compute. reflexivity. }
  assert (H6 : ~ keeps_visited "transcribe" earlier).
  { intros [Hn|[Hs|Hl]]; vm_compute in Hn || vm_compute in Hl || idtac; discriminate. }
  pose proof (proj1 (visited_kept_iff_event_names_later_stage 0 src p later "transcribe"
                       H1 H2 H3 H4)) as Hlater.
  pose proof (proj1 (visited_kept_iff_event_names_later_stage 0 src p earlier "transcribe"
                       H1 H2 H3 H4)) as Hearlier.
  refine (conj H1 (conj H2 (conj H3 (conj H4 (conj H5 (conj (proj2 Hlater H5)
            (conj H6 _))))))).
  destruct (stage_visited "transcribe" (dispatch_message 0 (JsonEvent earlier) p)) eqn:E;
    [|reflexivity].
  destruct (H6 (proj1 Hearlier eq_refl)).
Defined.

(** C1 as stated fails: after [translate] the stage [transcribe] is
    rendered visited; the later event for [transcribe], whose index is
    lower, renders it active and no longer visited. *)
Lemma visited_stage_lost_out_of_order :
  let first := running "translate" 50 in
  let second := running "transcribe" 30 in
  stage_index second < stage_index first
  /\ stage_visited "transcribe" (deliver 0 (map JsonEvent [first]) dub_job_page) = true
  /\ stage_visited "transcribe"
       (deliver 0 (map JsonEvent ([first] ++ [second])) dub_job_page) = false.
Proof. repeat split; reflexivity. Qed.

(** ** Terminal events, malformed messages and transport errors *)

Lemma dispatch_terminal_closes k src ev p :
  sources (env p) !! k = Some src -> es_closed src = false ->
  terminal (ev_status ev) = true ->
  sources (env (dispatch_message k (JsonEvent ev) p)) !! k = Some (closed_source src).
Proof.
  intros H Hc Ht. unfold dispatch_message, onmessage. rewrite H, Hc.
  destruct (es_flow src).
  - run_handler. rewrite Ht. simpl.
    pose proof (handleProgressEvent_env ev (es_job src) p) as (Hs & _).
    by rewrite Hs, list_lookup_alter_eq, H.
  - run_handler. unfold terminal in Ht.
    destruct (progress_ge0 _ && progress_le100 _), (truthy_opt _),
      (String.eqb (ev_status ev) "complete"), (String.eqb (ev_status ev) "error");
      simpl in *; try done; by rewrite list_lookup_alter_eq, H.
Qed.

(** C2. Once a message with status [complete] or [error] has been handled,
    in either flow, the event source of the job is closed, and whatever
    the transport delivers for it afterwards leaves the page as it is. *)
Theorem terminal_event_closes_subscription (k : nat) (src : EventSource)
    (ev : ProgressEvent) (p : Page) :
  sources (env p) !! k = Some src ->
  es_closed src = false ->
  terminal (ev_status ev) = true ->
  let p' := dispatch_message k (JsonEvent ev) p in
  closed_at k p'
  /\ (forall data, dispatch_message k data p' = p')
  /\ dispatch_error k p' = p'
  /\ (forall msgs, deliver k msgs p' = p').
Proof.
  intros H Hc Ht p'.
  pose proof (dispatch_terminal_closes k src ev p H Hc Ht) as Hcl. fold p' in Hcl.
  assert (closed_at k p') as Hclosed by (by exists (closed_source src)).
  split; [done|]. split; [|split].
  - intros data. by apply (dispatch_closed _ (closed_source src)).
  - unfold dispatch_error. by rewrite Hcl.
  - intros msgs. by apply deliver_closed.
Qed.

(** An [error] event on the download job. *)
Lemma terminal_event_closes_subscription_witness :
  let src := {| es_url := "/api/progress/job-2"; es_flow := DownloadFlow;
                es_job := Some "job-2"; es_closed := false |} in
  let ev := {| ev_step := "download"; ev_progress := PNum 12;
               ev_message := Some "video unavailable"; ev_status := "error" |} in
  let p' := dispatch_message 0 (JsonEvent ev) dl_job_page in
  sources (env dl_job_page) !! 0%nat = Some src
  /\ es_closed src = false
  /\ terminal (ev_status ev) = true
  /\ closed_at 0 p'
  /\ (forall data, dispatch_message 0 data p' = p')
  /\ dispatch_error 0 p' = p'
  /\ (forall msgs, deliver 0 msgs p' = p').
Proof.
  intros src ev p'.
  assert (H1 : sources (env dl_job_page) !! 0%nat = Some src) by reflexivity.
  assert (H2 : es_closed src = false) by reflexivity.
  assert (H3 : terminal (ev_status ev) = true) by reflexivity.
  exact (conj H1 (conj H2 (conj H3
    (terminal_event_closes_subscription 0 src ev dl_job_page H1 H2 H3)))).
Defined.

(** C6. A message that is not JSON, in either flow: the handler catches the
    parse error and returns normally, one entry goes to the console, the
    page is otherwise the same, and the event source stays open. *)
Theorem malformed_message_logged_and_dropped (k : nat) (src : EventSource) (p : Page) :
  sources (env p) !! k = Some src ->
  es_closed src = false ->
  let p' := dispatch_message k NotJson p in
  snd (onmessage src k NotJson p) = inr tt
  /\ console (env p') =
       (console (env p) ++ [{| console_label := "SSE parse error";
                               console_err := Engine JsonSyntaxError |}])%list
  /\ dub p' = dub p
  /\ dl p' = dl p
  /\ toasts (env p') = toasts (env p)
  /\ requests (env p') = requests (env p)
  /\ sources (env p') = sources (env p)
  /\ currentLang (env p') = currentLang (env p).
Proof.
  intros H Hc p'. unfold p', dispatch_message, onmessage. rewrite H, Hc.
  destruct (es_flow src); run_handler; done.
Qed.

Lemma malformed_message_logged_and_dropped_witness :
  let src := {| es_url := "/api/progress/job-1"; es_flow := DubFlow;
                es_job := Some "job-1"; es_closed := false |} in
  let p' := dispatch_message 0 NotJson dub_job_page in
  sources (env dub_job_page) !! 0%nat = Some src
  /\ es_closed src = false
  /\ snd (onmessage src 0 NotJson dub_job_page) = inr tt
  /\ console (env p') =
       (console (env dub_job_page) ++ [{| console_label := "SSE parse error";
                                          console_err := Engine JsonSyntaxError |}])%list
  /\ dub p' = dub dub_job_page
  /\ dl p' = dl dub_job_page
  /\ toasts (env p') = toasts (env dub_job_page)
  /\ requests (env p') = requests (env dub_job_page)
  /\ sources (env p') = sources (env dub_job_page)
  /\ currentLang (env p') = currentLang (env dub_job_page).
Proof.
  intros src p'.
  assert (H1 : sources (env dub_job_page) !! 0%nat = Some src) by reflexivity.
  assert (H2 : es_closed src = false) by reflexivity.
  exact (conj H1 (conj H2 (malformed_message_logged_and_dropped 0 src dub_job_page H1 H2))).
Defined.

(** Outside the inherited names, [tr] gives the two toasts their text. *)
Lemma inherited_false lang : lang ∉ Object_prototype_keys -> inherited lang = false.
Proof.
  intros Hn. unfold inherited. apply not_true_is_false. intros Hex.
  apply existsb_exists in Hex as (k & Hk & Heq).
  apply String.eqb_eq in Heq as <-. by apply Hn, list_elem_of_In.
Qed.

Lemma assoc_other_lang {A : Type} lang (en ar : A) :
  lang <> "en" -> lang <> "ar" -> assoc lang [("en", en); ("ar", ar)] = None.
Proof.
  intros Hen Har. cbn [assoc].
  destruct (String.eqb_spec "en" lang); [congruence|].
  by destruct (String.eqb_spec "ar" lang); [congruence|].
Qed.

Lemma tr_text lang :
  lang ∉ Object_prototype_keys ->
  tr lang "toastNoUrl" = toastNoUrl_text lang
  /\ tr lang "toastDisconnect" = toastDisconnect_text lang.
Proof.
  intros Hn. unfold tr, toastNoUrl_text, toastDisconnect_text.
  rewrite (inherited_false _ Hn).
  destruct (String.eqb_spec lang "ar") as [->|Har]; [by split|].
  destruct (String.eqb_spec lang "en") as [->|Hen]; [by split|].
  unfold TRANSLATIONS. by rewrite assoc_other_lang.
Qed.

(** C7. A transport error on an open event source, in either flow: the
    source is closed, exactly one error toast is shown, the control of the
    flow is enabled again, and nothing is requested and no event source is
    opened.  Unless the current language is an inherited name, the toast
    reads [Lost connection to server.], or its Arabic counterpart when the
    language is Arabic. *)
Theorem transport_error_closes_and_unlocks (k : nat) (src : EventSource) (p : Page) :
  sources (env p) !! k = Some src ->
  es_closed src = false ->
  let p' := dispatch_error k p in
  sources (env p') = alter closed_source k (sources (env p))
  /\ closed_at k p'
  /\ (exists msg,
        toasts (env p') =
          (toasts (env p) ++ [{| toast_text := Str msg; toast_success := false |}])%list
        /\ (currentLang (env p) ∉ Object_prototype_keys ->
            msg = toastDisconnect_text (currentLang (env p))))
  /\ match es_flow src with
     | DubFlow => submitBtn_disabled (dub p') = false
                  /\ btnLabel_hidden (dub p') = false /\ btnLoader_hidden (dub p') = true
     | DownloadFlow => dlStartBtn_disabled (dl p') = false
                  /\ dlBtnLabel_hidden (dl p') = false /\ dlBtnLoader_hidden (dl p') = true
     end
  /\ requests (env p') = requests (env p)
  /\ length (sources (env p')) = length (sources (env p))
  /\ dispatch_error k p' = p'.
Proof.
  intros H Hc p'.
  assert (sources (env p') = alter closed_source k (sources (env p))) as Hs.
  { unfold p', dispatch_error, onerror. rewrite H, Hc.
    destruct (es_flow src); run_handler; done. }
  assert (sources (env p') !! k = Some (closed_source src)) as Hl.
  { by rewrite Hs, list_lookup_alter_eq, H. }
  split; [done|]. split; [by exists (closed_source src)|].
  split.
  { exists (tr (currentLang (env p)) "toastDisconnect"). split.
    - unfold p', dispatch_error, onerror. rewrite H, Hc.
      destruct (es_flow src); run_handler; done.
    - intros Hn. apply (tr_text _ Hn). }
  repeat split.
  - unfold p', dispatch_error, onerror. rewrite H, Hc.
    destruct (es_flow src); run_handler; done.
  - unfold p', dispatch_error, onerror. rewrite H, Hc.
    destruct (es_flow src); run_handler; done.
  - by rewrite Hs, length_alter.
  - unfold dispatch_error at 1. by rewrite Hl.
Qed.

Lemma transport_error_closes_and_unlocks_witness :
  let src := {| es_url := "/api/progress/job-1"; es_flow := DubFlow;
                es_job := Some "job-1"; es_closed := false |} in
  let p' := dispatch_error 0 dub_job_page in
  sources (env dub_job_page) !! 0%nat = Some src
  /\ es_closed src = false
  /\ toasts (env p') =
       [{| toast_text := Str "Lost connection to server."; toast_success := false |}]
  /\ closed_at 0 p'
  /\ submitBtn_disabled (dub p') = false
  /\ requests (env p') = requests (env dub_job_page)
  /\ dispatch_error 0 p' = p'.
Proof.
  intros src p'.
  assert (H1 : sources (env dub_job_page) !! 0%nat = Some src) by reflexivity.
  assert (H2 : es_closed src = false) by reflexivity.
  destruct (transport_error_closes_and_unlocks 0 src dub_job_page H1 H2)
    as (_ & Hclosed & _ & (Hbtn & _) & Hreq & _ & Hagain).
  exact (conj H1 (conj H2 (conj eq_refl (conj Hclosed (conj Hbtn (conj Hreq Hagain)))))).
Defined.

(** ** Completion of a dubbing job *)

Lemma handleProgressEvent_complete ev jobId p :
  ev_status ev = "complete" ->
  let p' := handleProgressEvent ev jobId p in
  Forall (fun el => cls_done el = true /\ cls_active el = false) (steps (dub p'))
  /\ Forall (fun l => l = true) (stepLines (dub p'))
  /\ progressBar_width (dub p') = "100%"
  /\ progressPct_text (dub p') = "100%"
  /\ downloadLink_href (dub p') = "/api/download/" +:+ template jobId
  /\ resultSec_hidden (dub p') = false.
Proof.
  intros Hst p'.
  assert (String.eqb (ev_status ev) "complete" = true) as Hc by (by rewrite Hst).
  assert (String.eqb (ev_status ev) "error" = false) as He by (by rewrite Hst).
  split.
  { unfold p'. rewrite handleProgressEvent_steps. cbv zeta. rewrite Hc.
    apply Forall_map, Forall_forall. done. }
  unfold p', handleProgressEvent. rewrite Hc, He.
  destruct (progress_ge0 _), (0 <=? indexOf STEP_ORDER (ev_step ev)), (truthy_opt _ && _);
    simpl; (split; [apply Forall_map, Forall_forall; done | done]).
Qed.

(** C8. A [complete] event on an open dubbing subscription: every step
    element is done and none active, the bar and the percentage are at
    100%, the download link points at [/api/download/<job id>], the result
    section is shown and the submit control is enabled.  The stream of a
    running [download] event at 40 followed by a complete [render] event at
    100 ends that way. *)
Theorem complete_event_finishes_dub_job (k : nat) (src : EventSource) (p : Page) :
  sources (env p) !! k = Some src ->
  es_flow src = DubFlow ->
  es_closed src = false ->
  (forall ev, ev_status ev = "complete" ->
     let p' := dispatch_message k (JsonEvent ev) p in
     Forall (fun el => cls_done el = true /\ cls_active el = false) (steps (dub p'))
     /\ (forall s, is_Some (find_step s (steps (dub p))) -> stage_visited s p' = true)
     /\ Forall (fun l => l = true) (stepLines (dub p'))
     /\ progressBar_width (dub p') = "100%"
     /\ progressPct_text (dub p') = "100%"
     /\ downloadLink_href (dub p') = "/api/download/" +:+ template (es_job src)
     /\ resultSec_hidden (dub p') = false
     /\ submitBtn_disabled (dub p') = false
     /\ btnLabel_hidden (dub p') = false
     /\ btnLoader_hidden (dub p') = true)
  /\ (let p' :=
        deliver k
          [JsonEvent {| ev_step := "download"; ev_progress := PNum 40;
                        ev_message := None; ev_status := "running" |};
           JsonEvent {| ev_step := "render"; ev_progress := PNum 100;
                        ev_message := None; ev_status := "complete" |}] p in
      Forall (fun el => cls_done el = true /\ cls_active el = false) (steps (dub p'))
      /\ progressBar_width (dub p') = "100%"
      /\ progressPct_text (dub p') = "100%").
Proof.
  intros H Hf Hc.
  assert (Hgen : forall q ev, sources (env q) !! k = Some src -> ev_status ev = "complete" ->
    let q' := dispatch_message k (JsonEvent ev) q in
    Forall (fun el => cls_done el = true /\ cls_active el = false) (steps (dub q'))
    /\ (forall s, is_Some (find_step s (steps (dub q))) -> stage_visited s q' = true)
    /\ Forall (fun l => l = true) (stepLines (dub q'))
    /\ progressBar_width (dub q') = "100%"
    /\ progressPct_text (dub q') = "100%"
    /\ downloadLink_href (dub q') = "/api/download/" +:+ template (es_job src)
    /\ resultSec_hidden (dub q') = false
    /\ submitBtn_disabled (dub q') = false
    /\ btnLabel_hidden (dub q') = false
    /\ btnLoader_hidden (dub q') = true).
  { intros q ev Hq Hst q'.
    pose proof (handleProgressEvent_complete ev (es_job src) q Hst)
      as (Hsteps & Hlines & Hbar & Hpct & Hhref & Hres).
    assert (q' = unlockForm (close k (handleProgressEvent ev (es_job src) q))) as ->.
    { unfold q'. rewrite (dispatch_dub_event _ _ _ _ Hq Hf Hc).
      unfold terminal. by rewrite Hst. }
    simpl. repeat split; try done.
    intros s [el Hel].
    change (stage_visited s (handleProgressEvent ev (es_job src) q) = true).
    rewrite stage_visited_after, Hel. by rewrite Hst. }
  split; [intros ev Hst; by apply Hgen|].
  simpl.
  set (e1 := {| ev_step := "download"; ev_progress := PNum 40;
                ev_message := None; ev_status := "running" |}).
  set (e2 := {| ev_step := "render"; ev_progress := PNum 100;
                ev_message := None; ev_status := "complete" |}).
  assert (dispatch_message k (JsonEvent e1) p = handleProgressEvent e1 (es_job src) p) as ->.
  { by rewrite (dispatch_dub_event _ _ _ _ H Hf Hc). }
  pose proof (handleProgressEvent_env e1 (es_job src) p) as (Hs & _).
  assert (sources (env (handleProgressEvent e1 (es_job src) p)) !! k = Some src) as Hq
    by (by rewrite Hs).
  destruct (Hgen _ e2 Hq eq_refl) as (H1 & _ & _ & H2 & H3 & _).
  done.
Qed.

Lemma complete_event_finishes_dub_job_witness :
  let src := {| es_url := "/api/progress/job-1"; es_flow := DubFlow;
                es_job := Some "job-1"; es_closed := false |} in
  let p' :=
    deliver 0
      [JsonEvent {| ev_step := "download"; ev_progress := PNum 40;
                    ev_message := None; ev_status := "running" |};
       JsonEvent {| ev_step := "render"; ev_progress := PNum 100;
                    ev_message := None; ev_status := "complete" |}] dub_job_page in
  sources (env dub_job_page) !! 0%nat = Some src
  /\ es_flow src = DubFlow
  /\ es_closed src = false
  /\ Forall (fun el => cls_done el = true /\ cls_active el = false) (steps (dub p'))
  /\ progressBar_width (dub p') = "100%"
  /\ progressPct_text (dub p') = "100%".
Proof.
  intros src p'.
  assert (H1 : sources (env dub_job_page) !! 0%nat = Some src) by reflexivity.
  assert (H2 : es_flow src = DubFlow) by reflexivity.
  assert (H3 : es_closed src = false) by reflexivity.
  exact (conj H1 (conj H2 (conj H3
    (proj2 (complete_event_finishes_dub_job 0 src dub_job_page H1 H2 H3))))).
Defined.

(** ** Guards on empty input *)

Lemma truthy_empty s : s = "" -> truthy s = false.
Proof. by intros ->. Qed.

(** C4 (amended). An entry point invoked with a required input missing
    sends no request, opens no event source and locks nothing: the dubbing
    form and the download panel are as before.  The dubbing form and the
    fetch-info button show exactly one error toast, which asks for a URL
    (in Arabic when that is the language, in English otherwise) unless the
    current language is an inherited name; the download button returns
    without showing anything. *)
Theorem missing_input_stops_entry_point (e : Entry) (p : Page) :
  missing_input e ->
  let p' := invoke e p in
  requests (env p') = requests (env p)
  /\ sources (env p') = sources (env p)
  /\ dub p' = dub p
  /\ dl p' = dl p
  /\ match e with
     | DownloadStart _ _ => toasts (env p') = toasts (env p)
     | _ =>
         exists msg,
           toasts (env p') =
             (toasts (env p) ++ [{| toast_text := Str msg; toast_success := false |}])%list
           /\ (currentLang (env p) ∉ Object_prototype_keys ->
               msg = toastNoUrl_text (currentLang (env p)))
     end.
Proof.
  destruct e as [url lang gender sub|url|url formatId]; simpl; intros Hm.
  - unfold form_submit. rewrite (truthy_empty _ Hm). repeat split; try done.
    exists (tr (currentLang (env p)) "toastNoUrl").
    split; [done | intros Hn; apply (tr_text _ Hn)].
  - unfold fetchInfo_click. rewrite (truthy_empty _ Hm). repeat split; try done.
    exists (tr (currentLang (env p)) "toastNoUrl").
    split; [done | intros Hn; apply (tr_text _ Hn)].
  - unfold dlStart_click.
    destruct Hm as [Hm|Hm]; rewrite (truthy_empty _ Hm); simpl; [done|].
    by rewrite orb_true_r.
Qed.

Lemma missing_input_stops_entry_point_witness :
  let e := DubSubmit "   " "es" "female" false in
  let p' := invoke e loaded_page in
  missing_input e
  /\ requests (env p') = requests (env loaded_page)
  /\ sources (env p') = sources (env loaded_page)
  /\ dub p' = dub loaded_page
  /\ dl p' = dl loaded_page
  /\ toasts (env p') =
       [{| toast_text := Str "Please enter a YouTube URL."; toast_success := false |}].
Proof.
  intros e p'.
  assert (H : missing_input e) by reflexivity.
  destruct (missing_input_stops_entry_point e loaded_page H)
    as (Hreq & Hsrc & Hdub & Hdl & _).
  exact (conj H (conj Hreq (conj Hsrc (conj Hdub (conj Hdl eq_refl))))).
Defined.

(** C4 as stated fails for the download button: with an empty URL it
    returns at once and no toast is shown. *)
Lemma download_start_without_url_is_silent :
  missing_input (DownloadStart "" "18")
  /\ ~ notified loaded_page (invoke (DownloadStart "" "18") loaded_page).
Proof.
  split; [by left|]. intros [t Ht]. vm_compute in Ht. discriminate.
Qed.

(** ** A request the server refuses *)




(** ** The name of the saved file *)

Lemma sanitize_length t : String.length (sanitize t) = String.length t.
Proof. induction t as [|c t IH]; simpl; congruence. Qed.

Lemma sanitize_get t : forall i,
  String.get i (sanitize t)
    = (fun c => if unsafe_char c then "_"%char else c) <$> String.get i t.
Proof.
  induction t as [|c t IH]; intros i; simpl; [done|].
  destruct i; simpl; [done | apply IH].
Qed.

(** C9. The saved name is the title with every character of the unsafe
    class, slash and question mark among them, replaced by an underscore
    and every other character kept in place, followed by [.mp3] for the
    media type [audio] and by [.mp4] for any other; without a title it is
    [download] with the same extension. *)
Theorem saveName_sanitized_title_and_extension (mediaType : string)
    (data : option VideoData) :
  let ext := if String.eqb mediaType "audio" then ".mp3" else ".mp4" in
  let t := match data with Some v => default "" (title v) | None => "" end in
  (t = "" -> saveName mediaType data = "download" +:+ ext)
  /\ (t <> "" -> saveName mediaType data = sanitize t +:+ ext)
  /\ String.length (sanitize t) = String.length t
  /\ (forall i, String.get i (sanitize t)
        = (fun c => if unsafe_char c then "_"%char else c) <$> String.get i t)
  /\ (forall i c, String.get i (sanitize t) = Some c -> unsafe_char c = false)
  /\ unsafe_char "/" = true
  /\ unsafe_char "?" = true.
Proof.
  intros ext t. unfold saveName. fold ext.
  split; [|split; [|split; [|split; [|split]]]].
  - unfold t. destruct data as [[[tt|] ? ? ? ? ?]|]; simpl; try done. by intros ->.
  - unfold t. destruct data as [[[tt|] ? ? ? ? ?]|]; simpl; try done.
    intros Hne. unfold truthy. destruct (String.eqb_spec tt ""); done.
  - apply sanitize_length.
  - apply sanitize_get.
  - intros i c. rewrite sanitize_get.
    destruct (String.get i t) as [c0|]; simpl; [|done].
    intros [= <-]. by destruct (unsafe_char c0) eqn:E.
  - done.
Qed.

Lemma saveName_sanitized_title_and_extension_witness :
  let data := Some {| title := Some "a/b?c"; channel := "ch"; thumbnail := "";
                      duration := 61; video_formats := []; audio_formats := [] |} in
  "a/b?c" <> ""
  /\ saveName "audio" data = "a_b_c.mp3"
  /\ saveName "video" data = "a_b_c.mp4"
  /\ saveName "audio" None = "download.mp3".
Proof.
  intros data.
  assert (H : "a/b?c" <> "") by discriminate.
  refine (conj H (conj _ (conj _ _))).
  - exact (proj1 (proj2 (saveName_sanitized_title_and_extension "audio" data)) H).
  - exact (proj1 (proj2 (saveName_sanitized_title_and_extension "video" data)) H).
  - exact (proj1 (saveName_sanitized_title_and_extension "audio" None) eq_refl).
Defined.

(** * Further properties *)

(** ** Strings *)

Lemma append_nil_l (b : string) : "" +:+ b = b.
Proof. reflexivity. Qed.

Lemma append_cons (c : ascii) (a b : string) : String c a +:+ b = String c (a +:+ b).
Proof. reflexivity. Qed.

Lemma length_append (a b : string) :
  String.length (a +:+ b) = (String.length a + String.length b)%nat.
Proof.
  induction a as [|c a IH]; [done|].
  rewrite append_cons. simpl. by rewrite IH.
Qed.

(** Two concatenations with tails of one length agree part by part. *)
Lemma append_inj_tail (a1 a2 b1 b2 : string) :
  String.length b1 = String.length b2 ->
  a1 +:+ b1 = a2 +:+ b2 -> a1 = a2 /\ b1 = b2.
Proof.
  revert a2. induction a1 as [|c a1 IH]; intros [|c2 a2] Hlen Heq;
    rewrite ?append_nil_l, ?append_cons in Heq.
  - done.
  - subst b1. simpl in Hlen. rewrite length_append in Hlen. lia.
  - subst b2. simpl in Hlen. rewrite length_append in Hlen. lia.
  - injection Heq as -> Heq. destruct (IH _ Hlen Heq) as [-> ->]. done.
Qed.

(** ** Durations *)

Lemma pretty_N_go_length (x : N) : forall s,
  (String.length s <= String.length (pretty_N_go x s))%nat.
Proof.
  induction (N.lt_wf_0 x) as [x _ IH]. intros s.
  destruct (decide (x = 0)%N) as [->|Hx]; [by rewrite pretty_N_go_0|].
  rewrite pretty_N_go_step by lia.
  etrans; [|apply IH; apply N.div_lt; lia]. simpl. lia.
Qed.

Lemma pretty_pos_nonempty (z : Z) : 0 < z -> (1 <= String.length (pretty z))%nat.
Proof.
  destruct z as [|x|x]; try lia. intros _.
  unfold pretty, pretty_Z, pretty, pretty_positive, pretty, pretty_N.
  destruct (decide (N.pos x = 0)%N) as [|_]; [done|].
  rewrite pretty_N_go_step by lia.
  etrans; [|apply pretty_N_go_length]. simpl. lia.
Qed.

(** Facts about the numbers below 60, checked one by one. *)
Lemma below_60 (P : Z -> bool) :
  forallb P (seqZ 0 60) = true -> forall x, 0 <= x < 60 -> P x = true.
Proof.
  intros H x Hx. rewrite forallb_forall in H. apply H.
  apply list_elem_of_In, elem_of_seqZ. lia.
Qed.

Lemma two_digits_length x :
  0 <= x < 60 -> String.length (padStart2 (pretty x)) = 2%nat.
Proof.
  intros Hx.
  apply Nat.eqb_eq, (below_60 (fun x => Nat.eqb (String.length (padStart2 (pretty x))) 2));
    [by vm_compute | done].
Qed.

Lemma two_digits_inj x y :
  0 <= x < 60 -> 0 <= y < 60 ->
  padStart2 (pretty x) = padStart2 (pretty y) -> x = y.
Proof.
  intros Hx Hy Heq.
  set (Q := fun x y : Z =>
    implb (String.eqb (padStart2 (pretty x)) (padStart2 (pretty y))) (x =? y)).
  assert (forallb (fun x => forallb (Q x) (seqZ 0 60)) (seqZ 0 60) = true) as H
    by (by vm_compute).
  pose proof (below_60 _ H x Hx) as Hx'. cbv beta in Hx'.
  pose proof (below_60 _ Hx' y Hy) as Hxy. unfold Q in Hxy.
  rewrite Heq, String.eqb_refl in Hxy. simpl in Hxy. lia.
Qed.

Lemma minutes_length x :
  0 <= x < 60 -> (String.length (pretty x) <= 2)%nat.
Proof.
  intros Hx.
  apply Nat.leb_le, (below_60 (fun x => Nat.leb (String.length (pretty x)) 2));
    [by vm_compute | done].
Qed.

(** The fields [fmtDuration] prints for a duration that is not negative:
    hours, minutes below 60 and seconds below 60 that add up to the
    duration, the hours only when there are some. *)
Lemma fmtDuration_fields (s : Z) :
  0 <= s ->
  exists h m sec,
    0 <= h /\ 0 <= m < 60 /\ 0 <= sec < 60 /\ s = 3600 * h + 60 * m + sec
    /\ fmtDuration s =
       if 0 <? h
       then pretty h +:+ ":" +:+ padStart2 (pretty m) +:+ ":" +:+ padStart2 (pretty sec)
       else pretty m +:+ ":" +:+ padStart2 (pretty sec).
Proof.
  intros Hs. exists (s / 3600), (Z.rem s 3600 / 60), (Z.rem s 60).
  rewrite !Z.rem_mod_nonneg by lia.
  assert (s mod 3600 = 60 * (s mod 3600 / 60) + (s mod 3600) mod 60) as H1
    by (apply Z.div_mod; lia).
  assert ((s mod 3600) mod 60 = s mod 60) as H2.
  { replace (s mod 3600) with (s + (- 60 * (s / 3600)) * 60)
      by (rewrite (Z.mod_eq s 3600); lia).
    apply Z.mod_add. lia. }
  pose proof (Z.mod_pos_bound s 3600 ltac:(lia)).
  pose proof (Z.mod_pos_bound s 60 ltac:(lia)).
  pose proof (Z.div_mod s 3600 ltac:(lia)).
  pose proof (Z.div_pos s 3600 Hs ltac:(lia)).
  assert (0 <= s mod 3600 / 60 < 60).
  { split; [apply Z.div_pos; lia | apply Z.div_lt_upper_bound; lia]. }
  repeat split; try lia.
  unfold fmtDuration. destruct (Z.eqb_spec s 0) as [->|Hne]; [done|].
  rewrite !Z.rem_mod_nonneg by lia. done.
Qed.

(** X1. Two durations in whole seconds, not negative and within the safe
    integers, that print alike are the same duration. *)
Theorem fmtDuration_inj (s1 s2 : Z) :
  0 <= s1 <= MAX_SAFE_INTEGER -> 0 <= s2 <= MAX_SAFE_INTEGER ->
  fmtDuration s1 = fmtDuration s2 -> s1 = s2.
Proof.
  intros [H1 _] [H2 _].
  destruct (fmtDuration_fields s1 H1) as (h1 & m1 & c1 & Hh1 & Hm1 & Hc1 & -> & ->).
  destruct (fmtDuration_fields s2 H2) as (h2 & m2 & c2 & Hh2 & Hm2 & Hc2 & -> & ->).
  pose proof (two_digits_length m1 Hm1). pose proof (two_digits_length m2 Hm2).
  pose proof (two_digits_length c1 Hc1). pose proof (two_digits_length c2 Hc2).
  destruct (Z.ltb_spec 0 h1) as [Hp1|Hz1], (Z.ltb_spec 0 h2) as [Hp2|Hz2]; intros Heq.
  - apply append_inj_tail in Heq as [Hh Heq];
      [|rewrite !length_append; simpl; lia].
    apply (inj pretty) in Hh. rewrite !append_cons, !append_nil_l in Heq.
    injection Heq as Heq.
    apply append_inj_tail in Heq as [Hm Heq]; [|simpl; lia].
    injection Heq as Hc.
    apply two_digits_inj in Hm, Hc; try done. lia.
  - exfalso. apply (f_equal String.length) in Heq.
    rewrite !length_append in Heq. simpl in Heq.
    pose proof (pretty_pos_nonempty h1 Hp1). pose proof (minutes_length m2 Hm2). lia.
  - exfalso. apply (f_equal String.length) in Heq.
    rewrite !length_append in Heq. simpl in Heq.
    pose proof (pretty_pos_nonempty h2 Hp2). pose proof (minutes_length m1 Hm1). lia.
  - apply append_inj_tail in Heq as [Hm Heq]; [|rewrite !length_append; simpl; lia].
    apply (inj pretty) in Hm. rewrite !append_cons, !append_nil_l in Heq.
    injection Heq as Hc.
    apply two_digits_inj in Hc; try done. lia.
Qed.

Lemma fmtDuration_inj_witness :
  0 <= 3725 <= MAX_SAFE_INTEGER /\ 0 <= 3600 + 125 <= MAX_SAFE_INTEGER
  /\ fmtDuration 3725 = fmtDuration (3600 + 125)
  /\ 3725 = 3600 + 125.
Proof.
  assert (H1 : 0 <= 3725 <= MAX_SAFE_INTEGER) by (unfold MAX_SAFE_INTEGER; lia).
  assert (H2 : 0 <= 3600 + 125 <= MAX_SAFE_INTEGER) by (unfold MAX_SAFE_INTEGER; lia).
  assert (H3 : fmtDuration 3725 = fmtDuration (3600 + 125)) by reflexivity.
  exact (conj H1 (conj H2 (conj H3 (fmtDuration_inj _ _ H1 H2 H3)))).
Defined.

(** X2. A duration in whole seconds, not negative and within the safe
    integers, prints as minutes and two-digit seconds below an hour, and as
    hours, two-digit minutes and two-digit seconds from an hour on; zero
    prints as the other durations do. *)
Theorem fmtDuration_clock (s : Z) :
  0 <= s <= MAX_SAFE_INTEGER ->
  fmtDuration s =
    (if s <? 3600
     then pretty (s / 60) +:+ ":" +:+ padStart2 (pretty (s mod 60))
     else pretty (s / 3600) +:+ ":" +:+ padStart2 (pretty (s / 60 mod 60))
            +:+ ":" +:+ padStart2 (pretty (s mod 60)))
  /\ String.length (padStart2 (pretty (s / 60 mod 60))) = 2%nat
  /\ String.length (padStart2 (pretty (s mod 60))) = 2%nat.
Proof.
  intros [Hs _].
  pose proof (Z.mod_pos_bound s 60 ltac:(lia)).
  pose proof (Z.mod_pos_bound (s / 60) 60 ltac:(lia)).
  split; [|split; by apply two_digits_length].
  assert (s mod 3600 / 60 = s / 60 mod 60) as Hm.
  { pose proof (Z.div_mod s 3600 ltac:(lia)) as Hd.
    pose proof (Z.mod_pos_bound s 3600 ltac:(lia)).
    assert (s / 60 = s / 3600 * 60 + s mod 3600 / 60) as ->.
    { rewrite Hd at 1.
      replace (3600 * (s / 3600) + s mod 3600) with (s mod 3600 + (s / 3600 * 60) * 60)
        by lia.
      rewrite Z.div_add by lia. lia. }
    rewrite Z.add_comm, Z.mod_add by lia.
    symmetry. apply Z.mod_small.
    split; [apply Z.div_pos; lia | apply Z.div_lt_upper_bound; lia]. }
  unfold fmtDuration. destruct (Z.eqb_spec s 0) as [->|Hne]; [done|].
  rewrite !Z.rem_mod_nonneg, Hm by lia.
  destruct (Z.ltb_spec s 3600) as [Hlt|Hge].
  - rewrite (Z.div_small s 3600) by lia. simpl.
    rewrite (Z.mod_small (s / 60) 60); [done|].
    split; [apply Z.div_pos; lia | apply Z.div_lt_upper_bound; lia].
  - assert (0 < s / 3600) by (apply Z.div_str_pos; lia).
    by destruct (Z.ltb_spec 0 (s / 3600)); [|lia].
Qed.

Lemma fmtDuration_clock_witness :
  0 <= 59 <= MAX_SAFE_INTEGER /\ fmtDuration 59 = "0:59" /\ fmtDuration 3600 = "1:00:00".
Proof.
  assert (H : 0 <= 59 <= MAX_SAFE_INTEGER) by (unfold MAX_SAFE_INTEGER; lia).
  assert (H' : 0 <= 3600 <= MAX_SAFE_INTEGER) by (unfold MAX_SAFE_INTEGER; lia).
  refine (conj H (conj _ _)).
  - rewrite (proj1 (fmtDuration_clock 59 H)). reflexivity.
  - rewrite (proj1 (fmtDuration_clock 3600 H')). reflexivity.
Defined.

(** ** The activity log *)

Lemma handleProgressEvent_logBox ev jobId p :
  logBox (dub (handleProgressEvent ev jobId p)) =
    (logBox (dub p) ++
       if truthy_opt (ev_message ev) && negb (String.eqb (ev_step ev) "heartbeat")
       then [default "" (ev_message ev)] else [])%list.
Proof.
  unfold handleProgressEvent.
  destruct (progress_ge0 _), (0 <=? indexOf STEP_ORDER (ev_step ev)),
    (truthy_opt _ && _), (String.eqb (ev_status ev) "complete"),
    (String.eqb (ev_status ev) "error"); simpl; by rewrite ?app_nil_r.
Qed.

Lemma dispatch_message_logBox k data p :
  exists l, logBox (dub (dispatch_message k data p)) = (logBox (dub p) ++ l)%list.
Proof.
  unfold dispatch_message.
  destruct (sources (env p) !! k) as [src|]; [|by exists []; rewrite app_nil_r].
  destruct (es_closed src); [by exists []; rewrite app_nil_r|].
  unfold onmessage. destruct (es_flow src), data as [| |ev]; run_handler;
    try (by exists []; rewrite app_nil_r).
  - eexists. destruct (terminal (ev_status ev)); simpl; apply handleProgressEvent_logBox.
  - exists []. rewrite app_nil_r.
    by destruct (progress_ge0 _ && progress_le100 _), (truthy_opt _),
      (String.eqb (ev_status ev) "complete"), (String.eqb (ev_status ev) "error").
Qed.

(** X3. No message of a stream and no transport error removes or rewrites
    an entry of the activity log: the log after is the log before with
    entries added at the end. *)
Theorem log_only_grows (k : nat) (msgs : list Payload) (p : Page) :
  logBox (dub p) `prefix_of` logBox (dub (deliver k msgs p))
  /\ logBox (dub (dispatch_error k p)) = logBox (dub p).
Proof.
  split.
  - revert p. induction msgs as [|m rest IH]; intros p; simpl; [done|].
    etrans; [|apply IH].
    destruct (dispatch_message_logBox k m p) as [l ->]. by apply prefix_app_r.
  - unfold dispatch_error.
    destruct (sources (env p) !! k) as [src|]; [|done].
    destruct (es_closed src); [done|].
    unfold onerror. destruct (es_flow src); run_handler; done.
Qed.

Lemma handleProgressEvent_stepLines ev jobId p :
  stepLines (dub (handleProgressEvent ev jobId p)) =
    let lines :=
      if 0 <=? stage_index ev then toggle_lines (stage_index ev) (stepLines (dub p))
      else stepLines (dub p) in
    if String.eqb (ev_status ev) "complete" then map (fun _ => true) lines else lines.
Proof.
  unfold handleProgressEvent, stage_index.
  destruct (progress_ge0 _), (0 <=? indexOf STEP_ORDER (ev_step ev)),
    (truthy_opt _ && _), (String.eqb (ev_status ev) "complete"),
    (String.eqb (ev_status ev) "error"); reflexivity.
Qed.

(** X4. An event of the dubbing stream whose step is [heartbeat] writes
    nothing to the log, and unless its status is [complete] it leaves every
    step element and step line as it was. *)
Theorem heartbeat_is_silent (k : nat) (ev : ProgressEvent) (p : Page) :
  ev_step ev = "heartbeat" ->
  let p' := dispatch_message k (JsonEvent ev) p in
  logBox (dub p') = logBox (dub p)
  /\ (ev_status ev <> "complete" ->
      steps (dub p') = steps (dub p) /\ stepLines (dub p') = stepLines (dub p)).
Proof.
  intros Hstep p'. unfold p', dispatch_message.
  destruct (sources (env p) !! k) as [src|]; [|done].
  destruct (es_closed src); [done|].
  unfold onmessage. destruct (es_flow src); run_handler.
  - assert (logBox (dub (handleProgressEvent ev (es_job src) p)) = logBox (dub p)) as Hlog.
    { rewrite handleProgressEvent_logBox, Hstep. simpl.
      by rewrite andb_false_r, app_nil_r. }
    split; [by destruct (terminal (ev_status ev))|].
    intros Hst.
    assert (String.eqb (ev_status ev) "complete" = false) as Hc
      by (by apply String.eqb_neq).
    assert (steps (dub (handleProgressEvent ev (es_job src) p)) = steps (dub p)
            /\ stepLines (dub (handleProgressEvent ev (es_job src) p)) = stepLines (dub p))
      as Hsame.
    { assert (stage_index ev = -1) as Hidx
        by (unfold stage_index; by rewrite Hstep).
      rewrite handleProgressEvent_steps, handleProgressEvent_stepLines. cbv zeta.
      by rewrite Hidx, Hc. }
    by destruct (terminal (ev_status ev)).
  - by destruct (progress_ge0 _ && progress_le100 _), (truthy_opt _),
      (String.eqb (ev_status ev) "complete"), (String.eqb (ev_status ev) "error").
Qed.

Lemma heartbeat_is_silent_witness :
  let ev := {| ev_step := "heartbeat"; ev_progress := PNum (-1);
               ev_message := Some "still working"; ev_status := "running" |} in
  let p' := dispatch_message 0 (JsonEvent ev) dub_job_page in
  ev_step ev = "heartbeat"
  /\ logBox (dub p') = logBox (dub dub_job_page)
  /\ (ev_status ev <> "complete" ->
      steps (dub p') = steps (dub dub_job_page)
      /\ stepLines (dub p') = stepLines (dub dub_job_page)).
Proof.
  intros ev p'.
  exact (conj eq_refl (heartbeat_is_silent 0 ev dub_job_page eq_refl)).
Defined.

(** ** The stages after one event *)

Lemma stage_active_after ev jobId p s :
  stage_active s (handleProgressEvent ev jobId p) =
    match find_step s (steps (dub p)) with
    | None => false
    | Some el =>
        if String.eqb (ev_status ev) "complete" then false
        else if (0 <=? stage_index ev) && (0 <=? indexOf STEP_ORDER s)
        then indexOf STEP_ORDER s =? stage_index ev
        else cls_active el
    end.
Proof.
  unfold stage_active. rewrite handleProgressEvent_steps. cbv zeta.
  assert (Hfe : forall c,
    find_step s (forEach_step 0 STEP_ORDER (stage_index ev) c (steps (dub p))) =
    if 0 <=? indexOf STEP_ORDER s
    then restyle (indexOf STEP_ORDER s) (stage_index ev) c <$> find_step s (steps (dub p))
    else find_step s (steps (dub p))).
  { intros c. by rewrite find_forEach_step by (done || apply STEP_ORDER_NoDup). }
  destruct (String.eqb (ev_status ev) "complete").
  - rewrite find_map_step by done.
    destruct (0 <=? stage_index ev); rewrite ?Hfe;
      destruct (0 <=? indexOf STEP_ORDER s), (find_step s (steps (dub p))); done.
  - destruct (0 <=? stage_index ev); rewrite ?Hfe; simpl;
      destruct (0 <=? indexOf STEP_ORDER s), (find_step s (steps (dub p))); simpl; try done.
    destruct (Z.ltb_spec (indexOf STEP_ORDER s) (stage_index ev)),
      (Z.eqb_spec (indexOf STEP_ORDER s) (stage_index ev)); try done. lia.
Qed.

(** X5. After an event that names a stage and is not [complete], whatever
    the page showed before: the stages before the named one are visited and
    not active, the named one is active and not visited, the later ones are
    neither; the line at position [i] is done exactly when [i] is below the
    stage's index. *)
Theorem stages_after_recognised_event (ev : ProgressEvent) (jobId : option string)
    (p : Page) (s : string) (el : StepEl) :
  0 <= stage_index ev ->
  ev_status ev <> "complete" ->
  s ∈ STEP_ORDER ->
  find_step s (steps (dub p)) = Some el ->
  let p' := handleProgressEvent ev jobId p in
  stage_visited s p' = (indexOf STEP_ORDER s <? stage_index ev)
  /\ stage_active s p' = (indexOf STEP_ORDER s =? stage_index ev)
  /\ forall i, stepLines (dub p') !! i
       = (fun _ => Z.of_nat i <? stage_index ev) <$> stepLines (dub p) !! i.
Proof.
  intros Hi Hst Hs Hel p'. unfold p'.
  assert (String.eqb (ev_status ev) "complete" = false) as Hc by (by apply String.eqb_neq).
  pose proof (indexOf_from_present 0 _ _ Hs) as Hpos. fold (indexOf STEP_ORDER s) in Hpos.
  rewrite stage_visited_after, stage_active_after, Hel, Hc.
  destruct (Z.leb_spec 0 (stage_index ev)); [|lia].
  destruct (Z.leb_spec 0 (indexOf STEP_ORDER s)); [|lia].
  repeat split.
  intros i. rewrite handleProgressEvent_stepLines. cbv zeta. rewrite Hc.
  destruct (Z.leb_spec 0 (stage_index ev)); [|lia].
  unfold toggle_lines. by rewrite list_lookup_imap.
Qed.

Lemma stages_after_recognised_event_witness :
  let ev := running "translate" 60 in
  let el := {| data_step := "render"; cls_active := false; cls_done := true |} in
  let p := deliver 0 [JsonEvent {| ev_step := "render"; ev_progress := PNum 100;
                                   ev_message := None; ev_status := "complete" |}]
             dub_job_page in
  let p' := handleProgressEvent ev (Some "job-1") p in
  0 <= stage_index ev
  /\ ev_status ev <> "complete"
  /\ "render" ∈ STEP_ORDER
  /\ find_step "render" (steps (dub p)) = Some el
  /\ stage_visited "render" p' = false
  /\ stage_active "render" p' = false.
Proof.
  intros ev el p p'.
  assert (H1 : 0 <= stage_index ev) by (vm_compute; discriminate).
  assert (H2 : ev_status ev <> "complete") by discriminate.
  assert (H3 : "render" ∈ STEP_ORDER) by (apply list_elem_of_In; simpl; tauto).
  assert (H4 : find_step "render" (steps (dub p)) = Some el) by reflexivity.
  destruct (stages_after_recognised_event ev (Some "job-1") p "render" el H1 H2 H3 H4)
    as (Hv & Ha & _).
  exact (conj H1 (conj H2 (conj H3 (conj H4 (conj Hv Ha))))).
Defined.

(** ** Requests that settle *)

(** X6. However the request for a job settles, the handler returns
    normally and sends nothing more.  When the response is in 200..299 with
    a JSON object as body, one event source is opened for the job id read
    from it (for [/api/progress/undefined] when the object has none), no
    toast is shown and the control stays locked.  In every other case no
    event source is opened, one error toast is shown and the control is
    enabled again.  This holds for the dubbing form and for the download
    button. *)
Theorem job_request_outcome (r : FetchResult) (p : Page) :
  (let p' := fst (form_submit_resume r p) in
   snd (form_submit_resume r p) = inr tt
   /\ requests (env p') = requests (env p)
   /\ dl p' = dl p
   /\ match accepted r with
      | Some job =>
          sources (env p') =
            (sources (env p) ++
               [{| es_url := "/api/progress/" +:+ template job; es_flow := DubFlow;
                   es_job := job; es_closed := false |}])%list
          /\ toasts (env p') = toasts (env p)
          /\ dub p' = dub p
      | None =>
          sources (env p') = sources (env p)
          /\ (exists msg, toasts (env p') =
                (toasts (env p) ++ [{| toast_text := msg; toast_success := false |}])%list)
          /\ submitBtn_disabled (dub p') = false
          /\ btnLabel_hidden (dub p') = false
          /\ btnLoader_hidden (dub p') = true
      end)
  /\ (let p' := fst (dlStart_resume r p) in
      snd (dlStart_resume r p) = inr tt
      /\ requests (env p') = requests (env p)
      /\ dub p' = dub p
      /\ match accepted r with
         | Some job =>
             sources (env p') =
               (sources (env p) ++
                  [{| es_url := "/api/progress/" +:+ template job; es_flow := DownloadFlow;
                      es_job := job; es_closed := false |}])%list
             /\ toasts (env p') = toasts (env p)
             /\ dl p' = dl p
         | None =>
             sources (env p') = sources (env p)
             /\ (exists msg, toasts (env p') =
                   (toasts (env p) ++ [{| toast_text := msg; toast_success := false |}])%list)
             /\ dlStartBtn_disabled (dl p') = false
             /\ dlBtnLabel_hidden (dl p') = false
             /\ dlBtnLoader_hidden (dl p') = true
         end).
Proof.
  unfold form_submit_resume, dlStart_resume, accepted, awaited, error_detail,
    json_job_id, connectSSE, try_catch, exec, throw, mbind, M_bind, mret, M_ret.
  destruct r as [|[status body]]; simpl.
  { repeat split; eauto. }
  destruct (res_ok _); simpl; destruct body as [| |detail job]; simpl;
    repeat split; eauto.
Qed.

(** ** A job the server reports as failed *)

(** X7. An event with status [error] on an open event source closes the
    source, shows one error toast with the event's message, or with the
    flow's generic text when the message is missing or empty, and enables
    the flow's control.  The dubbing flow leaves the result section and its
    link as they were; the download flow adds no save button. *)
Theorem error_event_surfaced (k : nat) (src : EventSource) (ev : ProgressEvent)
    (p : Page) :
  sources (env p) !! k = Some src ->
  es_closed src = false ->
  ev_status ev = "error" ->
  let p' := dispatch_message k (JsonEvent ev) p in
  closed_at k p'
  /\ toasts (env p') =
       (toasts (env p) ++
          [{| toast_text :=
                Str (or_else (ev_message ev)
                       match es_flow src with
                       | DubFlow => "An error occurred during processing."
                       | DownloadFlow => "Download failed"
                       end);
              toast_success := false |}])%list
  /\ match es_flow src with
     | DubFlow =>
         submitBtn_disabled (dub p') = false
         /\ btnLabel_hidden (dub p') = false /\ btnLoader_hidden (dub p') = true
         /\ resultSec_hidden (dub p') = resultSec_hidden (dub p)
         /\ downloadLink_href (dub p') = downloadLink_href (dub p)
     | DownloadFlow =>
         dlStartBtn_disabled (dl p') = false
         /\ dlBtnLabel_hidden (dl p') = false /\ dlBtnLoader_hidden (dl p') = true
         /\ dlSaveBtns (dl p') = dlSaveBtns (dl p)
     end.
Proof.
  intros H Hc Hst p'.
  assert (terminal (ev_status ev) = true) as Ht by (unfold terminal; by rewrite Hst).
  split.
  { exists (closed_source src). split; [|done].
    by apply dispatch_terminal_closes. }
  unfold p', dispatch_message, onmessage. rewrite H, Hc.
  destruct (es_flow src); run_handler.
  - rewrite Ht. simpl. unfold handleProgressEvent. rewrite Hst. simpl.
    destruct (progress_ge0 _), (0 <=? indexOf STEP_ORDER (ev_step ev)), (truthy_opt _ && _);
      done.
  - rewrite Hst. simpl.
    destruct (progress_ge0 _ && progress_le100 _), (truthy_opt _); done.
Qed.

Lemma error_event_surfaced_witness :
  let src := {| es_url := "/api/progress/job-1"; es_flow := DubFlow;
                es_job := Some "job-1"; es_closed := false |} in
  let ev := {| ev_step := "download"; ev_progress := PNum 10;
               ev_message := Some ""; ev_status := "error" |} in
  let p' := dispatch_message 0 (JsonEvent ev) dub_job_page in
  sources (env dub_job_page) !! 0%nat = Some src
  /\ es_closed src = false
  /\ ev_status ev = "error"
  /\ toast_text <$> toast_on_screen p' = Some (Str "An error occurred during processing.")
  /\ submitBtn_disabled (dub p') = false.
Proof.
  intros src ev p'.
  assert (H1 : sources (env dub_job_page) !! 0%nat = Some src) by reflexivity.
  assert (H2 : es_closed src = false) by reflexivity.
  assert (H3 : ev_status ev = "error") by reflexivity.
  destruct (error_event_surfaced 0 src ev dub_job_page H1 H2 H3) as (_ & Ht & Hu & _).
  refine (conj H1 (conj H2 (conj H3 (conj _ Hu)))).
  unfold toast_on_screen, p'. rewrite Ht. reflexivity.
Defined.

(** ** Progress out of range *)

(** X8. A progress above 100 (a whole number within the safe integers) is
    shown by the dubbing flow as it comes, for an event that is not
    [complete], and is ignored by the download flow, whose bar and
    percentage stay as they were. *)
Theorem progress_above_100 (z : Z) (ev : ProgressEvent) (k : nat)
    (jobId : option string) (p : Page) :
  ev_progress ev = PNum z ->
  100 < z <= MAX_SAFE_INTEGER ->
  (ev_status ev <> "complete" ->
   progressPct_text (dub (handleProgressEvent ev jobId p)) = pretty z +:+ "%"
   /\ progressBar_width (dub (handleProgressEvent ev jobId p)) = pretty z +:+ "%")
  /\ dlProgressPct_text (dl (fst (dl_onmessage k jobId (JsonEvent ev) p)))
       = dlProgressPct_text (dl p)
  /\ dlProgressBar_width (dl (fst (dl_onmessage k jobId (JsonEvent ev) p)))
       = dlProgressBar_width (dl p).
Proof.
  intros Hp [Hz _]. split.
  - intros Hst. apply String.eqb_neq in Hst.
    unfold handleProgressEvent. rewrite Hp, Hst. simpl.
    destruct (Z.leb_spec 0 z); [|lia].
    destruct (0 <=? indexOf STEP_ORDER (ev_step ev)), (truthy_opt _ && _),
      (String.eqb (ev_status ev) "error"); done.
  - run_handler. rewrite Hp. simpl.
    destruct (Z.leb_spec z 100); [lia|]. rewrite andb_false_r.
    destruct (truthy_opt _), (String.eqb (ev_status ev) "complete"),
      (String.eqb (ev_status ev) "error"); done.
Qed.

Lemma progress_above_100_witness :
  let ev := running "download" 150 in
  ev_progress ev = PNum 150
  /\ 100 < 150 <= MAX_SAFE_INTEGER
  /\ progressPct_text (dub (handleProgressEvent ev (Some "job-1") dub_job_page)) = "150%"
  /\ dlProgressPct_text (dl (fst (dl_onmessage 0 (Some "job-2") (JsonEvent ev) dl_job_page)))
       = "0%".
Proof.
  intros ev.
  assert (H1 : ev_progress ev = PNum 150) by reflexivity.
  assert (H2 : 100 < 150 <= MAX_SAFE_INTEGER) by (unfold MAX_SAFE_INTEGER; lia).
  destruct (progress_above_100 150 ev 0 (Some "job-1") dub_job_page H1 H2) as (Hd & _).
  destruct (progress_above_100 150 ev 0 (Some "job-2") dl_job_page H1 H2) as (_ & Hl & _).
  refine (conj H1 (conj H2 (conj _ _))).
  - exact (proj1 (Hd ltac:(discriminate))).
  - exact Hl.
Defined.

(** ** The save button *)

Lemma dispatch_dl_complete k src ev p :
  sources (env p) !! k = Some src -> es_flow src = DownloadFlow -> es_closed src = false ->
  ev_status ev = "complete" ->
  let p' := dispatch_message k (JsonEvent ev) p in
  dlSaveBtns (dl p') = [es_job src]
  /\ dlProgress_hidden (dl p') = dlProgress_hidden (dl p)
  /\ dlStartBtn_disabled (dl p') = false
  /\ dlBtnLabel_hidden (dl p') = false
  /\ dlBtnLoader_hidden (dl p') = true
  /\ dlProgressMsg_text (dl p') =
       or_else (ev_message ev) (tr (currentLang (env p)) "dlComplete").
Proof.
  intros H Hf Hc Hst p'. unfold p', dispatch_message, onmessage. rewrite H, Hc, Hf.
  run_handler. rewrite Hst. simpl.
  destruct (progress_ge0 _ && progress_le100 _), (truthy_opt _); done.
Qed.

(** X9. When a download completes, the panel holds exactly one save
    button, bound to the job that completed, whatever it held before; the
    source is closed and the download button enabled.  A change of format
    afterwards, or the start of another download, leaves no save button. *)
Theorem completed_download_one_save_button (k : nat) (src : EventSource)
    (ev : ProgressEvent) (p : Page) :
  sources (env p) !! k = Some src ->
  es_flow src = DownloadFlow ->
  es_closed src = false ->
  ev_status ev = "complete" ->
  let p' := dispatch_message k (JsonEvent ev) p in
  dlSaveBtns (dl p') = [es_job src]
  /\ closed_at k p'
  /\ dlStartBtn_disabled (dl p') = false
  /\ dlSaveBtns (dl (resetDlUI p')) = []
  /\ dlProgress_hidden (dl (resetDlUI p')) = true
  /\ (forall url formatId, truthy (trim url) = true -> truthy formatId = true ->
        dlSaveBtns (dl (dlStart_click url formatId p')) = []).
Proof.
  intros H Hf Hc Hst p'.
  destruct (dispatch_dl_complete k src ev p H Hf Hc Hst) as (Hb & _ & Hu & _).
  repeat split; try done.
  - exists (closed_source src). split; [|done].
    apply dispatch_terminal_closes; try done. unfold terminal. by rewrite Hst.
  - intros url formatId Hu1 Hu2. unfold dlStart_click. by rewrite Hu1, Hu2.
Qed.

Lemma completed_download_one_save_button_witness :
  let src := {| es_url := "/api/progress/job-2"; es_flow := DownloadFlow;
                es_job := Some "job-2"; es_closed := false |} in
  let ev := {| ev_step := "download"; ev_progress := PNum 100;
               ev_message := None; ev_status := "complete" |} in
  let p' := dispatch_message 0 (JsonEvent ev) dl_job_page in
  sources (env dl_job_page) !! 0%nat = Some src
  /\ es_flow src = DownloadFlow
  /\ es_closed src = false
  /\ ev_status ev = "complete"
  /\ dlSaveBtns (dl p') = [Some "job-2"]
  /\ dlSaveBtns (dl (resetDlUI p')) = [].
Proof.
  intros src ev p'.
  assert (H1 : sources (env dl_job_page) !! 0%nat = Some src) by reflexivity.
  assert (H2 : es_flow src = DownloadFlow) by reflexivity.
  assert (H3 : es_closed src = false) by reflexivity.
  assert (H4 : ev_status ev = "complete") by reflexivity.
  destruct (completed_download_one_save_button 0 src ev dl_job_page H1 H2 H3 H4)
    as (Ha & _ & _ & Hb & _).
  exact (conj H1 (conj H2 (conj H3 (conj H4 (conj Ha Hb))))).
Defined.

(** [handleProgressEvent] leaves the download panel and the lock of the
    dubbing form alone. *)
Lemma handleProgressEvent_rest ev jobId p :
  dl (handleProgressEvent ev jobId p) = dl p.
Proof.
  unfold handleProgressEvent.
  destruct (progress_ge0 _), (0 <=? indexOf STEP_ORDER (ev_step ev)),
    (truthy_opt _ && _), (String.eqb (ev_status ev) "complete"),
    (String.eqb (ev_status ev) "error"); done.
Qed.

Lemma handleProgressEvent_lock ev jobId p :
  submitBtn_disabled (dub (handleProgressEvent ev jobId p)) = submitBtn_disabled (dub p)
  /\ btnLabel_hidden (dub (handleProgressEvent ev jobId p)) = btnLabel_hidden (dub p)
  /\ btnLoader_hidden (dub (handleProgressEvent ev jobId p)) = btnLoader_hidden (dub p)
  /\ progressSec_hidden (dub (handleProgressEvent ev jobId p)) = progressSec_hidden (dub p).
Proof.
  unfold handleProgressEvent.
  destruct (progress_ge0 _), (0 <=? indexOf STEP_ORDER (ev_step ev)),
    (truthy_opt _ && _), (String.eqb (ev_status ev) "complete"),
    (String.eqb (ev_status ev) "error"); done.
Qed.

Lemma dispatch_message_dlProgress_hidden k data p :
  dlProgress_hidden (dl (dispatch_message k data p)) = dlProgress_hidden (dl p).
Proof.
  unfold dispatch_message.
  destruct (sources (env p) !! k) as [src|]; [|done].
  destruct (es_closed src); [done|].
  unfold onmessage. destruct (es_flow src), data as [| |ev]; run_handler; try done.
  - pose proof (handleProgressEvent_rest ev (es_job src) p) as Hdl.
    destruct (terminal (ev_status ev)); simpl; by rewrite Hdl.
  - by destruct (progress_ge0 _ && progress_le100 _), (truthy_opt _),
      (String.eqb (ev_status ev) "complete"), (String.eqb (ev_status ev) "error").
Qed.

(** X10. No stream message shows or hides the download progress panel.
    So when the format is changed while a download runs, the panel is
    hidden and stays hidden: the messages that follow update it unseen, and
    the save button of the completed download is added to the hidden
    panel. *)
Theorem format_change_hides_running_download (k : nat) (src : EventSource)
    (msgs : list Payload) (ev : ProgressEvent) (p : Page) :
  sources (env p) !! k = Some src ->
  es_flow src = DownloadFlow ->
  es_closed src = false ->
  ev_status ev = "complete" ->
  Forall (fun m => match m with JsonEvent e => terminal (ev_status e) = false | _ => True end)
    msgs ->
  let p' := deliver k (msgs ++ [JsonEvent ev]) (resetDlUI p) in
  dlProgress_hidden (dl p') = true
  /\ dlSaveBtns (dl p') = [es_job src].
Proof.
  intros H Hf Hc Hst Hall p'. unfold p', deliver. rewrite fold_left_app. simpl.
  fold (deliver k msgs (resetDlUI p)).
  assert (forall q, dlProgress_hidden (dl (deliver k msgs q)) = dlProgress_hidden (dl q))
    as Hhid.
  { induction msgs as [|m rest IH] using rev_ind; intros q; [done|].
    unfold deliver. rewrite fold_left_app. simpl. fold (deliver k rest q).
    rewrite dispatch_message_dlProgress_hidden. apply IH.
    by apply Forall_app in Hall as [? _]. }
  assert (sources (env (deliver k msgs (resetDlUI p))) !! k = Some src) as Hsrc.
  { clear Hhid. revert Hall. generalize (resetDlUI p) (eq_refl : sources (env (resetDlUI p)) = sources (env p)).
    intros q Hq. rewrite <- Hq in H. clear Hq. revert q H.
    induction msgs as [|m rest IH]; intros q Hq Hall; simpl; [done|].
    apply Forall_cons in Hall as [Hm Hall]. apply IH; [|done].
    unfold dispatch_message, onmessage. rewrite Hq, Hc, Hf.
    destruct m as [| |e]; run_handler; try done.
    unfold terminal in Hm. apply orb_false_elim in Hm as [Hm1 Hm2].
    rewrite Hm1, Hm2.
    by destruct (progress_ge0 _ && progress_le100 _), (truthy_opt _). }
  destruct (dispatch_dl_complete k src ev _ Hsrc Hf Hc Hst) as (Hb & Hh & _).
  split; [|done]. rewrite Hh, Hhid. done.
Qed.

Lemma format_change_hides_running_download_witness :
  let src := {| es_url := "/api/progress/job-2"; es_flow := DownloadFlow;
                es_job := Some "job-2"; es_closed := false |} in
  let ev := {| ev_step := "download"; ev_progress := PNum 100;
               ev_message := Some "ready"; ev_status := "complete" |} in
  let msgs := [NotJson; JsonEvent (running "download" 50)] in
  let p' := deliver 0 (msgs ++ [JsonEvent ev]) (resetDlUI dl_job_page) in
  sources (env dl_job_page) !! 0%nat = Some src
  /\ es_flow src = DownloadFlow
  /\ es_closed src = false
  /\ ev_status ev = "complete"
  /\ Forall (fun m => match m with
                      | JsonEvent e => terminal (ev_status e) = false
                      | _ => True
                      end) msgs
  /\ dlProgress_hidden (dl p') = true
  /\ dlSaveBtns (dl p') = [es_job src].
Proof.
  intros src ev msgs p'.
  assert (H1 : sources (env dl_job_page) !! 0%nat = Some src) by reflexivity.
  assert (H2 : es_flow src = DownloadFlow) by reflexivity.
  assert (H3 : es_closed src = false) by reflexivity.
  assert (H4 : ev_status ev = "complete") by reflexivity.
  assert (H5 : Forall (fun m => match m with
                                | JsonEvent e => terminal (ev_status e) = false
                                | _ => True
                                end) msgs).
  { constructor; [exact I|]. constructor; [reflexivity|]. constructor. }
  exact (conj H1 (conj H2 (conj H3 (conj H4 (conj H5
    (format_change_hides_running_download 0 src msgs ev dl_job_page H1 H2 H3 H4 H5)))))).
Defined.

(** ** The saved name as a whole *)

Lemma all_safe_append (a b : string) :
  all_safe (a +:+ b) = all_safe a && all_safe b.
Proof.
  induction a as [|c a IH]; [done|].
  rewrite append_cons. simpl. by rewrite IH, andb_assoc.
Qed.

Lemma all_safe_sanitize (t : string) : all_safe (sanitize t) = true.
Proof.
  induction t as [|c t IH]; simpl; [done|].
  rewrite IH, andb_true_r. by destruct (unsafe_char c) eqn:E; [|rewrite E].
Qed.

(** X11. The name a download is saved under never holds a character of the
    unsafe class, extension included, and is never just an extension: it
    has a stem of at least one character before [.mp3] or [.mp4]. *)
Theorem saveName_always_safe (mediaType : string) (data : option VideoData) :
  all_safe (saveName mediaType data) = true
  /\ exists stem,
       stem <> ""
       /\ saveName mediaType data =
            stem +:+ (if String.eqb mediaType "audio" then ".mp3" else ".mp4").
Proof.
  unfold saveName.
  set (ext := if String.eqb mediaType "audio" then ".mp3" else ".mp4").
  assert (all_safe ext = true) as Hext by (unfold ext; by destruct (String.eqb _ _)).
  assert (forall t, truthy t = true -> sanitize t <> "") as Hne.
  { intros [|c t]; [done|]. simpl. done. }
  destruct data as [[[t|] ? ? ? ? ?]|]; simpl.
  - destruct (truthy t) eqn:Ht.
    + split; [by rewrite all_safe_append, all_safe_sanitize, Hext|].
      exists (sanitize t). split; [by apply Hne | done].
    + split; [by rewrite all_safe_append, Hext|]. by exists "download".
  - split; [by rewrite all_safe_append, Hext|]. by exists "download".
  - split; [by rewrite all_safe_append, Hext|]. by exists "download".
Qed.

(** ** The two translation tables *)

Arguments strings_of : simpl never.

Lemma assoc_is_Some {A : Type} (k : string) (l : list (string * A)) :
  is_Some (assoc k l) <-> k ∈ map fst l.
Proof.
  induction l as [|[k' v] rest IH]; simpl.
  - split; [by intros [? ?] | by intros ?%elem_of_nil].
  - destruct (String.eqb_spec k' k) as [->|Hne].
    + split; [intros _; left | by eexists].
    + rewrite IH. split; [by right|].
      intros [?|?]%elem_of_cons; [congruence | done].
Qed.

Lemma assoc_absent {A : Type} (k : string) (l : list (string * A)) :
  k ∉ map fst l -> assoc k l = None.
Proof.
  intros Hk. destruct (assoc k l) eqn:E; [|done].
  exfalso. apply Hk, assoc_is_Some. by rewrite E.
Qed.

(** On the keys it lists, [TRANSLATIONS] reads as the whole table does. *)
Lemma tr_agrees_with_whole_table (lang key : string) :
  is_Some (assoc key (default [] (assoc "en" TRANSLATIONS))) ->
  tr lang key = tr_all lang key.
Proof.
  intros Hk. apply assoc_is_Some in Hk.
  change (key ∈ ["toastNoUrl"; "toastComplete"; "toastDisconnect"; "fetchingInfo";
                 "dlDownloading"; "dlComplete"]) in Hk.
  unfold tr, tr_all, strings_of.
  destruct (inherited lang); [done|].
  destruct (String.eqb_spec "en" lang) as [<-|Hen];
    [|destruct (String.eqb_spec "ar" lang) as [<-|Har]].
  - repeat (apply elem_of_cons in Hk as [->|Hk]); try (vm_compute; reflexivity).
    by apply elem_of_nil in Hk.
  - repeat (apply elem_of_cons in Hk as [->|Hk]); try (vm_compute; reflexivity).
    by apply elem_of_nil in Hk.
  - assert (forall A (T : list (string * A)), map fst T = ["en"; "ar"] -> assoc lang T = None)
      as Hnone.
    { intros A T HT. apply assoc_absent. rewrite HT.
      intros [->|[->|?%elem_of_nil]%elem_of_cons]%elem_of_cons; done. }
    rewrite (Hnone _ TRANSLATIONS eq_refl), (Hnone _ TRANSLATIONS_all eq_refl).
    repeat (apply elem_of_cons in Hk as [->|Hk]); try (vm_compute; reflexivity).
    by apply elem_of_nil in Hk.
Qed.

(** Every language that has a table translates the same keys. *)
Lemma strings_of_keys (lang : string) :
  lang ∉ Object_prototype_keys ->
  map fst (strings_of lang) = map fst (strings_of "en").
Proof.
  intros Hn. unfold strings_of. rewrite (inherited_false _ Hn).
  change (inherited "en") with false. cbv iota.
  destruct (String.eqb_spec "en" lang) as [<-|Hen];
    [|destruct (String.eqb_spec "ar" lang) as [<-|Har]].
  - reflexivity.
  - vm_compute. reflexivity.
  - rewrite (assoc_absent lang TRANSLATIONS_all); [reflexivity|].
    change (map fst TRANSLATIONS_all) with ["en"; "ar"].
    intros [->|[->|?%elem_of_nil]%elem_of_cons]%elem_of_cons; done.
Qed.

(** ** Language *)

Lemma applyTranslations_prefs lang pp :
  localStorage (applyTranslations lang pp).2 = localStorage pp.2
  /\ html_dir (applyTranslations lang pp).2 = html_dir pp.2
  /\ html_lang (applyTranslations lang pp).2 = html_lang pp.2
  /\ html_data_theme (applyTranslations lang pp).2 = html_data_theme pp.2
  /\ env (applyTranslations lang pp).1 = env pp.1
  /\ dub (applyTranslations lang pp).1 = dub pp.1.
Proof.
  unfold applyTranslations. simpl.
  destruct (fetchInfoBtn_data_i18n pp.2) as [key|]; [|done].
  by destruct (assoc key (strings_of lang)).
Qed.

Lemma setUILang_effect lang pp :
  currentLang (env (setUILang lang pp).1) = lang
  /\ html_lang (setUILang lang pp).2 = Some lang
  /\ html_dir (setUILang lang pp).2 = Some (if String.eqb lang "ar" then "rtl" else "ltr")
  /\ localStorage (setUILang lang pp).2 = <["autodub-lang" := lang]> (localStorage pp.2)
  /\ html_data_theme (setUILang lang pp).2 = html_data_theme pp.2.
Proof.
  unfold setUILang.
  match goal with |- context [applyTranslations lang ?x] =>
    destruct (applyTranslations_prefs lang x) as (-> & -> & -> & -> & -> & _) end.
  done.
Qed.

Lemma reload_eq markup storage :
  reload markup storage =
    setUILang (or_else (storage !! "autodub-lang") "en")
      (upd_env (set_currentLang (or_else (storage !! "autodub-lang") "en")) markup.1,
       initTheme (set_localStorage storage markup.2)).
Proof. reflexivity. Qed.

(** X12. A click on the language switch moves to Arabic from English and
    to English from anything else; the root element's [lang] and [dir]
    follow ([rtl] for Arabic only), the choice is stored under
    [autodub-lang] and the stored theme is left alone.  A page loaded anew
    with that storage starts in the chosen language and direction and
    leaves the storage as it found it. *)
Theorem language_choice_persists (pp markup : Page * Prefs) :
  let lang := if String.eqb (currentLang (env pp.1)) "en" then "ar" else "en" in
  let dir := if String.eqb lang "ar" then "rtl" else "ltr" in
  let pp' := langToggle_click pp in
  let again := reload markup (localStorage pp'.2) in
  currentLang (env pp'.1) = lang
  /\ html_lang pp'.2 = Some lang
  /\ html_dir pp'.2 = Some dir
  /\ localStorage pp'.2 !! "autodub-lang" = Some lang
  /\ localStorage pp'.2 !! "autodub-theme" = localStorage pp.2 !! "autodub-theme"
  /\ currentLang (env again.1) = lang
  /\ html_lang again.2 = Some lang
  /\ html_dir again.2 = Some dir
  /\ localStorage again.2 = localStorage pp'.2.
Proof.
  intros lang dir pp' again. subst again.
  assert (pp' = setUILang lang pp) as Hpp by reflexivity. clearbody pp'.
  destruct (setUILang_effect lang pp) as (H1 & H2 & H3 & H4 & _).
  rewrite <- Hpp in H1, H2, H3, H4. clear Hpp.
  assert (localStorage pp'.2 !! "autodub-lang" = Some lang) as Hst
    by (by rewrite H4, lookup_insert_eq).
  assert (or_else (localStorage pp'.2 !! "autodub-lang") "en" = lang) as Hor.
  { rewrite Hst. unfold lang. by destruct (String.eqb _ _). }
  repeat split; try done.
  - by rewrite H4, lookup_insert_ne.
  - rewrite reload_eq, Hor.
    match goal with |- context [setUILang ?l ?x] =>
      by destruct (setUILang_effect l x) as (-> & _) end.
  - rewrite reload_eq, Hor.
    match goal with |- context [setUILang ?l ?x] =>
      by destruct (setUILang_effect l x) as (_ & -> & _) end.
  - rewrite reload_eq, Hor.
    match goal with |- context [setUILang ?l ?x] =>
      by destruct (setUILang_effect l x) as (_ & _ & -> & _) end.
  - rewrite reload_eq, Hor.
    match goal with |- context [setUILang ?l ?x] =>
      destruct (setUILang_effect l x) as (_ & _ & _ & -> & _) end.
    simpl. by apply insert_id.
Qed.

Lemma setUILang_i18n_els lang pp :
  i18n_els (setUILang lang pp).2 = map (translate_el (strings_of lang)) (i18n_els pp.2).
Proof. reflexivity. Qed.

(** X13. After [setUILang(lang)], for a [lang] that is not the name of an
    inherited property, every element carrying [data-i18n] whose key is
    translated at all shows the string of [lang] (of English when [lang]
    has no table): no element stays in the language shown before. *)
Theorem setUILang_translates_every_known_key (lang : string) (pp : Page * Prefs)
    (el : I18nEl) :
  lang ∉ Object_prototype_keys ->
  el ∈ i18n_els (setUILang lang pp).2 ->
  is_Some (assoc (data_i18n el) (strings_of "en")) ->
  assoc (data_i18n el) (strings_of lang) = Some (i18n_innerHTML el).
Proof.
  intros Hn Hel Hkey. rewrite setUILang_i18n_els in Hel.
  apply list_elem_of_In, in_map_iff in Hel as (el0 & <- & _).
  assert (data_i18n (translate_el (strings_of lang) el0) = data_i18n el0) as Hd.
  { unfold translate_el.
    destruct (assoc (data_i18n el0) (strings_of lang)); reflexivity. }
  rewrite Hd in Hkey |- *.
  apply assoc_is_Some in Hkey. rewrite <- (strings_of_keys lang Hn) in Hkey.
  apply assoc_is_Some in Hkey as [s Hs].
  unfold translate_el. by rewrite Hs.
Qed.

(** ** Theme *)

(** X14. A click on the theme switch moves to light from dark and to dark
    from anything else, sets [data-theme] and stores the choice under
    [autodub-theme], leaving the stored language alone; a page loaded anew
    with that storage gets the chosen theme.  From dark or light, two
    clicks give back the theme. *)
Theorem theme_choice_persists (f : Prefs) (markup : Page * Prefs) :
  let next := if bool_decide (html_data_theme f = Some "dark") then "light" else "dark" in
  let f' := themeToggle_click f in
  html_data_theme f' = Some next
  /\ localStorage f' !! "autodub-theme" = Some next
  /\ localStorage f' !! "autodub-lang" = localStorage f !! "autodub-lang"
  /\ html_data_theme (reload markup (localStorage f')).2 = Some next
  /\ (html_data_theme f = Some "dark" \/ html_data_theme f = Some "light" ->
      html_data_theme (themeToggle_click f') = html_data_theme f).
Proof.
  intros next f'.
  assert (html_data_theme f' = Some next) as H1.
  { unfold f', themeToggle_click, next. simpl.
    destruct (html_data_theme f) as [t|]; [|done].
    destruct (String.eqb_spec t "dark") as [->|Hne]; [done|].
    rewrite bool_decide_false; [done | congruence]. }
  assert (localStorage f' = <["autodub-theme" := next]> (localStorage f)) as H2.
  { unfold f', themeToggle_click, next. simpl.
    destruct (html_data_theme f) as [t|]; [|done].
    destruct (String.eqb_spec t "dark") as [->|Hne]; [done|].
    rewrite bool_decide_false; [done | congruence]. }
  clearbody f'.
  split; [done|]. split; [by rewrite H2, lookup_insert_eq|].
  split; [by rewrite H2, lookup_insert_ne|]. split.
  - rewrite reload_eq.
    match goal with |- context [setUILang ?l ?x] =>
      destruct (setUILang_effect l x) as (_ & _ & _ & _ & ->) end.
    simpl. rewrite H2, lookup_insert_eq. unfold next. by case_bool_decide.
  - intros Hth. unfold themeToggle_click at 1. simpl. rewrite H1. unfold next.
    destruct Hth as [Hth|Hth]; rewrite Hth; by case_bool_decide.
Qed.

Lemma theme_choice_persists_witness :
  let f := {| localStorage := ∅; html_dir := None; html_lang := None;
              html_data_theme := Some "light"; i18n_els := [];
              fetchInfoBtn_data_i18n := None |} in
  (html_data_theme f = Some "dark" \/ html_data_theme f = Some "light")
  /\ html_data_theme (themeToggle_click f) = Some "dark"
  /\ html_data_theme (themeToggle_click (themeToggle_click f)) = html_data_theme f.
Proof.
  intros f.
  assert (H : html_data_theme f = Some "dark" \/ html_data_theme f = Some "light")
    by (by right).
  destruct (theme_choice_persists f (loaded_page, f)) as (H1 & _ & _ & _ & H5).
  exact (conj H (conj H1 (H5 H))).
Defined.

Lemma setUILang_translates_every_known_key_witness :
  let f := {| localStorage := ∅; html_dir := None; html_lang := None;
              html_data_theme := None;
              i18n_els := [{| data_i18n := "startBtn"; i18n_innerHTML := "Start Dubbing" |}];
              fetchInfoBtn_data_i18n := None |} in
  let el := {| data_i18n := "startBtn"; i18n_innerHTML := "ابدأ الدبلجة" |} in
  ("ar" ∉ Object_prototype_keys)
  /\ el ∈ i18n_els (setUILang "ar" (loaded_page, f)).2
  /\ is_Some (assoc (data_i18n el) (strings_of "en"))
  /\ assoc (data_i18n el) (strings_of "ar") = Some (i18n_innerHTML el).
Proof.
  intros f el.
  assert (H0 : "ar" ∉ Object_prototype_keys).
  { intros H. apply list_elem_of_In in H. simpl in H. intuition discriminate. }
  assert (H1 : el ∈ i18n_els (setUILang "ar" (loaded_page, f)).2).
  { apply list_elem_of_In. by left. }
  assert (H2 : is_Some (assoc (data_i18n el) (strings_of "en"))).
  { eexists. vm_compute. reflexivity. }
  exact (conj H0 (conj H1 (conj H2
    (setUILang_translates_every_known_key "ar" (loaded_page, f) el H0 H1 H2)))).
Defined.

(** ** Mode tabs *)

Lemma lookup_map {A B : Type} (f : A -> B) (l : list A) (i : nat) :
  map f l !! i = f <$> l !! i.
Proof.
  revert i. induction l as [|x l IH]; intros [|i]; simpl; by try apply IH.
Qed.

(** X15. A click on a mode tab leaves that tab the only active one and
    shows exactly one of the dubbing form and the download panel: the panel
    for the tab whose mode is [download], the form for any other.  Going to
    the download tab also hides the progress and result sections; going
    back changes nothing else of the page, so they stay hidden.  No tab
    touches a request, an event source or the download panel's state. *)
Theorem mode_tab_click_effect (i : nat) (tab : Tab) (p : Page) (t : Tabs) :
  modeTabs t !! i = Some tab ->
  let pt' := modeTab_click i (p, t) in
  dubForm_hidden pt'.2 = negb (downloadPanel_hidden pt'.2)
  /\ downloadPanel_hidden pt'.2 = negb (bool_decide (data_mode tab = Some "download"))
  /\ (forall j, tab_active <$> modeTabs pt'.2 !! j
                = (fun _ => bool_decide (j = i)) <$> modeTabs t !! j)
  /\ env pt'.1 = env p
  /\ dl pt'.1 = dl p
  /\ (data_mode tab = Some "download" ->
      progressSec_hidden (dub pt'.1) = true /\ resultSec_hidden (dub pt'.1) = true)
  /\ (data_mode tab <> Some "download" -> pt'.1 = p).
Proof.
  intros Hi pt'. unfold pt', modeTab_click. simpl. rewrite Hi.
  assert (forall j,
    tab_active <$> alter (set_tab_active true) i (map (set_tab_active false) (modeTabs t)) !! j
    = (fun _ => bool_decide (j = i)) <$> modeTabs t !! j) as Hact.
  { intros j. clear Hi. destruct (decide (i = j)) as [<-|Hne].
    - rewrite list_lookup_alter_eq, lookup_map.
      destruct (modeTabs t !! i); simpl; [|done]. by rewrite bool_decide_true.
    - rewrite list_lookup_alter_ne, lookup_map by done.
      destruct (modeTabs t !! j); simpl; [|done].
      rewrite bool_decide_false; [done | congruence]. }
  case_bool_decide as Hm; simpl; repeat split; try done.
Qed.

Lemma mode_tab_click_effect_witness :
  let t := {| modeTabs := [{| data_mode := Some "dub"; tab_active := true |};
                           {| data_mode := Some "download"; tab_active := false |}];
              dubForm_hidden := false; downloadPanel_hidden := true |} in
  let there := modeTab_click 1 (dub_job_page, t) in
  let back := modeTab_click 0 there in
  modeTabs t !! 1%nat = Some {| data_mode := Some "download"; tab_active := false |}
  /\ progressSec_hidden (dub there.1) = true
  /\ downloadPanel_hidden there.2 = false
  /\ dubForm_hidden back.2 = false
  /\ progressSec_hidden (dub back.1) = true
  /\ sources (env back.1) = sources (env dub_job_page).
Proof.
  intros t there back.
  assert (H : modeTabs t !! 1%nat = Some {| data_mode := Some "download"; tab_active := false |})
    by reflexivity.
  destruct (mode_tab_click_effect 1 _ dub_job_page t H) as (_ & H2 & _ & _ & _ & H6 & _).
  refine (conj H (conj (proj1 (H6 eq_refl)) (conj H2 _))).
  repeat split.
Defined.

(** ** Video information and formats *)

Lemma applyTranslations_dl lang pp :
  videoData (dl (applyTranslations lang pp).1) = videoData (dl pp.1)
  /\ dlMediaType (dl (applyTranslations lang pp).1) = dlMediaType (dl pp.1)
  /\ fetchInfoBtn_disabled (dl (applyTranslations lang pp).1) = fetchInfoBtn_disabled (dl pp.1)
  /\ dlStartBtn_disabled (dl (applyTranslations lang pp).1) = dlStartBtn_disabled (dl pp.1)
  /\ dlBtnLabel_hidden (dl (applyTranslations lang pp).1) = dlBtnLabel_hidden (dl pp.1)
  /\ dlBtnLoader_hidden (dl (applyTranslations lang pp).1) = dlBtnLoader_hidden (dl pp.1)
  /\ dlProgress_hidden (dl (applyTranslations lang pp).1) = dlProgress_hidden (dl pp.1)
  /\ dlSaveBtns (dl (applyTranslations lang pp).1) = dlSaveBtns (dl pp.1).
Proof.
  unfold applyTranslations. simpl.
  destruct (fetchInfoBtn_data_i18n pp.2) as [key|]; [|done].
  by destruct (assoc key (strings_of lang)).
Qed.

Lemma populateFormats_frame pq :
  env (populateFormats pq).1 = env pq.1
  /\ dub (populateFormats pq).1 = dub pq.1
  /\ videoData (dl (populateFormats pq).1) = videoData (dl pq.1)
  /\ dlMediaType (dl (populateFormats pq).1) = dlMediaType (dl pq.1)
  /\ fetchInfoBtn_disabled (dl (populateFormats pq).1) = fetchInfoBtn_disabled (dl pq.1)
  /\ dlStartBtn_disabled (dl (populateFormats pq).1) = dlStartBtn_disabled (dl pq.1)
  /\ dlBtnLabel_hidden (dl (populateFormats pq).1) = dlBtnLabel_hidden (dl pq.1)
  /\ dlBtnLoader_hidden (dl (populateFormats pq).1) = dlBtnLoader_hidden (dl pq.1).
Proof.
  unfold populateFormats. destruct (videoData (dl pq.1)) eqn:E; simpl; by rewrite ?E.
Qed.

(** X16. However the fetch-info request settles, the button is enabled
    again, nothing is requested, no event source is touched and the two job
    controls keep their state.  A response in 200..299 with an object as
    body replaces the video data, shows the card with the formatted
    duration (a whole number of seconds, not negative and within the safe
    integers) and the format section, and resets the download display (no
    save button, progress hidden) without a toast.  A response in 200..299
    whose body is [null] drops the video data held before; every other
    failure keeps it.  Every failure shows one error toast and leaves the
    card, the formats and the save buttons as they were. *)
Theorem fetch_info_outcome (r : InfoResult) (p : Page) (f : Prefs) (q : DlPanel) :
  match info_outcome r with
  | InfoShown v => 0 <= duration v <= MAX_SAFE_INTEGER
  | _ => True
  end ->
  let s' := fetchInfo_resume r (p, f, q) in
  fetchInfoBtn_disabled (dl s'.1.1) = false
  /\ requests (env s'.1.1) = requests (env p)
  /\ sources (env s'.1.1) = sources (env p)
  /\ dub s'.1.1 = dub p
  /\ dlStartBtn_disabled (dl s'.1.1) = dlStartBtn_disabled (dl p)
  /\ submitBtn_disabled (dub s'.1.1) = submitBtn_disabled (dub p)
  /\ match info_outcome r with
     | InfoShown v =>
         videoData (dl s'.1.1) = Some v
         /\ toasts (env s'.1.1) = toasts (env p)
         /\ videoInfoCard_hidden s'.2 = false
         /\ formatSection_hidden s'.2 = false
         /\ viTitle_text s'.2 = default "" (title v)
         /\ viDuration_text s'.2 = fmtDuration (duration v)
         /\ dlSaveBtns (dl s'.1.1) = []
         /\ dlProgress_hidden (dl s'.1.1) = true
     | InfoLost =>
         videoData (dl s'.1.1) = None
         /\ (exists msg, toasts (env s'.1.1) =
               (toasts (env p) ++ [{| toast_text := msg; toast_success := false |}])%list)
         /\ s'.2 = q
         /\ dlSaveBtns (dl s'.1.1) = dlSaveBtns (dl p)
     | InfoKept =>
         videoData (dl s'.1.1) = videoData (dl p)
         /\ (exists msg, toasts (env s'.1.1) =
               (toasts (env p) ++ [{| toast_text := msg; toast_success := false |}])%list)
         /\ s'.2 = q
         /\ dlSaveBtns (dl s'.1.1) = dlSaveBtns (dl p)
     end.
Proof.
  intros _ s'. unfold s', fetchInfo_resume. cbn [fst snd].
  match goal with |- context [applyTranslations ?l ?x] =>
    destruct (applyTranslations_dl l x) as (Hv & _ & Hf & Hs & _ & _ & Hh & Hb);
    destruct (applyTranslations_prefs l x) as (_ & _ & _ & _ & He & Hd) end.
  rewrite Hv, Hf, Hs, Hh, Hb, He, Hd. clear Hv Hf Hs Hh Hb He Hd.
  unfold fetchInfo_try, info_outcome.
  destruct r as [|status body]; cbn [fst snd].
  { simpl. repeat split; eauto. }
  destruct ((200 <=? status) && (status <=? 299)); cbn [negb fst snd].
  - destruct body as [| |detail v]; cbn [fst snd].
    + simpl. repeat split; eauto.
    + simpl. repeat split; eauto.
    + unfold populateFormats. cbn [fst snd]. simpl. repeat split; done.
  - destruct body as [| |detail v]; simpl; repeat split; eauto.
Qed.

Lemma fetch_info_outcome_witness :
  let v := {| title := Some "A talk"; channel := "Someone"; thumbnail := "";
              duration := 3725;
              video_formats := [{| format_id := "18"; quality := "360p"; ext := "mp4";
                                   filesize_mb := Some 12 |}];
              audio_formats := [] |} in
  let r := InfoFulfilled 200 (InfoObject NoDetail v) in
  let s' := fetchInfo_resume r
              (fetchInfo_click "https://youtu.be/abc" loaded_page,
               doc_prefs loaded_doc, doc_panel loaded_doc) in
  match info_outcome r with
  | InfoShown v => 0 <= duration v <= MAX_SAFE_INTEGER
  | _ => True
  end
  /\ fetchInfoBtn_disabled (dl s'.1.1) = false
  /\ videoData (dl s'.1.1) = Some v
  /\ viDuration_text s'.2 = "1:02:05"
  /\ map opt_value (formatSelect_options s'.2) = [Some "18"].
Proof.
  intros v r s'.
  assert (H : match info_outcome r with
              | InfoShown v => 0 <= duration v <= MAX_SAFE_INTEGER
              | _ => True
              end).
  { change (info_outcome r) with (InfoShown v). cbv beta iota.
    unfold v, MAX_SAFE_INTEGER. cbn [duration]. lia. }
  assert (Hopts : map opt_value (formatSelect_options s'.2) = [Some "18"])
    by (vm_compute; reflexivity).
  destruct (fetch_info_outcome r (fetchInfo_click "https://youtu.be/abc" loaded_page)
              (doc_prefs loaded_doc) (doc_panel loaded_doc) H)
    as (Hbtn & _ & _ & _ & _ & _ & Hshown).
  change (info_outcome r) with (InfoShown v) in Hshown. cbv beta iota in Hshown.
  destruct Hshown as (Hv & _ & _ & _ & _ & Hd & _).
  refine (conj H (conj Hbtn (conj Hv (conj _ Hopts)))).
  transitivity (fmtDuration (duration v)); [exact Hd | vm_compute; reflexivity].
Defined.

(** X17. A click on a button of the Video / Audio switch, once video data
    is there: the media type becomes the button's, that button alone is
    active, the select offers one option per format of that type, in the
    order received and with the format's id as value, or a single
    placeholder without value when there is none; the download display is
    reset (no save button, progress hidden).  An open event source and the
    lock of the download button are left as they are. *)
Theorem media_type_click_lists_formats (i : nat) (btn : TypeBtn) (v : VideoData)
    (p : Page) (q : DlPanel) :
  dlTypeBtns q !! i = Some btn ->
  videoData (dl p) = Some v ->
  let pq' := dlTypeBtn_click i (p, q) in
  let audio := String.eqb (data_type btn) "audio" in
  let formats := if audio then audio_formats v else video_formats v in
  dlMediaType (dl pq'.1) = data_type btn
  /\ (forall j, type_active <$> dlTypeBtns pq'.2 !! j
                = (fun _ => bool_decide (j = i)) <$> dlTypeBtns q !! j)
  /\ (formats <> [] ->
      map opt_value (formatSelect_options pq'.2) = map (fun f => Some (format_id f)) formats)
  /\ (formats = [] ->
      formatSelect_options pq'.2 =
        [{| opt_value := None;
            opt_text := if audio then "No audio formats" else "No video formats" |}])
  /\ dlSaveBtns (dl pq'.1) = []
  /\ dlProgress_hidden (dl pq'.1) = true
  /\ env pq'.1 = env p
  /\ dlStartBtn_disabled (dl pq'.1) = dlStartBtn_disabled (dl p).
Proof.
  intros Hi Hv pq' audio formats. unfold pq', dlTypeBtn_click. cbn [fst snd]. rewrite Hi.
  unfold populateFormats. cbn [fst snd]. simpl. rewrite Hv. cbn [fst snd]. simpl.
  fold audio. fold formats.
  split; [done|]. split.
  { intros j. destruct (decide (i = j)) as [<-|Hne].
    - rewrite list_lookup_alter_eq, lookup_map.
      destruct (dlTypeBtns q !! i); simpl; [|done]. by rewrite bool_decide_true.
    - rewrite list_lookup_alter_ne, lookup_map by done.
      destruct (dlTypeBtns q !! j); simpl; [|done].
      rewrite bool_decide_false; [done | congruence]. }
  split; [|split; [|done]].
  - intros Hne. destruct formats as [|f0 rest]; [done|].
    rewrite map_map. by apply map_ext.
  - by intros ->.
Qed.

Lemma media_type_click_lists_formats_witness :
  let v := {| title := Some "t"; channel := "c"; thumbnail := ""; duration := 75;
              video_formats := [{| format_id := "22"; quality := "720p"; ext := "mp4";
                                   filesize_mb := Some 12 |}];
              audio_formats := [] |} in
  let p := upd_dl (set_videoData (Some v)) dl_job_page in
  let q := {| viThumb_src := ""; viTitle_text := "t"; viChannel_text := "c";
              viDuration_text := "1:15"; videoInfoCard_hidden := false;
              formatSection_hidden := false; formatSelect_options := [];
              dlTypeBtns := [{| data_type := "video"; type_active := true |};
                             {| data_type := "audio"; type_active := false |}] |} in
  let pq' := dlTypeBtn_click 1 (p, q) in
  dlTypeBtns q !! 1%nat = Some {| data_type := "audio"; type_active := false |}
  /\ videoData (dl p) = Some v
  /\ dlMediaType (dl pq'.1) = "audio"
  /\ formatSelect_options pq'.2 = [{| opt_value := None; opt_text := "No audio formats" |}]
  /\ dlStartBtn_disabled (dl pq'.1) = true.
Proof.
  intros v p q pq'.
  assert (H1 : dlTypeBtns q !! 1%nat = Some {| data_type := "audio"; type_active := false |})
    by reflexivity.
  assert (H2 : videoData (dl p) = Some v) by reflexivity.
  destruct (media_type_click_lists_formats 1 _ v p q H1 H2)
    as (Ha & _ & _ & Hb & _ & _ & _ & Hc).
  exact (conj H1 (conj H2 (conj Ha (conj (Hb eq_refl) Hc)))).
Defined.

(** X18. With video data that has no format of the selected type, the
    select holds the placeholder alone; having no [value] attribute, it
    reports its text as its value, which is not empty: a click on the
    download button then passes the guard and posts that text as
    [format_id]. *)
Theorem placeholder_format_is_posted (v : VideoData) (p : Page) (q : DlPanel)
    (url : string) :
  videoData (dl p) = Some v ->
  (if String.eqb (dlMediaType (dl p)) "audio" then audio_formats v else video_formats v)
    = [] ->
  truthy (trim url) = true ->
  let pq' := populateFormats (p, q) in
  let formatId := formatSelect_value 0 pq'.2 in
  formatId =
    (if String.eqb (dlMediaType (dl p)) "audio" then "No audio formats"
     else "No video formats")
  /\ requests (env (dlStart_click url formatId pq'.1)) =
       (requests (env p) ++
          [PostDownloadStart (trim url) formatId (dlMediaType (dl p))])%list
  /\ dlStartBtn_disabled (dl (dlStart_click url formatId pq'.1)) = true.
Proof.
  intros Hv Hnone Hurl pq' formatId.
  assert (formatId = if String.eqb (dlMediaType (dl p)) "audio" then "No audio formats"
                     else "No video formats") as Hid.
  { unfold formatId, pq', populateFormats, formatSelect_value. cbn [fst snd].
    rewrite Hv. cbn [fst snd]. rewrite Hnone. reflexivity. }
  split; [done|].
  assert (truthy formatId = true) as Hf
    by (rewrite Hid; by destruct (String.eqb _ _)).
  unfold dlStart_click. rewrite Hurl, Hf. simpl.
  unfold pq', populateFormats. cbn [fst snd]. rewrite Hv. done.
Qed.

Lemma placeholder_format_is_posted_witness :
  let v := {| title := Some "t"; channel := "c"; thumbnail := ""; duration := 75;
              video_formats := []; audio_formats := [] |} in
  let p := upd_dl (set_videoData (Some v)) loaded_page in
  let q := {| viThumb_src := ""; viTitle_text := ""; viChannel_text := "";
              viDuration_text := ""; videoInfoCard_hidden := true;
              formatSection_hidden := true; formatSelect_options := [];
              dlTypeBtns := [] |} in
  let pq' := populateFormats (p, q) in
  videoData (dl p) = Some v
  /\ (if String.eqb (dlMediaType (dl p)) "audio" then audio_formats v else video_formats v)
       = []
  /\ truthy (trim "https://youtu.be/abc") = true
  /\ requests (env (dlStart_click "https://youtu.be/abc" (formatSelect_value 0 pq'.2) pq'.1))
     = [PostDownloadStart "https://youtu.be/abc" "No video formats" "video"].
Proof.
  intros v p q pq'.
  assert (H1 : videoData (dl p) = Some v) by reflexivity.
  assert (H2 : (if String.eqb (dlMediaType (dl p)) "audio"
                then audio_formats v else video_formats v) = []) by reflexivity.
  assert (H3 : truthy (trim "https://youtu.be/abc") = true) by reflexivity.
  destruct (placeholder_format_is_posted v p q "https://youtu.be/abc" H1 H2 H3)
    as (_ & Hr & _).
  exact (conj H1 (conj H2 (conj H3 Hr))).
Defined.

(** ** Saving the file *)

(** X19. A click on a save button disables it while the artifact of its
    job is fetched, and enables it again however the fetch ends.  When the
    file has come, one file is handed over under the name [saveName] gives
    for the media type and video data of that moment, the button gets its
    content back and no toast is shown.  When the fetch fails in any way,
    no file is handed over and the toast [Failed to save file] is shown;
    the button is enabled but keeps the waiting text. *)
Theorem save_click_outcome (job_id : option string) (r : SaveResult) (s : Saving)
    (p : Page) :
  let clicked := saveBtn_onclick job_id s in
  let ps' := saveBtn_resume clicked.2 r (p, clicked.1) in
  save_disabled (saveBtn clicked.1) = true
  /\ save_disabled (saveBtn ps'.2) = false
  /\ fetched ps'.2 = (fetched s ++ ["/api/download/" +:+ template job_id])%list
  /\ dub ps'.1 = dub p /\ dl ps'.1 = dl p
  /\ sources (env ps'.1) = sources (env p)
  /\ match r with
     | SaveBlob =>
         saved ps'.2 = (saved s ++ [saveName (dlMediaType (dl p)) (videoData (dl p))])%list
         /\ save_content (saveBtn ps'.2) = save_content (saveBtn s)
         /\ ps'.1 = p
     | _ =>
         saved ps'.2 = saved s
         /\ save_content (saveBtn ps'.2) = "⌛ Getting file..."
         /\ toasts (env ps'.1) =
              (toasts (env p) ++ [{| toast_text := Str "Failed to save file";
                                     toast_success := false |}])%list
         /\ length (logged ps'.2) = S (length (logged s))
     end.
Proof.
  intros clicked ps'. unfold ps', clicked, saveBtn_resume, saveBtn_onclick.
  destruct r; simpl; repeat split; try done; rewrite length_app; simpl; lia.
Qed.

(** ** Target languages *)

(** X20. When the list of languages has come, with no code that is the
    name of an inherited property, the language select holds one option per
    entry, in the order the sort gives: its value is the entry's code, its
    text is a name followed by the code in brackets, the name being the
    built-in one for the code, else the name the server sent, else the
    code; [selected] is set on the options whose code is [es]; nothing is
    logged and no toast is shown.  When the request fails, the body is not
    JSON or holds no list, the select holds the single option
    [Spanish (es)], one entry is logged and one error toast is shown. *)
Theorem loadLanguages_outcome (sort_by_label : list LangOption -> list LangOption)
    (r : LanguagesResult) (p : Page) (options : list LangOption) :
  (forall l, Permutation (sort_by_label l) l) ->
  match r with
  | LangList entries => Forall (fun l => lang_code l ∉ Object_prototype_keys) entries
  | _ => True
  end ->
  let ps' := loadLanguages sort_by_label r (p, options) in
  dub ps'.1 = dub p /\ dl ps'.1 = dl p /\ sources (env ps'.1) = sources (env p)
  /\ match r with
     | LangList entries =>
         ps'.1 = p
         /\ Permutation ps'.2 (map option_of_entry entries)
         /\ forall o, o ∈ ps'.2 ->
              lo_selected o = String.eqb (lo_value o) "es"
              /\ exists l, l ∈ entries /\ lo_value o = lang_code l
                   /\ lo_text o =
                        or_else (assoc (lang_code l) nameMap)
                          (or_else (lang_name l) (lang_code l))
                        +:+ " (" +:+ lang_code l +:+ ")"
     | _ =>
         ps'.2 = [{| lo_value := "es"; lo_text := "Spanish (es)"; lo_selected := false |}]
         /\ (exists msg, toasts (env ps'.1) =
               (toasts (env p) ++ [{| toast_text := msg; toast_success := false |}])%list)
         /\ length (console (env ps'.1)) = S (length (console (env p)))
     end.
Proof.
  intros Hperm _ ps'. unfold ps', loadLanguages.
  destruct r as [| | | |entries]; simpl;
    try (repeat split; try done; [by eexists | rewrite length_app; simpl; lia]).
  repeat split; try done.
  - rewrite (Hperm (map option_of_entry entries)) in H.
    apply list_elem_of_In, in_map_iff in H as (l & <- & _). done.
  - rewrite (Hperm (map option_of_entry entries)) in H.
    apply list_elem_of_In, in_map_iff in H as (l & <- & Hin).
    exists l. split; [by apply list_elem_of_In | done].
Qed.

Lemma loadLanguages_outcome_witness :
  let entries := [{| lang_code := "es"; lang_name := Some "Castellano" |};
                  {| lang_code := "tlh"; lang_name := Some "Klingon" |};
                  {| lang_code := "xx"; lang_name := None |}] in
  let ps' := loadLanguages (fun l => l) (LangList entries) (loaded_page, []) in
  (forall l : list LangOption, Permutation ((fun l => l) l) l)
  /\ Forall (fun l => lang_code l ∉ Object_prototype_keys) entries
  /\ ps'.2 = [{| lo_value := "es"; lo_text := "Spanish (es)"; lo_selected := true |};
              {| lo_value := "tlh"; lo_text := "Klingon (tlh)"; lo_selected := false |};
              {| lo_value := "xx"; lo_text := "xx (xx)"; lo_selected := false |}]
  /\ Permutation ps'.2 (map option_of_entry entries).
Proof.
  intros entries ps'.
  assert (H : forall l : list LangOption, Permutation ((fun l => l) l) l) by done.
  assert (H' : Forall (fun l => lang_code l ∉ Object_prototype_keys) entries).
  { repeat constructor; intros Hin; apply list_elem_of_In in Hin; simpl in Hin;
      intuition discriminate. }
  destruct (loadLanguages_outcome (fun l => l) (LangList entries) loaded_page [] H H')
    as (_ & _ & _ & _ & Hp & _).
  exact (conj H (conj H' (conj eq_refl Hp))).
Defined.

(** ** One job per flow *)

Lemma open_count_snoc flow l src :
  open_count flow (l ++ [src]) = (open_count flow l + if is_open flow src then 1 else 0)%nat.
Proof.
  unfold open_count. rewrite List.filter_app, length_app. simpl.
  by destruct (is_open flow src).
Qed.

Lemma is_open_closed flow src : is_open flow (closed_source src) = false.
Proof. done. Qed.

Lemma open_count_close flow (l : list EventSource) : forall k src,
  l !! k = Some src ->
  (open_count flow l =
     open_count flow (alter closed_source k l) + if is_open flow src then 1 else 0)%nat.
Proof.
  unfold open_count.
  induction l as [|s l IH]; intros [|k] src Hk; simpl in *; try done.
  - injection Hk as ->. rewrite ?is_open_closed.
    destruct (is_open flow src); simpl; lia.
  - specialize (IH k src Hk). unfold alter in IH. destruct (is_open flow s); simpl; lia.
Qed.

(** What a stream message can do to the jobs: nothing, or close the open
    source it came for and enable the control of its flow. *)
Lemma dispatch_message_jobs k data p :
  let p' := dispatch_message k data p in
  (job_state p' = job_state p /\ dlSaveBtns (dl p') = dlSaveBtns (dl p))
  \/ exists src,
       sources (env p) !! k = Some src /\ es_closed src = false
       /\ sources (env p') = alter closed_source k (sources (env p))
       /\ match es_flow src with
          | DubFlow =>
              submitBtn_disabled (dub p') = false
              /\ dlStartBtn_disabled (dl p') = dlStartBtn_disabled (dl p)
              /\ dlSaveBtns (dl p') = dlSaveBtns (dl p)
          | DownloadFlow =>
              dlStartBtn_disabled (dl p') = false
              /\ submitBtn_disabled (dub p') = submitBtn_disabled (dub p)
              /\ (length (dlSaveBtns (dl p')) <= 1
                  \/ dlSaveBtns (dl p') = dlSaveBtns (dl p))%nat
          end.
Proof.
  intros p'. unfold p', dispatch_message.
  destruct (sources (env p) !! k) as [src|] eqn:Hk; [|by left].
  destruct (es_closed src) eqn:Hc; [by left|].
  unfold onmessage. destruct (es_flow src) eqn:Hf, data as [| |ev]; run_handler;
    try (by left).
  - pose proof (handleProgressEvent_env ev (es_job src) p) as (Hs & _).
    pose proof (handleProgressEvent_rest ev (es_job src) p) as Hdl.
    pose proof (handleProgressEvent_lock ev (es_job src) p) as (Hl & _).
    destruct (terminal (ev_status ev)); simpl.
    + right. exists src. rewrite Hf, Hs, Hdl. done.
    + left. unfold job_state. by rewrite Hs, Hdl, Hl.
  - destruct (String.eqb (ev_status ev) "complete") eqn:Ec;
      [|destruct (String.eqb (ev_status ev) "error") eqn:Ee].
    + right. exists src. rewrite Hf.
      destruct (progress_ge0 _ && progress_le100 _), (truthy_opt _); simpl;
        repeat split; try done; left; lia.
    + right. exists src. rewrite Hf.
      destruct (progress_ge0 _ && progress_le100 _), (truthy_opt _); simpl;
        repeat split; try done; by right.
    + left. by destruct (progress_ge0 _ && progress_le100 _), (truthy_opt _).
Qed.

Lemma dispatch_error_jobs k p :
  let p' := dispatch_error k p in
  (job_state p' = job_state p /\ dlSaveBtns (dl p') = dlSaveBtns (dl p))
  \/ exists src,
       sources (env p) !! k = Some src /\ es_closed src = false
       /\ sources (env p') = alter closed_source k (sources (env p))
       /\ match es_flow src with
          | DubFlow =>
              submitBtn_disabled (dub p') = false
              /\ dlStartBtn_disabled (dl p') = dlStartBtn_disabled (dl p)
              /\ dlSaveBtns (dl p') = dlSaveBtns (dl p)
          | DownloadFlow =>
              dlStartBtn_disabled (dl p') = false
              /\ submitBtn_disabled (dub p') = submitBtn_disabled (dub p)
              /\ (length (dlSaveBtns (dl p')) <= 1
                  \/ dlSaveBtns (dl p') = dlSaveBtns (dl p))%nat
          end.
Proof.
  intros p'. unfold p', dispatch_error.
  destruct (sources (env p) !! k) as [src|] eqn:Hk; [|by left].
  destruct (es_closed src) eqn:Hc; [by left|].
  right. exists src. unfold onerror.
  destruct (es_flow src); run_handler; repeat split; try done. by right.
Qed.

(** Closing the open source of a job in flight ends that job and leaves
    the other flow's jobs alone. *)
Lemma closing_ends_the_job (d : Doc) (p' : Page) k src :
  one_job_per_flow d ->
  sources (env (doc_page d)) !! k = Some src -> es_closed src = false ->
  sources (env p') = alter closed_source k (sources (env (doc_page d))) ->
  match es_flow src with
  | DubFlow =>
      submitBtn_disabled (dub p') = false
      /\ dlStartBtn_disabled (dl p') = dlStartBtn_disabled (dl (doc_page d))
      /\ dlSaveBtns (dl p') = dlSaveBtns (dl (doc_page d))
  | DownloadFlow =>
      dlStartBtn_disabled (dl p') = false
      /\ submitBtn_disabled (dub p') = submitBtn_disabled (dub (doc_page d))
      /\ (length (dlSaveBtns (dl p')) <= 1
          \/ dlSaveBtns (dl p') = dlSaveBtns (dl (doc_page d)))%nat
  end ->
  one_job_per_flow (with_page p' d).
Proof.
  intros (Hd & Hl & Hb) Hk Hc Hs Hflow.
  unfold one_job_per_flow, in_flight in *. simpl.
  pose proof (open_count_close DubFlow _ k src Hk) as Hcd.
  pose proof (open_count_close DownloadFlow _ k src Hk) as Hcl.
  rewrite Hs. unfold is_open in Hcd, Hcl. rewrite Hc in Hcd, Hcl. simpl in Hcd, Hcl.
  destruct (es_flow src).
  - destruct Hflow as (-> & -> & ->).
    destruct (submitBtn_disabled (dub (doc_page d))),
      (dlStartBtn_disabled (dl (doc_page d))); repeat split; lia.
  - destruct Hflow as (-> & -> & Hbtn).
    assert (length (dlSaveBtns (dl p')) <= 1)%nat by (destruct Hbtn as [?| ->]; lia).
    destruct (submitBtn_disabled (dub (doc_page d))),
      (dlStartBtn_disabled (dl (doc_page d))); repeat split; lia.
Qed.

(** A handler that leaves sources and controls alone keeps the jobs. *)
Lemma same_jobs (d d' : Doc) :
  one_job_per_flow d ->
  job_state (doc_page d') = job_state (doc_page d) ->
  awaiting_dub d' = awaiting_dub d -> awaiting_dl d' = awaiting_dl d ->
  (length (dlSaveBtns (dl (doc_page d'))) <= 1)%nat ->
  one_job_per_flow d'.
Proof.
  intros (Hd & Hl & Hb) Hj Ha1 Ha2 Hb'. unfold job_state in Hj.
  injection Hj as Hs H1 H2.
  unfold one_job_per_flow, in_flight. by rewrite Hs, H1, H2, Ha1, Ha2.
Qed.

Lemma job_request_cases (r : FetchResult) (p : Page) :
  (let p' := fst (form_submit_resume r p) in
   dl p' = dl p
   /\ match accepted r with
      | Some job =>
          sources (env p') =
            (sources (env p) ++
               [{| es_url := "/api/progress/" +:+ template job; es_flow := DubFlow;
                   es_job := job; es_closed := false |}])%list
          /\ dub p' = dub p
      | None => sources (env p') = sources (env p) /\ submitBtn_disabled (dub p') = false
      end)
  /\ (let p' := fst (dlStart_resume r p) in
      dub p' = dub p
      /\ match accepted r with
         | Some job =>
             sources (env p') =
               (sources (env p) ++
                  [{| es_url := "/api/progress/" +:+ template job; es_flow := DownloadFlow;
                      es_job := job; es_closed := false |}])%list
             /\ dl p' = dl p
         | None =>
             sources (env p') = sources (env p)
             /\ dlStartBtn_disabled (dl p') = false
             /\ dlSaveBtns (dl p') = dlSaveBtns (dl p)
         end).
Proof.
  unfold form_submit_resume, dlStart_resume, accepted, awaited, error_detail,
    json_job_id, connectSSE, try_catch, exec, throw, mbind, M_bind, mret, M_ret.
  destruct r as [|[status body]]; simpl; [done|].
  destruct (res_ok _); simpl; destruct body as [| |detail job]; simpl; done.
Qed.

Lemma fetchInfo_resume_jobs r (s : Page * Prefs * DlPanel) :
  job_state (fetchInfo_resume r s).1.1 = job_state s.1.1
  /\ (dlSaveBtns (dl (fetchInfo_resume r s).1.1) = []
      \/ dlSaveBtns (dl (fetchInfo_resume r s).1.1) = dlSaveBtns (dl s.1.1)).
Proof.
  unfold job_state, fetchInfo_resume. cbn [fst snd].
  match goal with |- context [applyTranslations ?l ?x] =>
    destruct (applyTranslations_dl l x) as (_ & _ & _ & Hs & _ & _ & _ & Hbtn);
    destruct (applyTranslations_prefs l x) as (_ & _ & _ & _ & He & Hdub) end.
  rewrite Hs, He, Hdub, Hbtn. clear Hs He Hdub Hbtn.
  unfold fetchInfo_try. destruct r as [|status [| |detail v]]; simpl;
    try (split; [done | by right]);
    destruct ((200 <=? status) && (status <=? 299)); simpl;
    try (split; [done | by right]).
  unfold populateFormats. simpl. split; [done | by left].
Qed.

Lemma dlTypeBtn_click_jobs i (pq : Page * DlPanel) :
  job_state (dlTypeBtn_click i pq).1 = job_state pq.1
  /\ (dlSaveBtns (dl (dlTypeBtn_click i pq).1) = []
      \/ dlSaveBtns (dl (dlTypeBtn_click i pq).1) = dlSaveBtns (dl pq.1)).
Proof.
  unfold dlTypeBtn_click. destruct (dlTypeBtns pq.2 !! i); [|split; [done | by right]].
  unfold populateFormats. cbn [fst snd]. simpl.
  destruct (videoData (dl pq.1)); simpl; (split; [done|]); [by left | by right].
Qed.

Lemma modeTab_click_jobs i (pt : Page * Tabs) :
  job_state (modeTab_click i pt).1 = job_state pt.1
  /\ dlSaveBtns (dl (modeTab_click i pt).1) = dlSaveBtns (dl pt.1).
Proof.
  unfold modeTab_click. destruct (modeTabs pt.2 !! i); [|done]. by case_bool_decide.
Qed.

Lemma langToggle_click_jobs (pf : Page * Prefs) :
  job_state (langToggle_click pf).1 = job_state pf.1
  /\ dlSaveBtns (dl (langToggle_click pf).1) = dlSaveBtns (dl pf.1).
Proof.
  unfold langToggle_click, setUILang, job_state.
  match goal with |- context [applyTranslations ?l ?x] =>
    destruct (applyTranslations_dl l x) as (_ & _ & _ & Hs & _ & _ & _ & Hbtn);
    destruct (applyTranslations_prefs l x) as (_ & _ & _ & _ & He & Hdub) end.
  by rewrite Hs, He, Hdub, Hbtn.
Qed.

Lemma perform_keeps_one_job (a : Action) (d : Doc) :
  one_job_per_flow d -> one_job_per_flow (perform a d).
Proof.
  intros Hinv. pose proof Hinv as (Hd & Hl & Hb).
  destruct a as [url lang gender sub|r|url|r|i| |url sel|r|k data|k|i| |];
    cbn [perform].
  - (* Submit *)
    destruct (submitBtn_disabled (dub (doc_page d))) eqn:Hlock; [done|].
    unfold one_job_per_flow, in_flight in *. simpl. unfold form_submit.
    destruct (truthy (trim url)); simpl.
    + repeat split; simpl; lia.
    + by rewrite Hlock.
  - (* DubRequestSettled *)
    destruct (awaiting_dub d) as [|n] eqn:Hw; [done|].
    destruct (job_request_cases r (doc_page d)) as ((Hdl & Hcase) & _).
    unfold one_job_per_flow, in_flight in *. simpl. rewrite Hdl.
    destruct (accepted r) as [job|].
    + destruct Hcase as (-> & ->). rewrite !open_count_snoc. simpl.
      destruct (submitBtn_disabled (dub (doc_page d))); repeat split; lia.
    + destruct Hcase as (-> & ->).
      destruct (submitBtn_disabled (dub (doc_page d))); repeat split; lia.
  - (* ClickFetchInfo *)
    destruct (fetchInfoBtn_disabled (dl (doc_page d))); [done|].
    apply (same_jobs d); try done; simpl; unfold fetchInfo_click;
      by destruct (truthy (trim url)).
  - (* InfoRequestSettled *)
    destruct (awaiting_info d) as [|n]; [done|].
    destruct (fetchInfo_resume_jobs r (doc_page d, doc_prefs d, doc_panel d))
      as (Hj & Hbtn).
    apply (same_jobs d); try done. cbn [doc_page].
    destruct Hbtn as [-> | ->]; simpl; lia.
  - (* ClickMediaType *)
    destruct (dlTypeBtn_click_jobs i (doc_page d, doc_panel d)) as (Hj & Hbtn).
    apply (same_jobs d); try done. cbn [doc_page].
    destruct Hbtn as [-> | ->]; simpl; lia.
  - (* ChangeFormat *)
    apply (same_jobs d); try done. simpl. lia.
  - (* ClickDownload *)
    destruct (dlStartBtn_disabled (dl (doc_page d))) eqn:Hlock; [done|].
    unfold one_job_per_flow, in_flight in *. simpl. unfold dlStart_click.
    destruct (truthy (trim url)), (truthy (formatSelect_value sel (doc_panel d))); simpl;
      rewrite ?Hlock; try done.
    repeat split; simpl; lia.
  - (* DownloadRequestSettled *)
    destruct (awaiting_dl d) as [|n] eqn:Hw; [done|].
    destruct (job_request_cases r (doc_page d)) as (_ & (Hdub & Hcase)).
    unfold one_job_per_flow, in_flight in *. simpl. rewrite Hdub.
    destruct (accepted r) as [job|].
    + destruct Hcase as (-> & ->). rewrite !open_count_snoc. simpl.
      destruct (dlStartBtn_disabled (dl (doc_page d))); repeat split; lia.
    + destruct Hcase as (-> & -> & ->).
      destruct (dlStartBtn_disabled (dl (doc_page d))); repeat split; lia.
  - (* Message *)
    destruct (dispatch_message_jobs k data (doc_page d))
      as [[Hj Hbtn]|(src & Hk & Hc & Hs & Hf)].
    + apply (same_jobs d); try done. simpl. by rewrite Hbtn.
    + by apply (closing_ends_the_job d _ k src).
  - (* TransportError *)
    destruct (dispatch_error_jobs k (doc_page d))
      as [[Hj Hbtn]|(src & Hk & Hc & Hs & Hf)].
    + apply (same_jobs d); try done. simpl. by rewrite Hbtn.
    + by apply (closing_ends_the_job d _ k src).
  - (* ClickModeTab *)
    destruct (modeTab_click_jobs i (doc_page d, doc_tabs d)) as (Hj & Hbtn).
    apply (same_jobs d); try done. cbn [doc_page]. by rewrite Hbtn.
  - (* ClickLangToggle *)
    destruct (langToggle_click_jobs (doc_page d, doc_prefs d)) as (Hj & Hbtn).
    apply (same_jobs d); try done. cbn [doc_page]. by rewrite Hbtn.
  - (* ClickThemeToggle *)
    by apply (same_jobs d).
Qed.

(** X21. Whatever the user does and whatever the network brings (form
    submissions, clicks on the fetch-info, download, media type, tab,
    language and theme controls, a change of format, requests settling,
    stream messages and stream errors, in any order), each flow has at most
    one job in flight, its control is disabled exactly while it has one,
    and the download panel holds at most one save button. *)
Theorem one_job_per_flow_always (acts : list Action) (d : Doc) :
  one_job_per_flow d -> one_job_per_flow (run acts d).
Proof.
  revert d. induction acts as [|a rest IH]; intros d Hinv; simpl; [done|].
  by apply IH, perform_keeps_one_job.
Qed.

Lemma one_job_per_flow_always_witness :
  let acts :=
    [Submit "https://youtu.be/abc" "es" "female" false;
     Submit "https://youtu.be/xyz" "fr" "male" false;
     DubRequestSettled (Fulfilled {| res_status := 200;
                                     res_body := BodyObject NoDetail (Some "job-1") |});
     ClickModeTab 1;
     Message 0 (JsonEvent (running "download" 40));
     Submit "https://youtu.be/xyz" "fr" "male" false] in
  one_job_per_flow loaded_doc
  /\ one_job_per_flow (run acts loaded_doc)
  /\ requests (env (doc_page (run acts loaded_doc)))
     = [PostDub "https://youtu.be/abc" "es" "female" false].
Proof.
  intros acts.
  assert (H : one_job_per_flow loaded_doc) by (repeat split; simpl; lia).
  exact (conj H (conj (one_job_per_flow_always acts loaded_doc H) eq_refl)).
Defined.

(** ** The two flows side by side *)

(** X22. The two flows do not touch each other's display: a message or a
    transport error of a dubbing stream leaves the download panel's state
    as it was, and one of a download stream leaves the dubbing form, its
    progress section and its result as they were. *)
Theorem flows_do_not_interfere (k : nat) (src : EventSource) (data : Payload) (p : Page) :
  sources (env p) !! k = Some src ->
  match es_flow src with
  | DubFlow => dl (dispatch_message k data p) = dl p /\ dl (dispatch_error k p) = dl p
  | DownloadFlow => dub (dispatch_message k data p) = dub p /\ dub (dispatch_error k p) = dub p
  end.
Proof.
  intros Hk. unfold dispatch_message, dispatch_error, onmessage, onerror. rewrite Hk.
  destruct (es_flow src), (es_closed src); try done.
  - split; [|by run_handler].
    destruct data as [| |ev]; run_handler; try done.
    pose proof (handleProgressEvent_rest ev (es_job src) p) as Hdl.
    by destruct (terminal (ev_status ev)).
  - split; [|by run_handler].
    destruct data as [| |ev]; run_handler; try done.
    by destruct (progress_ge0 _ && progress_le100 _), (truthy_opt _),
      (String.eqb (ev_status ev) "complete"), (String.eqb (ev_status ev) "error").
Qed.

Lemma flows_do_not_interfere_witness :
  let src := {| es_url := "/api/progress/job-2"; es_flow := DownloadFlow;
                es_job := Some "job-2"; es_closed := false |} in
  let ev := {| ev_step := "render"; ev_progress := PNum 100;
               ev_message := Some "done"; ev_status := "complete" |} in
  sources (env dl_job_page) !! 0%nat = Some src
  /\ dub (dispatch_message 0 (JsonEvent ev) dl_job_page) = dub dl_job_page
  /\ dub (dispatch_error 0 dl_job_page) = dub dl_job_page.
Proof.
  intros src ev.
  assert (H : sources (env dl_job_page) !! 0%nat = Some src) by reflexivity.
  exact (conj H (flows_do_not_interfere 0 src (JsonEvent ev) dl_job_page H)).
Defined.

(** How an action can change the list of event sources: not at all, by one
    new source at the end, or by closing one. *)
Lemma perform_sources (a : Action) (d : Doc) :
  let l := sources (env (doc_page d)) in
  let l' := sources (env (doc_page (perform a d))) in
  l' = l \/ (exists src, l' = (l ++ [src])%list) \/ (exists k, l' = alter closed_source k l).
Proof.
  assert (forall p p' : Page, job_state p' = job_state p -> sources (env p') = sources (env p))
    as Hjs by (unfold job_state; intros ? ? [= -> _ _]; done).
  destruct a as [url lang gender sub|r|url|r|i| |url sel|r|k data|k|i| |];
    cbn [perform]; cbv zeta.
  - destruct (submitBtn_disabled _); [by left|]. left. simpl. unfold form_submit.
    by destruct (truthy (trim url)).
  - destruct (awaiting_dub d); [by left|].
    destruct (job_request_cases r (doc_page d)) as ((_ & Hcase) & _). simpl.
    destruct (accepted r); [right; left; eexists; apply Hcase | left; apply Hcase].
  - destruct (fetchInfoBtn_disabled _); [by left|]. left. simpl. unfold fetchInfo_click.
    by destruct (truthy (trim url)).
  - destruct (awaiting_info d); [by left|]. left.
    apply (Hjs _ _ (proj1 (fetchInfo_resume_jobs r (doc_page d, doc_prefs d, doc_panel d)))).
  - left. apply (Hjs _ _ (proj1 (dlTypeBtn_click_jobs i (doc_page d, doc_panel d)))).
  - by left.
  - destruct (dlStartBtn_disabled _); [by left|]. left. simpl. unfold dlStart_click.
    by destruct (truthy (trim url)), (truthy (formatSelect_value sel (doc_panel d))).
  - destruct (awaiting_dl d); [by left|].
    destruct (job_request_cases r (doc_page d)) as (_ & (_ & Hcase)). simpl.
    destruct (accepted r); [right; left; eexists; apply Hcase | left; apply Hcase].
  - destruct (dispatch_message_jobs k data (doc_page d))
      as [[Hj _]|(src & _ & _ & Hs & _)]; [left; by apply Hjs | right; right; by exists k].
  - destruct (dispatch_error_jobs k (doc_page d))
      as [[Hj _]|(src & _ & _ & Hs & _)]; [left; by apply Hjs | right; right; by exists k].
  - left. apply (Hjs _ _ (proj1 (modeTab_click_jobs i (doc_page d, doc_tabs d)))).
  - left. apply (Hjs _ _ (proj1 (langToggle_click_jobs (doc_page d, doc_prefs d)))).
  - by left.
Qed.

(** X23. Under any sequence of actions an event source, once created,
    stays where it is in the list with its URL, flow and job id, and once
    closed it is never open again: no handler reconnects, removes or
    retargets a subscription. *)
Theorem event_source_never_reopened (acts : list Action) (d : Doc) (k : nat)
    (src : EventSource) :
  sources (env (doc_page d)) !! k = Some src ->
  exists src',
    sources (env (doc_page (run acts d))) !! k = Some src'
    /\ es_url src' = es_url src /\ es_flow src' = es_flow src /\ es_job src' = es_job src
    /\ (es_closed src = true -> es_closed src' = true).
Proof.
  revert d src. induction acts as [|a rest IH]; intros d src Hk; simpl.
  { by exists src. }
  assert (exists src1,
    sources (env (doc_page (perform a d))) !! k = Some src1
    /\ es_url src1 = es_url src /\ es_flow src1 = es_flow src /\ es_job src1 = es_job src
    /\ (es_closed src = true -> es_closed src1 = true)) as (src1 & Hk1 & Hu & Hf & Hj & Hc).
  { destruct (perform_sources a d) as [->|[[s ->]|[k' ->]]].
    - by exists src.
    - exists src. split; [|done]. by apply lookup_app_l_Some.
    - destruct (decide (k' = k)) as [->|Hne].
      + exists (closed_source src). split; [|done].
        by rewrite list_lookup_alter_eq, Hk.
      + exists src. split; [|done]. by rewrite list_lookup_alter_ne. }
  destruct (IH _ _ Hk1) as (src' & Hk' & Hu' & Hf' & Hj' & Hc').
  exists src'. repeat split; try congruence. auto.
Qed.

Lemma event_source_never_reopened_witness :
  let d := with_page (dispatch_error 0 dub_job_page) loaded_doc in
  let src := {| es_url := "/api/progress/job-1"; es_flow := DubFlow;
                es_job := Some "job-1"; es_closed := true |} in
  let acts := [Message 0 (JsonEvent (running "download" 40));
               Submit "https://youtu.be/xyz" "fr" "male" false;
               DubRequestSettled (Fulfilled {| res_status := 200;
                                               res_body := BodyObject NoDetail (Some "job-9") |})] in
  sources (env (doc_page d)) !! 0%nat = Some src
  /\ exists src',
       sources (env (doc_page (run acts d))) !! 0%nat = Some src'
       /\ es_url src' = es_url src /\ es_flow src' = es_flow src /\ es_job src' = es_job src
       /\ (es_closed src = true -> es_closed src' = true).
Proof.
  intros d src acts.
  assert (H : sources (env (doc_page d)) !! 0%nat = Some src) by reflexivity.
  exact (conj H (event_source_never_reopened acts d 0 src H)).
Defined.
